(** * CLIME: local surrogate explanations (bLIMEy) and fidelity metrics

    A shallow embedding of [clime/explainer/BLIMEY.py] and
    [clime/evaluation/faithfulness.py].

    Numeric conventions.  A [float64] entry of an array is a rational
    number ([Q]); an [int64] entry is an integer ([Z]).  The three special
    values a scalar division can produce ([nan], [+inf], [-inf]) are kept
    apart in [float64].  Rounding error and range overflow of the machine
    formats are not represented: equalities between scores are equalities
    of rationals ([==]).

    An ndarray of shape (n,) is the list of its n entries; an ndarray of
    shape (n, d) is the list of its n rows (the column count of an array
    with no rows is not represented).

    Effects.  Python code raises exceptions, records warnings and, in the
    sampler, reads and advances numpy's process-wide random generator.
    All three are threaded through the monad [M]. *)

From Stdlib Require Import ZArith QArith Qround Qabs Lqa Lia.
From stdpp Require Import base option list gmap strings.

Local Open Scope Z_scope.

(** ** Exceptions, warnings and the interpreter state *)

Inductive exn :=
  | ZeroDivisionError
  | ValueError
  | KeyError
  | IndexError
  | TypeError
  | AttributeError.

(** [ZeroDivisionError] is the only class above deriving from Python's
    [ArithmeticError]. *)
Definition is_ArithmeticError (e : exn) : bool :=
  match e with ZeroDivisionError => true | _ => false end.

Inductive warning :=
  | Warning (msg : string)
  | RuntimeWarning (msg : string).

Record world := World {
  rng : Z;                  (* state of numpy's global generator *)
  warnings : list warning   (* warnings issued so far, latest first *)
}.

Inductive result (A : Type) :=
  | Raise (e : exn)
  | Ret (a : A).
Arguments Raise {A} e.
Arguments Ret {A} a.

Definition M (A : Type) : Type := world -> result A * world.

Definition ret {A} (a : A) : M A := fun w => (Ret a, w).

Definition bind {A B} (c : M A) (k : A -> M B) : M B :=
  fun w => match c w with
           | (Ret a, w') => k a w'
           | (Raise e, w') => (Raise e, w')
           end.

Definition raise {A} (e : exn) : M A := fun w => (Raise e, w).

Definition warn (x : warning) : M unit :=
  fun w => (Ret tt, World (rng w) (x :: warnings w)).

(** [M] is a monad in stdpp's sense, which provides the notations
    [x ← c; k] and [c;; k]. *)
#[global] Instance M_ret : MRet M := @ret.
#[global] Instance M_bind : MBind M := fun A B k c => bind c k.

(** ** Scalars and arrays *)

Inductive float64 :=
  | Finite (x : Q)
  | NaN
  | Inf (negative : bool).

(** The values Python arithmetic distinguishes here: the builtin [int] and
    [float], and numpy's scalar types. *)
Inductive pynum :=
  | PyInt (z : Z)
  | PyFloat (x : Q)
  | NpInt64 (z : Z)
  | NpFloat64 (x : float64).

(** One-dimensional arrays carry their dtype. *)
Inductive vec :=
  | IVec (v : list Z)
  | FVec (v : list Q).

Abbreviation matrix := (list (list Q)).

(** Values stored in the dictionaries [data] and [sampled_data]. *)
Inductive ndarray :=
  | Int1D (v : list Z)
  | Float2D (m : matrix).

Definition vlen (a : vec) : nat :=
  match a with IVec v => length v | FVec v => length v end.

Definition to_float (a : vec) : list Q :=
  match a with IVec v => map inject_Z v | FVec v => v end.

Definition Qsum (l : list Q) : Q := fold_left Qplus l 0%Q.
Definition Zsum (l : list Z) : Z := fold_left Z.add l 0.

(** The builtin [sum(a)]: starts from the [int] 0 and adds the entries from
    left to right, so the sum of an empty array is the Python [int] 0 and
    any other sum is a numpy scalar. *)
Definition py_sum (a : vec) : pynum :=
  match a with
  | IVec [] | FVec [] => PyInt 0
  | IVec v => NpInt64 (Zsum v)
  | FVec v => NpFloat64 (Finite (Qsum v))
  end.

Definition Qzero (x : Q) : bool := Qeq_bool x 0.
Definition Qneg (x : Q) : bool := negb (Qle_bool 0 x).

(** IEEE division on the extended values; the flag says whether numpy
    issues a [RuntimeWarning] (division by zero, invalid operation). *)
Definition fdiv (a b : float64) : float64 * bool :=
  match a, b with
  | NaN, _ | _, NaN => (NaN, false)
  | Inf _, Inf _ => (NaN, true)
  | Inf s, Finite y => (Inf (xorb s (Qneg y)), false)
  | Finite _, Inf _ => (Finite 0, false)
  | Finite x, Finite y =>
      if Qzero y then
        if Qzero x then (NaN, true) else (Inf (Qneg x), true)
      else (Finite (x / y), false)
  end.

Definition as_float64 (a : pynum) : float64 :=
  match a with
  | PyInt z | NpInt64 z => Finite (inject_Z z)
  | PyFloat x => Finite x
  | NpFloat64 x => x
  end.

(** The value of a builtin number; [None] for a numpy scalar. *)
Definition builtin (a : pynum) : option Q :=
  match a with
  | PyInt z => Some (inject_Z z)
  | PyFloat x => Some x
  | NpInt64 _ | NpFloat64 _ => None
  end.

(** The operator [/].  Between two builtin numbers a zero divisor raises
    [ZeroDivisionError]; as soon as one operand is a numpy scalar the
    division is numpy's, which returns [nan] or [inf] and warns. *)
Definition truediv (a b : pynum) : M pynum :=
  match builtin a, builtin b with
  | Some x, Some y =>
      if Qzero y then raise ZeroDivisionError else ret (PyFloat (x / y))
  | _, _ =>
      let '(r, flag) := fdiv (as_float64 a) (as_float64 b) in
      (if flag
       then warn (RuntimeWarning "invalid value encountered in scalar divide")
       else ret tt);;
      ret (NpFloat64 r)
  end.

(** numpy broadcasting of a binary elementwise operation on two
    one-dimensional operands. *)
Definition broadcast2 {A B C} (f : A -> B -> C) (a : list A) (b : list B)
  : M (list C) :=
  if decide (length a = length b) then ret (zip_with f a b)
  else match a, b with
       | [x], _ => ret (map (f x) b)
       | _, [y] => ret (map (fun x => f x y) a)
       | _, _ => raise ValueError
       end.

(** The in-place form [a op= b]: the result must have the shape of [a]. *)
Definition broadcast2_inplace {A B} (f : A -> B -> A) (a : list A) (b : list B)
  : M (list A) :=
  if decide (length a = length b) then ret (zip_with f a b)
  else match b with
       | [y] => ret (map (fun x => f x y) a)
       | _ => raise ValueError
       end.

(** [a * b] on arrays: int64 times int64 stays int64, anything else is
    float64. *)
Definition np_mul (a b : vec) : M vec :=
  match a, b with
  | IVec x, IVec y => r ← broadcast2 Z.mul x y; ret (IVec r)
  | _, _ => r ← broadcast2 Qmult (to_float a) (to_float b); ret (FVec r)
  end.

(** Conversion of a float64 entry to int64 (truncation toward zero), used
    by [astype(np.int64)] and by assignment into an int64 array. *)
Definition Qtrunc (x : Q) : Z := Z.quot (Qnum x) (Zpos (Qden x)).

Definition np_ones (n : nat) : list Q := repeat 1%Q n.

(** [a *= b] where [a] is a float64 array. *)
Definition np_imul (a : list Q) (b : vec) : M (list Q) :=
  broadcast2_inplace Qmult a (to_float b).

(** [a[mask] = x]: the entries selected by the boolean mask are
    overwritten. *)
Definition assign_masked {A} (a : list A) (mask : list bool) (x : A) : list A :=
  zip_with (fun (v : A) (m : bool) => if m then x else v) a mask.

(** ** Dictionaries holding a dataset

    [data] is a Python dict with the float64 feature matrix under ['X']
    and, when present, the int64 class labels under ['y'] (the datasets of
    [clime/data/datasets.py] build [y] with [dtype=np.int64]). *)

Definition getitem (data : gmap string ndarray) (key : string) : M ndarray :=
  match data !! key with
  | Some a => ret a
  | None => raise KeyError
  end.

Definition as_float2d (a : ndarray) : M matrix :=
  match a with Float2D m => ret m | Int1D _ => raise TypeError end.

Definition as_int1d (a : ndarray) : M (list Z) :=
  match a with Int1D v => ret v | Float2D _ => raise TypeError end.

(** ** The interface shared by black boxes and explainers

    Both are used through [predict] (a label per row) and, for the black
    box, [predict_proba] (a probability row per row). *)

Class Classifier (T : Type) := {
  predict : T -> matrix -> M (list Z);
  predict_proba : T -> matrix -> M matrix
}.

(** ** clime/evaluation/faithfulness.py *)

Module faithfulness.
Section faithfulness.

Context {E B : Type} `{!Classifier E, !Classifier B}.

(** [clime.data.costs] is a module of the package that is not embedded
    here: its two functions are parameters. *)
Variable weights_based_on_distance : list Q -> matrix -> M (list Q).
Variable weight_based_on_class_imbalance : gmap string ndarray -> M (list Q).

Definition _get_preds (expl : E) (black_box_model : B)
    (data : gmap string ndarray) : M vec :=
  X ← getitem data "X" ≫= as_float2d;
  bb_preds ← predict black_box_model X;
  X ← getitem data "X" ≫= as_float2d;
  expl_preds ← predict expl X;
  same ← broadcast2 (fun a b : Z => bool_decide (a = b)) bb_preds expl_preds;
  ret (IVec (map (fun s : bool => if s then 1 else 0) same)).

Definition _get_class_weights (data : gmap string ndarray) : M vec :=
  if decide (data !! "y" = None) then
    warn (Warning "No class data 'y': not using class balanced weightings");;
    X ← getitem data "X" ≫= as_float2d;
    ret (FVec (np_ones (length X)))
  else
    weightings ← weight_based_on_class_imbalance data;
    weights ← getitem data "y" ≫= as_int1d;
    let masks : gmap nat (list bool) :=
      foldl (fun masks i =>
               <[i := map (fun w => bool_decide (w = Z.of_nat i)) weights]> masks)
            ∅ (seq 0 (length weightings)) in
    (* both lookups below are in range: [i < len(weightings)] *)
    let weights :=
      foldl (fun weights i =>
               assign_masked weights (default [] (masks !! i))
                             (Qtrunc (default 0%Q (weightings !! i))))
            weights (seq 0 (length weightings)) in
    ret (IVec weights).

Definition fidelity (expl : E) (black_box_model : B)
    (data : gmap string ndarray) : M pynum :=
  same_preds ← _get_preds expl black_box_model data;
  truediv (py_sum same_preds) (PyInt (Z.of_nat (vlen same_preds))).

Definition local_fidelity (expl : E) (black_box_model : B)
    (data : gmap string ndarray) (query_point : list Q) : M pynum :=
  same_preds ← _get_preds expl black_box_model data;
  X ← getitem data "X" ≫= as_float2d;
  weights ← weights_based_on_distance query_point X;
  num ← np_mul same_preds (FVec weights);
  truediv (py_sum num) (py_sum (FVec weights)).

Definition bal_fidelity (expl : E) (black_box_model : B)
    (data : gmap string ndarray) : M pynum :=
  same_preds ← _get_preds expl black_box_model data;
  weights ← _get_class_weights data;
  num ← np_mul same_preds weights;
  truediv (py_sum num) (py_sum weights).

Definition local_and_bal_fidelity (expl : E) (black_box_model : B)
    (data : gmap string ndarray) (query_point : list Q) : M pynum :=
  same_preds ← _get_preds expl black_box_model data;
  X ← getitem data "X" ≫= as_float2d;
  weights ← weights_based_on_distance query_point X;
  class_weights ← _get_class_weights data;
  weights ← np_imul weights class_weights;
  num ← np_mul same_preds (FVec weights);
  truediv (py_sum num) (py_sum (FVec weights)).

End faithfulness.
End faithfulness.

(** ** clime/evaluation/__init__.py

    The registry of metrics.  Every entry is called with the explainer, the
    black box, the dataset and the query point as keyword arguments; the
    two metrics that take no query point receive it in their [**kwargs]. *)

Module evaluation.
Section registry.

Context {E B : Type} `{!Classifier E, !Classifier B}.
Variable weights_based_on_distance : list Q -> matrix -> M (list Q).
Variable weight_based_on_class_imbalance : gmap string ndarray -> M (list Q).

Definition AVAILABLE_EVALUATION_METRICS
  : gmap string (E -> B -> gmap string ndarray -> list Q -> M pynum) :=
  <["fidelity (normal)" :=
      fun expl black_box_model data _ =>
        faithfulness.fidelity expl black_box_model data]>
  (<["fidelity (local and balanced)" :=
       faithfulness.local_and_bal_fidelity weights_based_on_distance
         weight_based_on_class_imbalance]>
  (<["fidelity (class balanced)" :=
       fun expl black_box_model data _ =>
         faithfulness.bal_fidelity weight_based_on_class_imbalance
           expl black_box_model data]>
  (<["fidelity (local)" :=
       faithfulness.local_fidelity weights_based_on_distance]> ∅))).

End registry.
End evaluation.

(** ** numpy and scikit-learn operations used by the explainer *)

Definition np_eye (n : nat) : matrix :=
  map (fun i => map (fun j => if decide (i = j) then 1%Q else 0%Q) (seq 0 n))
      (seq 0 n).

(** [m.T] *)
Definition transpose (m : matrix) : matrix :=
  match m with
  | [] => []
  | r :: _ => map (fun j => map (fun row => nth j row 0%Q) m) (seq 0 (length r))
  end.

(** [np.round]: to the nearest integer, halves to the even neighbour. *)
Definition np_round (x : Q) : Q :=
  let f := Qfloor x in
  let r := (x - inject_Z f)%Q in
  match r ?= 1 # 2 with
  | Lt => inject_Z f
  | Gt => inject_Z (f + 1)
  | Eq => if Z.even f then inject_Z f else inject_Z (f + 1)
  end.

(** [np.heaviside(x1, x2)]: 0 below zero, [x2] at zero, 1 above. *)
Definition np_heaviside (x1 x2 : Q) : Q :=
  match x1 ?= 0 with
  | Lt => 0
  | Eq => x2
  | Gt => 1
  end.

(** The monadic map over the rows of an array. *)
Fixpoint forM {A B} (f : A -> M B) (l : list A) : M (list B) :=
  match l with
  | [] => ret []
  | x :: l' => y ← f x; ys ← forM f l'; ret (y :: ys)
  end.

(** The inner product of two vectors, which must have one length. *)
Definition inner (x y : list Q) : M Q :=
  if decide (length x = length y) then ret (Qsum (zip_with Qmult x y))
  else raise ValueError.

(** [np.dot(m, v)] for a two-dimensional [m] and a one-dimensional [v]. *)
Definition np_dot (m : matrix) (v : list Q) : M (list Q) :=
  forM (fun row => inner row v) m.

(** [m[:, j]] *)
Definition column (j : nat) (m : matrix) : M (list Q) :=
  forM (fun row : list Q =>
          match row !! j with Some x => ret x | None => raise IndexError end) m.

(** A fitted [sklearn.linear_model.Ridge] with a two-dimensional target:
    [coef_] has one row per target column, [intercept_] one entry. *)
Record Ridge := {
  coef_ : matrix;
  intercept_ : list Q
}.

(** [Ridge.predict(X)], that is [X @ coef_.T + intercept_]; scikit-learn
    rejects an array without rows. *)
Definition Ridge_predict (m : Ridge) (X : matrix) : M matrix :=
  match X with
  | [] => raise ValueError
  | _ => forM (fun x => scores ← forM (inner x) (coef_ m);
                        broadcast2 Qplus scores (intercept_ m)) X
  end.

(** ** clime/explainer/BLIMEY.py *)

Module BLIMEY.

Record bLIMEy := {
  query_point : list Q;
  data_test : option (gmap string ndarray);
  sampling_cov : option matrix;
  samples : Z;
  class_weight_data : bool;
  class_weight_sampled : bool;
  weight_locally : bool;
  rebalance_sampled_data : bool;
  (* attributes written by the two construction phases *)
  sampled_data : gmap string ndarray;
  surrogate_model : option Ridge
}.

Definition set_sampled_data (self : bLIMEy) (d : gmap string ndarray) : bLIMEy :=
  {| query_point := query_point self; data_test := data_test self;
     sampling_cov := sampling_cov self; samples := samples self;
     class_weight_data := class_weight_data self;
     class_weight_sampled := class_weight_sampled self;
     weight_locally := weight_locally self;
     rebalance_sampled_data := rebalance_sampled_data self;
     sampled_data := d; surrogate_model := surrogate_model self |}.

Definition set_surrogate_model (self : bLIMEy) (m : Ridge) : bLIMEy :=
  {| query_point := query_point self; data_test := data_test self;
     sampling_cov := sampling_cov self; samples := samples self;
     class_weight_data := class_weight_data self;
     class_weight_sampled := class_weight_sampled self;
     weight_locally := weight_locally self;
     rebalance_sampled_data := rebalance_sampled_data self;
     sampled_data := sampled_data self; surrogate_model := Some m |}.

Section construction.

Context {B : Type} `{!Classifier B}.

(** numpy: [np.random.multivariate_normal(mean, cov, size)], which draws
    from the process-wide generator, and [np.cov]. *)
Variable multivariate_normal : list Q -> matrix -> Z -> M matrix.
Variable np_cov : matrix -> M matrix.
(** scikit-learn: [Ridge(alpha=1, fit_intercept=True).fit(X, y,
    sample_weight)]. *)
Variable Ridge_fit : matrix -> matrix -> list Q -> M Ridge.
(** [clime.data.balance_oversample] and the two functions of
    [clime.data.costs], which are not embedded here. *)
Variable balance_oversample : gmap string ndarray -> M (gmap string ndarray).
Variable weights_based_on_distance : list Q -> matrix -> M (list Q).
Variable weight_based_on_class_imbalance : gmap string ndarray -> M (list Q).

Definition _get_local_sampling_cov (self : bLIMEy) : M matrix :=
  match sampling_cov self with
  | None =>
      match data_test self with
      | None => ret (np_eye (length (query_point self)))
      | Some data =>
          X ← getitem data "X" ≫= as_float2d;
          np_cov (transpose X)
      end
  | Some cov => ret cov
  end.

Definition _sample_locally (self : bLIMEy) (black_box_model : B) : M bLIMEy :=
  cov ← _get_local_sampling_cov self;
  let self := set_sampled_data self ∅ in
  X ← multivariate_normal (query_point self) cov (samples self);
  let self := set_sampled_data self (<["X" := Float2D X]> (sampled_data self)) in
  X ← getitem (sampled_data self) "X" ≫= as_float2d;
  y ← predict black_box_model X;
  ret (set_sampled_data self (<["y" := Int1D y]> (sampled_data self))).

(** The class-imbalance factor of a sample: the rounded probability row
    times the per-class weights. *)
Definition apply_class_weights (self : bLIMEy) (class_weights : list Q)
    (weights : list Q) : M (list Q) :=
  p ← getitem (sampled_data self) "p(y)" ≫= as_float2d;
  let class_preds_matrix := map (map np_round) p in
  instance_class_imbalance_weights ← np_dot class_preds_matrix class_weights;
  np_imul weights (FVec instance_class_imbalance_weights).

Definition _train_surrogate (self : bLIMEy) (black_box_model : B) : M bLIMEy :=
  self ← (if rebalance_sampled_data self
          then d ← balance_oversample (sampled_data self);
               ret (set_sampled_data self d)
          else ret self);
  X ← getitem (sampled_data self) "X" ≫= as_float2d;
  p ← predict_proba black_box_model X;
  let self := set_sampled_data self (<["p(y)" := Float2D p]> (sampled_data self)) in
  weights ← (X ← getitem (sampled_data self) "X" ≫= as_float2d;
             if weight_locally self
             then weights_based_on_distance (query_point self) X
             else ret (np_ones (length X)));
  weights ← (if class_weight_data self
             then class_weights ←
                    match data_test self with
                    | Some data => weight_based_on_class_imbalance data
                    | None => raise TypeError
                    end;
                  apply_class_weights self class_weights weights
             else ret weights);
  weights ← (if class_weight_sampled self
             then class_weights ←
                    weight_based_on_class_imbalance (sampled_data self);
                  apply_class_weights self class_weights weights
             else ret weights);
  X ← getitem (sampled_data self) "X" ≫= as_float2d;
  p ← getitem (sampled_data self) "p(y)" ≫= as_float2d;
  m ← Ridge_fit X p weights;
  ret (set_surrogate_model self m).

Definition __init__ (black_box_model : B) (query_point : list Q)
    (data : option (gmap string ndarray)) (sampling_cov : option matrix)
    (samples : Z)
    (class_weight_data class_weight_sampled weight_locally
       rebalance_sampled_data : bool) : M bLIMEy :=
  let self :=
    {| query_point := query_point; data_test := data;
       sampling_cov := sampling_cov; samples := samples;
       class_weight_data := class_weight_data;
       class_weight_sampled := class_weight_sampled;
       weight_locally := weight_locally;
       rebalance_sampled_data := rebalance_sampled_data;
       sampled_data := ∅; surrogate_model := None |} in
  self ← _sample_locally self black_box_model;
  _train_surrogate self black_box_model.

End construction.

(** [self.surrogate_model]; the attribute exists once training has run. *)
Definition get_surrogate_model (self : bLIMEy) : M Ridge :=
  match surrogate_model self with
  | Some m => ret m
  | None => raise AttributeError
  end.

Definition get_explanation (self : bLIMEy) : M (list Q) :=
  m ← get_surrogate_model self;
  match coef_ m !! 0%nat with
  | Some row => ret row
  | None => raise IndexError
  end.

Definition predict_proba (self : bLIMEy) (X : matrix) : M matrix :=
  m ← get_surrogate_model self;
  Ridge_predict m X.

Definition predict (self : bLIMEy) (X : matrix) : M (list Z) :=
  m ← get_surrogate_model self;
  P ← Ridge_predict m X;
  probability_class_1 ← column 1 P;
  let class_prediction :=
    map (fun p => np_heaviside (p - (1 # 2)) 1) probability_class_1 in
  ret (map Qtrunc class_prediction).

#[global] Instance bLIMEy_Classifier : Classifier bLIMEy :=
  Build_Classifier bLIMEy predict predict_proba.

End BLIMEY.

(** ** clime/data/datasets.py *)

Module datasets.

(** A builtin number, as the argument [var] is given. *)
Inductive number :=
  | Int (z : Z)
  | Float (x : Q).

Definition value (n : number) : Q :=
  match n with Int z => inject_Z z | Float x => x end.

(** A covariance argument: a nested Python list, as the default
    [[[1,0],[0,1]]] is, or an ndarray. *)
Inductive covariance :=
  | NestedList (rows : matrix)
  | Array (m : matrix).

(** The arrays stored in the returned dict. *)
Inductive array :=
  | Vector (v : vec)
  | Matrix (m : matrix).

(** [l[i]] *)
Definition index {A} (l : list A) (i : nat) : M A :=
  match l !! i with
  | Some x => ret x
  | None => raise IndexError
  end.

(** A [for] loop threading the variables it assigns. *)
Fixpoint foldM {A S} (f : S -> A -> M S) (s : S) (l : list A) : M S :=
  match l with
  | [] => ret s
  | x :: l' => s' ← f s x; foldM f s' l'
  end.

(** [np.vstack([a, b])] where [a] has [columns] columns. *)
Definition np_vstack (columns : nat) (a b : matrix) : M matrix :=
  if forallb (fun row => Nat.eqb (length row) columns) b then ret (a ++ b)
  else raise ValueError.

(** [np.append(a, values)] for a list of Python ints: the empty list
    becomes a float64 array, and so does the result. *)
Definition np_append (a : vec) (values : list Z) : vec :=
  match values, a with
  | [], _ => FVec (to_float a)
  | _, IVec v => IVec (v ++ values)
  | _, FVec v => FVec (v ++ map inject_Z values)
  end.

Record GaussClass := {
  mean : list Q;
  cov : matrix;
  data : option matrix   (* set by [gen_data] *)
}.

(** [GaussClass.__init__].  [covariance*variance] on a Python list is
    repetition by an [int] and a [TypeError] with a [float]; on an ndarray
    it is the elementwise product. *)
Definition __init__ (x y : Q) (variance : number)
    (covariance : option covariance) : M GaussClass :=
  let mean := [x; y] in
  cov ← match covariance with
        | None => ret (map (map (Qmult (value variance))) (np_eye 2))
        | Some (NestedList rows) =>
            match variance with
            | Int z => ret (mjoin (replicate (Z.to_nat z) rows))
            | Float _ => raise TypeError
            end
        | Some (Array m) =>
            ret (map (map (fun c => c * value variance)%Q) m)
        end;
  ret {| mean := mean; cov := cov; data := None |}.

Section datasets.

(** [clime.RANDOM_SEED] *)
Variable RANDOM_SEED : Z.
(** numpy: [np.random.default_rng(randomseed).multivariate_normal(mean,
    cov, size)], a generator of its own seeded with [randomseed]. *)
Variable default_rng_multivariate_normal :
  Z -> list Q -> matrix -> Z -> M matrix.
(** scikit-learn: [sklearn.utils.shuffle(X, y, random_state)]. *)
Variable shuffle : Z -> matrix -> vec -> M (matrix * vec).

Definition gen_data (self : GaussClass) (randomseed : Z) (size : Z)
  : M GaussClass :=
  d ← default_rng_multivariate_normal randomseed (mean self) (cov self) size;
  ret {| mean := mean self; cov := cov self; data := Some d |}.

(** [gaussclass.data] *)
Definition get_data (self : GaussClass) : M matrix :=
  match data self with
  | Some d => ret d
  | None => raise AttributeError
  end.

(** The seed of a class' sampler. *)
Definition class_seed (label : Z) (test : bool) : Z :=
  let seed := RANDOM_SEED + label in
  if test then (seed + 1) * 2 else seed.

Definition get_gaussian (samples : Z) (var : number)
    (cov : option covariance) (test : bool) : M (gmap string array) :=
  let X : matrix := [] in
  let y := IVec [] in
  let labels := [0; 1] in
  let class_means := [[0; 0]; [1; 1]]%Q in
  Xy ← foldM (fun (Xy : matrix * vec) (ml : list Q * Z) =>
                let '(X, y) := Xy in
                let '(mean, label) := ml in
                let class_samples :=
                  Z.quot samples (Z.of_nat (length labels)) in
                m0 ← index mean 0;
                m1 ← index mean 1;
                gaussclass ← __init__ m0 m1 var cov;
                let seed := class_seed label test in
                gaussclass ← gen_data gaussclass seed class_samples;
                d ← get_data gaussclass;
                X ← np_vstack 2 X d;
                let y := np_append y (replicate (Z.to_nat class_samples) label) in
                ret (X, y))
             (X, y) (zip class_means labels);
  Xy ← shuffle RANDOM_SEED Xy.1 Xy.2;
  ret (<["y" := Vector Xy.2]> (<["X" := Matrix Xy.1]> ∅)).

End datasets.
End datasets.

(** ** Collaborators used to run the code on concrete inputs

    The functions below stand for the libraries and for the modules of the
    package that the files above call.  Every property stated about the
    files holds for arbitrary collaborators; these are the ones the
    examples are run with. *)

Module collaborators.

(** A black box given by its labelling function; its probabilities are the
    hard ones, [[1 - label, label]]. *)
Record black_box := { label_of : list Q -> Z }.

#[global] Instance black_box_Classifier : Classifier black_box :=
  Build_Classifier black_box
    (fun bb X => ret (map (label_of bb) X))
    (fun bb X => ret (map (fun x => let l := inject_Z (label_of bb x) in
                                    [(1 - l)%Q; l]) X)).

(** The stub of the reference scenario: class 1 when the coordinates sum
    to more than 1. *)
Definition sum_above_one : black_box :=
  {| label_of := fun x => if Qle_bool (Qsum x) 1 then 0 else 1 |}.

(** A black box whose probability rows are given outright (any number of
    columns); its label is the index of the first largest entry. *)
Record proba_box := { proba_of : list Q -> list Q }.

Fixpoint argmax_from (i : Z) (best : Z) (bestv : Q) (l : list Q) : Z :=
  match l with
  | [] => best
  | x :: l' => if Qle_bool x bestv then argmax_from (i + 1) best bestv l'
               else argmax_from (i + 1) i x l'
  end.

Definition argmax (l : list Q) : Z :=
  match l with
  | [] => 0
  | x :: l' => argmax_from 1 0 x l'
  end.

#[global] Instance proba_box_Classifier : Classifier proba_box :=
  Build_Classifier proba_box
    (fun bb X => ret (map (fun x => argmax (proba_of bb x)) X))
    (fun bb X => ret (map (proba_of bb) X)).

(** Modelled from the spec: [costs.weights_based_on_distance], a weight
    that is positive, maximal at distance zero and strictly decreasing in
    the Euclidean distance to the query point.  The exponential kernel of
    the reference design has no rational values; the inverse quadratic
    kernel [1 / (1 + distance²)] has the same three properties. *)
Definition squared_distance (q x : list Q) : Q :=
  Qsum (zip_with (fun a b => (a - b) * (a - b))%Q x q).

Definition weights_based_on_distance (query_point : list Q) (X : matrix)
  : M (list Q) :=
  ret (map (fun x => Qred (1 / (1 + squared_distance query_point x))) X).

(** Modelled from the spec: the same weight as a float64 computation of
    the reference design's exponential returns it.  [exp(-746)] is below
    the smallest positive float64, so from a squared distance of 746 on the
    weight is exactly zero. *)
Definition weights_based_on_distance_float64 (query_point : list Q) (X : matrix)
  : M (list Q) :=
  ret (map (fun x => let d2 := squared_distance query_point x in
                     if Qle_bool 746 d2 then 0%Q else Qred (1 / (1 + d2))) X).

(** Modelled from the spec: [costs.weight_based_on_class_imbalance], one
    weight per class of a two-class dataset, inversely proportional to the
    frequency of the class: [n / (2 * count)]. *)
Definition count_label (c : Z) (y : list Z) : Z :=
  Z.of_nat (length (filter (fun l => l = c) y)).

Definition weight_based_on_class_imbalance (data : gmap string ndarray)
  : M (list Q) :=
  y ← getitem data "y" ≫= as_int1d;
  let n := inject_Z (Z.of_nat (length y)) in
  ret (map (fun c => Qred (n / (2 * inject_Z (count_label c y)))) [0; 1]).

(** Modelled from the spec: [clime.data.balance_oversample], which repeats
    rows of the minority class until both classes have as many rows. *)
Definition rows_of_label (c : Z) (X : matrix) (y : list Z) : matrix :=
  omap (fun xy : list Q * Z => if decide (xy.2 = c) then Some xy.1 else None)
       (zip X y).

Fixpoint cycle {A} (n : nat) (l cur : list A) : list A :=
  match n with
  | O => []
  | S n' => match cur with
            | x :: cur' => x :: cycle n' l cur'
            | [] => match l with
                    | x :: l' => x :: cycle n' l l'
                    | [] => []
                    end
            end
  end.

Definition balance_oversample (data : gmap string ndarray)
  : M (gmap string ndarray) :=
  X ← getitem data "X" ≫= as_float2d;
  y ← getitem data "y" ≫= as_int1d;
  let r0 := rows_of_label 0 X y in
  let r1 := rows_of_label 1 X y in
  let n0 := length r0 in
  let n1 := length r1 in
  let '(extra, c) :=
    if decide (n0 < n1)%nat then (cycle (n1 - n0) r0 r0, 0)
    else (cycle (n0 - n1) r1 r1, 1) in
  ret (<["y" := Int1D (y ++ map (fun _ => c) extra)]>
       (<["X" := Float2D (X ++ extra)]> data)).

(** A stand-in for [np.random.multivariate_normal]: like numpy it rejects
    a covariance whose shape does not fit the mean, only warns about a
    covariance that is not positive semi-definite (detected here by a
    negative diagonal entry or a lack of symmetry), and draws the rows from
    the process-wide generator, which it advances.  The values drawn are
    those of a linear congruential generator, not Gaussian ones. *)
Definition lcg (s : Z) : Z := (1103515245 * s + 12345) mod 2147483648.

Definition draw (s : Z) : Q := Qred ((s mod 1024 - 512) # 1024).

Fixpoint draw_row (mean : list Q) (cov : matrix) (s : Z) : list Q * Z :=
  match mean, cov with
  | m :: mean', c :: cov' =>
      let s1 := lcg s in
      let '(row, s') := draw_row mean' cov' s1 in
      (Qred (m + draw s1 * Qsum c) :: row, s')
  | _, _ => ([], s)
  end.

Fixpoint draw_rows (n : nat) (mean : list Q) (cov : matrix) (s : Z)
  : matrix * Z :=
  match n with
  | O => ([], s)
  | S n' =>
      let '(row, s1) := draw_row mean cov s in
      let '(rows, s') := draw_rows n' mean cov s1 in
      (row :: rows, s')
  end.

Definition diagonal (m : matrix) : list Q :=
  imap (fun i row => nth i row 0%Q) m.

Definition symmetric (m : matrix) : bool :=
  bool_decide (Forall2 (Forall2 (fun a b => Qeq_bool a b = true)) m (transpose m)).

Definition draw_sample (n : nat) (mean : list Q) (cov : matrix) : M matrix :=
  fun w =>
    let '(rows, s') := draw_rows n mean cov (rng w) in
    (Ret rows, World s' (warnings w)).

Definition multivariate_normal (mean : list Q) (cov : matrix) (size : Z)
  : M matrix :=
  if negb (forallb (fun row => Nat.eqb (length row) (length mean)) cov
           && Nat.eqb (length cov) (length mean))
  then raise ValueError
  else if (size <? 0) then raise ValueError
  else
    (if forallb (Qle_bool 0) (diagonal cov) && symmetric cov then ret tt
     else warn (RuntimeWarning
                  "covariance is not symmetric positive-semidefinite."));;
    draw_sample (Z.to_nat size) mean cov.

(** [np.cov] of an array with one row per variable (unbiased estimate).
    With fewer than two observations numpy divides by zero and returns
    [nan]; this function has no such value and rejects the input. *)
Definition np_cov (m : matrix) : M matrix :=
  let centred :=
    map (fun v => let mu := (Qsum v / inject_Z (Z.of_nat (length v)))%Q in
                  map (fun x => x - mu)%Q v) m in
  let n := match m with [] => O | v :: _ => length v end in
  if decide (n <= 1)%nat then raise ValueError
  else ret (map (fun a => map (fun b =>
              Qred (Qsum (zip_with Qmult a b) / inject_Z (Z.of_nat n - 1)))
              centred) centred).

(** Ridge regression with intercept and sample weights, by the normal
    equations: with the weighted means removed from [X] and [y], solve
    [(XcᵀWXc + alpha I) beta = XcᵀWyc], one column of [beta] per target. *)
Definition weighted_mean (ws col : list Q) : Q :=
  (Qsum (zip_with Qmult ws col) / Qsum ws)%Q.

Definition centre (ws : list Q) (m : matrix) : list Q * matrix :=
  let means := map (weighted_mean ws) (transpose m) in
  (means, map (fun row => zip_with Qminus row means) m).

Definition gram (ws : list Q) (a b : matrix) : matrix :=
  map (fun ca => map (fun cb => Qsum (zip_with Qmult ws (zip_with Qmult ca cb)))
                     (transpose b))
      (transpose a).

Definition add_diagonal (alpha : Q) (g : matrix) : matrix :=
  imap (fun i row => imap (fun j x => if decide (i = j) then (x + alpha)%Q else x) row) g.

(** One step of Gauss-Jordan elimination, on column [j] with pivot row [j]. *)
Definition eliminate (m : matrix) (j : nat) : matrix :=
  match m !! j with
  | None => m
  | Some pivot_row =>
      let pivot := nth j pivot_row 0%Q in
      let unit_row := map (fun x => Qred (x / pivot)) pivot_row in
      imap (fun i row =>
              if decide (i = j) then unit_row
              else let f := nth j row 0%Q in
                   zip_with (fun a b => Qred (a - f * b)) row unit_row) m
  end.

Definition solve (a b : matrix) : matrix :=
  let d := length a in
  map (drop d) (foldl eliminate (zip_with app a b) (seq 0 d)).

Definition Ridge_fit (alpha : Q) (X y : matrix) (sample_weight : list Q)
  : M Ridge :=
  if negb (Nat.eqb (length X) (length y)
           && Nat.eqb (length X) (length sample_weight))
  then raise ValueError
  else match X with
       | [] => raise ValueError
       | _ =>
         let '(x_mean, Xc) := centre sample_weight X in
         let '(y_mean, yc) := centre sample_weight y in
         let beta := solve (add_diagonal alpha (gram sample_weight Xc Xc))
                           (gram sample_weight Xc yc) in
         let coef := transpose beta in
         ret {| coef_ := coef;
                intercept_ :=
                  zip_with (fun ym c => Qred (ym - Qsum (zip_with Qmult c x_mean)))
                           y_mean coef |}
       end.

(** A stand-in for [np.random.default_rng(seed).multivariate_normal]: the
    sampler above on a generator of its own, which rejects a negative
    seed and leaves the process-wide generator alone. *)
Definition default_rng_multivariate_normal (seed : Z) (mean : list Q)
    (cov : matrix) (size : Z) : M matrix :=
  if (seed <? 0) then raise ValueError
  else if negb (forallb (fun row => Nat.eqb (length row) (length mean)) cov
                && Nat.eqb (length cov) (length mean))
  then raise ValueError
  else if (size <? 0) then raise ValueError
  else ret (draw_rows (Z.to_nat size) mean cov seed).1.

(** A stand-in for [sklearn.utils.shuffle]: like it, it rejects arrays of
    different lengths and permutes both alike; the permutation is the
    reversal whatever the seed. *)
Definition shuffle (random_state : Z) (X : matrix) (y : vec)
  : M (matrix * vec) :=
  if decide (length X = vlen y)
  then ret (reverse X, match y with
                       | IVec v => IVec (reverse v)
                       | FVec v => FVec (reverse v)
                       end)
  else raise ValueError.

End collaborators.

(** ** Concrete inputs *)

Module examples.

Definition w0 : world := World 42 [].

(** The ridge fit of the probabilities [[1,0]; [1/2,1/2]; [0,1]] on the
    points 0, 1, 2 with unit weights. *)
Definition surrogate : Ridge :=
  {| coef_ := [[-1 # 3]; [1 # 3]]; intercept_ := [5 # 6; 1 # 6] |}%Q.

Definition explainer : BLIMEY.bLIMEy :=
  {| BLIMEY.query_point := [1%Q]; BLIMEY.data_test := None;
     BLIMEY.sampling_cov := None; BLIMEY.samples := 3;
     BLIMEY.class_weight_data := false; BLIMEY.class_weight_sampled := false;
     BLIMEY.weight_locally := false; BLIMEY.rebalance_sampled_data := false;
     BLIMEY.sampled_data :=
       <["p(y)" := Float2D [[1; 0]; [1 # 2; 1 # 2]; [0; 1]]%Q]>
         (<["y" := Int1D [0; 0; 1]]> (<["X" := Float2D [[0]; [1]; [2]]%Q]> ∅));
     BLIMEY.surrogate_model := Some surrogate |}.

Definition features : matrix := [[0]; [1]; [2]; [3]]%Q.

Definition labelled : gmap string ndarray :=
  <["y" := Int1D [0; 1; 1; 1]]> (<["X" := Float2D features]> ∅).

Definition unlabelled : gmap string ndarray :=
  <["X" := Float2D features]> ∅.

Definition empty : gmap string ndarray :=
  <["y" := Int1D []]> (<["X" := Float2D []]> ∅).

(** One row, far from the query point 0. *)
Definition far_away : gmap string ndarray :=
  <["X" := Float2D [[1000%Q]]]> ∅.

(** A black box answering class 1 everywhere, and one with three classes. *)
Definition always_one : collaborators.black_box :=
  {| collaborators.label_of := fun _ => 1 |}.

Definition three_classes : collaborators.proba_box :=
  {| collaborators.proba_of := fun _ => [1 # 2; 1 # 4; 1 # 4]%Q |}.

(** The constructor with the collaborators above. *)
Definition construct {B : Type} `{!Classifier B} :=
  BLIMEY.__init__ (B := B) collaborators.multivariate_normal collaborators.np_cov
    (collaborators.Ridge_fit 1) collaborators.balance_oversample
    collaborators.weights_based_on_distance
    collaborators.weight_based_on_class_imbalance.

(** The uninitialised instance of the reference scenario: query point
    (1/2, 1/2), four samples, no reference data, default options. *)
Definition blank : BLIMEY.bLIMEy :=
  {| BLIMEY.query_point := [1 # 2; 1 # 2]%Q; BLIMEY.data_test := None;
     BLIMEY.sampling_cov := None; BLIMEY.samples := 4;
     BLIMEY.class_weight_data := false; BLIMEY.class_weight_sampled := false;
     BLIMEY.weight_locally := true; BLIMEY.rebalance_sampled_data := false;
     BLIMEY.sampled_data := ∅; BLIMEY.surrogate_model := None |}.

(** [blank] with a covariance override, and with reference data. *)
Definition with_override : BLIMEY.bLIMEy :=
  {| BLIMEY.query_point := [1 # 2; 1 # 2]%Q; BLIMEY.data_test := Some labelled;
     BLIMEY.sampling_cov := Some [[2; 1]; [1; 2]]%Q; BLIMEY.samples := 4;
     BLIMEY.class_weight_data := false; BLIMEY.class_weight_sampled := false;
     BLIMEY.weight_locally := true; BLIMEY.rebalance_sampled_data := false;
     BLIMEY.sampled_data := ∅; BLIMEY.surrogate_model := None |}.

(** [blank] with other options, and the identity supplied as override. *)
Definition with_identity_override : BLIMEY.bLIMEy :=
  {| BLIMEY.query_point := [1 # 2; 1 # 2]%Q; BLIMEY.data_test := Some labelled;
     BLIMEY.sampling_cov := Some [[1; 0]; [0; 1]]%Q; BLIMEY.samples := 4;
     BLIMEY.class_weight_data := true; BLIMEY.class_weight_sampled := false;
     BLIMEY.weight_locally := false; BLIMEY.rebalance_sampled_data := true;
     BLIMEY.sampled_data := ∅; BLIMEY.surrogate_model := None |}.

(** A one-dimensional instance whose covariance override, the matrix
    [[-1]], is not positive semi-definite. *)
Definition indefinite : BLIMEY.bLIMEy :=
  {| BLIMEY.query_point := [1 # 2]%Q; BLIMEY.data_test := None;
     BLIMEY.sampling_cov := Some [[-1 # 1]]%Q; BLIMEY.samples := 4;
     BLIMEY.class_weight_data := false; BLIMEY.class_weight_sampled := false;
     BLIMEY.weight_locally := true; BLIMEY.rebalance_sampled_data := false;
     BLIMEY.sampled_data := ∅; BLIMEY.surrogate_model := None |}.

(** An instance after the sampling phase, with three sampled points. *)
Definition sampled : BLIMEY.bLIMEy :=
  {| BLIMEY.query_point := [1%Q]; BLIMEY.data_test := None;
     BLIMEY.sampling_cov := None; BLIMEY.samples := 3;
     BLIMEY.class_weight_data := false; BLIMEY.class_weight_sampled := false;
     BLIMEY.weight_locally := true; BLIMEY.rebalance_sampled_data := false;
     BLIMEY.sampled_data :=
       <["y" := Int1D [0; 0; 0]]> (<["X" := Float2D [[0]; [1]; [2]]%Q]> ∅);
     BLIMEY.surrogate_model := None |}.

Definition with_reference_data : BLIMEY.bLIMEy :=
  {| BLIMEY.query_point := [1%Q]; BLIMEY.data_test := Some labelled;
     BLIMEY.sampling_cov := None; BLIMEY.samples := 4;
     BLIMEY.class_weight_data := false; BLIMEY.class_weight_sampled := false;
     BLIMEY.weight_locally := true; BLIMEY.rebalance_sampled_data := false;
     BLIMEY.sampled_data := ∅; BLIMEY.surrogate_model := None |}.

(** A dataset without features. *)
Definition without_features : gmap string ndarray :=
  <["y" := Int1D [0; 1]]> ∅.

(** The distance kernel with every weight doubled. *)
Definition doubled_kernel (query_point : list Q) (X : matrix) : M (list Q) :=
  ws ← collaborators.weights_based_on_distance query_point X;
  ret (map (Qmult 2) ws).

(** Class weightings of a two-class dataset that sum to 1: each class is
    weighted by the share of the other one. *)
Definition share_of_the_other_class (data : gmap string ndarray)
  : M (list Q) :=
  y ← getitem data "y" ≫= as_int1d;
  let n := inject_Z (Z.of_nat (length y)) in
  ret (map (fun c => Qred (1 - inject_Z (collaborators.count_label c y) / n))
           [0; 1]).

(** An explainer whose surrogate has a single target. *)
Definition single_target : Ridge :=
  {| coef_ := [[1 # 3]]; intercept_ := [1 # 6] |}%Q.

Definition single_target_explainer : BLIMEY.bLIMEy :=
  {| BLIMEY.query_point := [1%Q]; BLIMEY.data_test := None;
     BLIMEY.sampling_cov := None; BLIMEY.samples := 3;
     BLIMEY.class_weight_data := false; BLIMEY.class_weight_sampled := false;
     BLIMEY.weight_locally := false; BLIMEY.rebalance_sampled_data := false;
     BLIMEY.sampled_data :=
       <["p(y)" := Float2D [[0]; [1 # 2]; [1]]%Q]>
         (<["y" := Int1D [0; 0; 0]]> (<["X" := Float2D [[0]; [1]; [2]]%Q]> ∅));
     BLIMEY.surrogate_model := Some single_target |}.

(** [get_gaussian] with the collaborators above, the seed 42 and the
    default covariance of its signature. *)
Definition random_seed : Z := 42.

Definition gaussian_data :=
  datasets.get_gaussian random_seed
    collaborators.default_rng_multivariate_normal collaborators.shuffle.

Definition default_cov : matrix := [[1; 0]; [0; 1]]%Q.

End examples.

(** ** Vocabulary of the properties *)

Definition binary (l : list Z) : Prop := Forall (fun s => s = 0 \/ s = 1) l.
Definition nonneg (l : list Q) : Prop := Forall (fun x => (0 <= x)%Q) l.

(** The agreement vector [(bb_preds == expl_preds).astype(np.int64)]. *)
Definition agreement (bb_preds expl_preds : list Z) : list Z :=
  map (fun s : bool => if s then 1 else 0)
      (zip_with (fun a b : Z => bool_decide (a = b)) bb_preds expl_preds).

(** The weighted count of agreements: the numerator of every weighted
    fidelity score. *)
Definition agreement_mass (same : list Z) (weights : list Q) : Q :=
  Qsum (zip_with Qmult (map inject_Z same) weights).

(** The world after numpy's division has warned. *)
Definition divide_warned (w : world) : world :=
  World (rng w)
        (RuntimeWarning "invalid value encountered in scalar divide" :: warnings w).

(** The world after [_get_class_weights] has warned. *)
Definition no_labels_warned (w : world) : world :=
  World (rng w)
        (Warning "No class data 'y': not using class balanced weightings" :: warnings w).

(** An outcome that is a failure with an [ArithmeticError]. *)
Definition fails_with_ArithmeticError {A} (r : result A * world) : Prop :=
  exists e, r.1 = Raise e /\ is_ArithmeticError e = true.

(** The four metrics of [AVAILABLE_EVALUATION_METRICS], by their weighting. *)
Inductive weighting := Uniform | ByDistance | ByClass | DistanceAndClass.

#[global] Instance weighting_eq_dec : EqDecision weighting.
Proof. solve_decision. Defined.

Section metrics.

Context {E B : Type} `{!Classifier E, !Classifier B}.
Variable weights_based_on_distance : list Q -> matrix -> M (list Q).
Variable weight_based_on_class_imbalance : gmap string ndarray -> M (list Q).

Definition metric (v : weighting) (expl : E) (black_box_model : B)
    (data : gmap string ndarray) (query_point : list Q) : M pynum :=
  match v with
  | Uniform => faithfulness.fidelity expl black_box_model data
  | ByDistance =>
      faithfulness.local_fidelity weights_based_on_distance
        expl black_box_model data query_point
  | ByClass =>
      faithfulness.bal_fidelity weight_based_on_class_imbalance
        expl black_box_model data
  | DistanceAndClass =>
      faithfulness.local_and_bal_fidelity weights_based_on_distance
        weight_based_on_class_imbalance expl black_box_model data query_point
  end.

(** The weight vector a metric constructs for the features [X], starting
    in the world [w2] left by the two predictions, and the world once the
    weights are there. *)
Definition constructed_weights (data : gmap string ndarray) (X : matrix)
    (w2 : world) (v : weighting) (query_point : list Q)
    (weights : vec) (w' : world) : Prop :=
  match v with
  | Uniform => weights = FVec (np_ones (length X)) /\ w' = w2
  | ByDistance =>
      exists l, weights_based_on_distance query_point X w2 = (Ret l, w')
                /\ weights = FVec l
  | ByClass =>
      faithfulness._get_class_weights weight_based_on_class_imbalance data w2
      = (Ret weights, w')
  | DistanceAndClass =>
      exists l w3 class_weights l',
        weights_based_on_distance query_point X w2 = (Ret l, w3)
        /\ faithfulness._get_class_weights weight_based_on_class_imbalance data w3
           = (Ret class_weights, w')
        /\ np_imul l class_weights w' = (Ret l', w')
        /\ weights = FVec l'
  end.

End metrics.

(** The all-ones weight vector put in the place of the distance weights. *)
Definition unit_weights (query_point : list Q) (X : matrix) : M (list Q) :=
  ret (np_ones (length X)).

(** The label [predict] gives to a class-1 regression output. *)
Definition threshold (p : Q) : Z := Qtrunc (np_heaviside (p - (1 # 2)) 1).

(** The regression of a surrogate on an input of its shape. *)
Definition linear_output (m : Ridge) (X : matrix) : matrix :=
  map (fun x => zip_with Qplus
                  (map (fun c => Qsum (zip_with Qmult x c)) (coef_ m))
                  (intercept_ m)) X.

(** The weight [_get_class_weights] gives to a row from its label: the
    weighting of the class, cast to int64, when the label is one of the
    class indices, and the label itself otherwise. *)
Definition class_weight (weightings : list Q) (label : Z) : Z :=
  if decide (0 <= label < Z.of_nat (length weightings))
  then Qtrunc (default 0%Q (weightings !! Z.to_nat label))
  else label.

(** The identity matrix of size [n]. *)
Definition is_identity (n : nat) (m : matrix) : Prop :=
  length m = n
  /\ forall i row, m !! i = Some row ->
       length row = n
       /\ forall j x, row !! j = Some x -> x = if decide (i = j) then 1%Q else 0%Q.

(** Positive semi-definiteness of a square matrix: it is symmetric and its
    quadratic form is nowhere negative. *)
Definition quadratic_form (m : matrix) (v : list Q) : Q :=
  Qsum (zip_with Qmult v (map (fun row => Qsum (zip_with Qmult row v)) m)).

Definition positive_semidefinite (m : matrix) : Prop :=
  Forall2 (Forall2 Qeq) m (transpose m)
  /\ forall v, length v = length m -> (0 <= quadratic_form m v)%Q.

(** A sampler that reads nothing of the interpreter state but the
    generator. *)
Definition reads_generator_only (sampler : list Q -> matrix -> Z -> M matrix)
  : Prop :=
  forall mean cov size wa wb,
    rng wa = rng wb -> (sampler mean cov size wa).1 = (sampler mean cov size wb).1.

(** The neighbourhood the sampling phase stores. *)
Definition neighbourhood (X : matrix) (y : list Z) : gmap string ndarray :=
  <["y" := Int1D y]> (<["X" := Float2D X]> ∅).

(** The number of rows on which two label vectors agree. *)
Definition agreeing_rows (bb_preds expl_preds : list Z) : nat :=
  length (filter (fun p : Z * Z => p.1 = p.2) (zip bb_preds expl_preds)).

(** A value of type [np.float64], which is what
    [isinstance(result, np.float64)] tests. *)
Definition is_np_float64 (a : pynum) : bool :=
  match a with NpFloat64 _ => true | _ => false end.

(** The options an explainer was created with. *)
Definition configuration (self : BLIMEY.bLIMEy) :=
  (BLIMEY.query_point self, BLIMEY.data_test self, BLIMEY.sampling_cov self,
   BLIMEY.samples self, BLIMEY.class_weight_data self,
   BLIMEY.class_weight_sampled self, BLIMEY.weight_locally self,
   BLIMEY.rebalance_sampled_data self).

(** * Properties *)

(** ** Running monadic code *)

Lemma run_bind {A B} (c : M A) (k : A -> M B) (w : world) :
  (c ≫= k) w = match c w with
               | (Ret a, w') => k a w'
               | (Raise e, w') => (Raise e, w')
               end.
Proof. reflexivity. Qed.

Lemma run_bind_ret {A B} (c : M A) (k : A -> M B) (w w' : world) (a : A) :
  c w = (Ret a, w') -> (c ≫= k) w = k a w'.
Proof. intros Hc. rewrite run_bind, Hc. reflexivity. Qed.

Lemma run_bind_raise {A B} (c : M A) (k : A -> M B) (w w' : world) (e : exn) :
  c w = (Raise e, w') -> (c ≫= k) w = (Raise e, w').
Proof. intros Hc. rewrite run_bind, Hc. reflexivity. Qed.

Lemma run_getitem (data : gmap string ndarray) (key : string) (a : ndarray) (w : world) :
  data !! key = Some a -> getitem data key w = (Ret a, w).
Proof. intros Hk. unfold getitem. rewrite Hk. reflexivity. Qed.

Lemma run_get_float2d (data : gmap string ndarray) (key : string) (m : matrix) (w : world) :
  data !! key = Some (Float2D m) ->
  (getitem data key ≫= as_float2d) w = (Ret m, w).
Proof.
  intros Hk. rewrite (run_bind_ret _ _ w w (Float2D m)); [reflexivity|].
  now apply run_getitem.
Qed.

Lemma run_get_int1d (data : gmap string ndarray) (key : string) (v : list Z) (w : world) :
  data !! key = Some (Int1D v) ->
  (getitem data key ≫= as_int1d) w = (Ret v, w).
Proof.
  intros Hk. rewrite (run_bind_ret _ _ w w (Int1D v)); [reflexivity|].
  now apply run_getitem.
Qed.

(** ** Sums *)

Lemma fold_left_Qplus (l : list Q) (a : Q) :
  (fold_left Qplus l a == a + Qsum l)%Q.
Proof.
  unfold Qsum. revert a. induction l as [|x l IH]; intros a; simpl.
  - ring.
  - rewrite (IH (a + x)%Q), (IH (0 + x)%Q). ring.
Qed.

Lemma Qsum_cons (x : Q) (l : list Q) : (Qsum (x :: l) == x + Qsum l)%Q.
Proof. unfold Qsum at 1. simpl. rewrite fold_left_Qplus. ring. Qed.

Lemma fold_left_Zplus (l : list Z) (a : Z) : fold_left Z.add l a = a + Zsum l.
Proof.
  unfold Zsum. revert a. induction l as [|x l IH]; intros a; simpl.
  - lia.
  - rewrite (IH (a + x)), (IH (0 + x)). lia.
Qed.

Lemma Zsum_cons (x : Z) (l : list Z) : Zsum (x :: l) = x + Zsum l.
Proof. unfold Zsum at 1. simpl. rewrite fold_left_Zplus. lia. Qed.

Lemma Qsum_inject_Z (l : list Z) : (inject_Z (Zsum l) == Qsum (map inject_Z l))%Q.
Proof.
  induction l as [|x l IH]; [reflexivity|].
  simpl map. rewrite Zsum_cons, Qsum_cons, inject_Z_plus, IH. reflexivity.
Qed.

Lemma Qsum_Forall2 (l1 l2 : list Q) :
  Forall2 Qeq l1 l2 -> (Qsum l1 == Qsum l2)%Q.
Proof.
  induction 1 as [|x y l1 l2 Hxy _ IH]; [reflexivity|].
  rewrite !Qsum_cons, Hxy, IH. reflexivity.
Qed.

Lemma Qsum_nonneg (l : list Q) : nonneg l -> (0 <= Qsum l)%Q.
Proof.
  induction 1 as [|x l Hx _ IH]; [apply Qle_refl|].
  rewrite Qsum_cons. lra.
Qed.

Lemma Qsum_ones (n : nat) : (Qsum (np_ones n) == inject_Z (Z.of_nat n))%Q.
Proof.
  induction n as [|n IH]; [reflexivity|].
  unfold np_ones in *. simpl repeat. rewrite Qsum_cons, IH.
  rewrite Nat2Z.inj_succ, <- Z.add_1_l, inject_Z_plus. reflexivity.
Qed.

Lemma agreement_mass_cons (s : Z) (same : list Z) (x : Q) (weights : list Q) :
  (agreement_mass (s :: same) (x :: weights)
   == inject_Z s * x + agreement_mass same weights)%Q.
Proof. unfold agreement_mass. simpl. apply Qsum_cons. Qed.

Lemma agreement_mass_bounds (same : list Z) (weights : list Q) :
  binary same -> nonneg weights ->
  (0 <= agreement_mass same weights <= Qsum weights)%Q.
Proof.
  intros Hs. revert weights.
  induction Hs as [|s same Hs _ IH]; intros weights Hw.
  - unfold agreement_mass. simpl. split; [apply Qle_refl|].
    now apply Qsum_nonneg.
  - destruct Hw as [|x weights Hx Hw].
    + unfold agreement_mass. simpl. split; apply Qle_refl.
    + rewrite agreement_mass_cons, Qsum_cons.
      specialize (IH weights Hw).
      unfold nonneg in Hw. destruct IH as [IH1 IH2].
      destruct Hs as [-> | ->].
      * assert (E : (inject_Z 0 * x == 0)%Q) by ring. rewrite E. lra.
      * assert (E : (inject_Z 1 * x == x)%Q) by ring. rewrite E. lra.
Qed.

Lemma agreement_mass_ones (same : list Z) :
  (agreement_mass same (np_ones (length same)) == inject_Z (Zsum same))%Q.
Proof.
  induction same as [|s same IH]; [reflexivity|].
  simpl length. unfold np_ones in *. simpl repeat.
  rewrite agreement_mass_cons, IH, Zsum_cons, inject_Z_plus. ring.
Qed.

(** ** Array products, sums and the division *)

Lemma Forall2_Qeq_refl (l : list Q) : Forall2 Qeq l l.
Proof. induction l; constructor; [reflexivity | assumption]. Qed.

Lemma run_broadcast2 {A B C} (f : A -> B -> C) (a : list A) (b : list B) (w : world) :
  length a = length b -> broadcast2 f a b w = (Ret (zip_with f a b), w).
Proof. intros Hl. unfold broadcast2. rewrite decide_True by assumption. reflexivity. Qed.

Lemma run_broadcast2_inplace {A B} (f : A -> B -> A) (a : list A) (b : list B) (w : world) :
  length a = length b -> broadcast2_inplace f a b w = (Ret (zip_with f a b), w).
Proof.
  intros Hl. unfold broadcast2_inplace. rewrite decide_True by assumption. reflexivity.
Qed.

Lemma to_float_length (a : vec) : length (to_float a) = vlen a.
Proof. destruct a; simpl; [apply length_map | reflexivity]. Qed.

Lemma inject_Z_zip_mul (x y : list Z) :
  Forall2 Qeq (map inject_Z (zip_with Z.mul x y))
              (zip_with Qmult (map inject_Z x) (map inject_Z y)).
Proof.
  revert y. induction x as [|a x IH]; intros [|b y]; simpl; try constructor.
  - rewrite inject_Z_mult. reflexivity.
  - apply IH.
Qed.

Lemma run_np_mul (same : list Z) (weights : vec) (w : world) :
  length same = vlen weights ->
  exists num, np_mul (IVec same) weights w = (Ret num, w)
    /\ vlen num = length same
    /\ Forall2 Qeq (to_float num)
                   (zip_with Qmult (map inject_Z same) (to_float weights)).
Proof.
  intros Hl. destruct weights as [y|y]; simpl in Hl.
  - exists (IVec (zip_with Z.mul same y)). split; [|split].
    + unfold np_mul. erewrite run_bind_ret by (apply run_broadcast2; exact Hl).
      reflexivity.
    + simpl. rewrite length_zip_with. lia.
    + apply inject_Z_zip_mul.
  - exists (FVec (zip_with Qmult (map inject_Z same) y)). split; [|split].
    + unfold np_mul.
      erewrite run_bind_ret
        by (apply run_broadcast2; simpl; rewrite length_map; exact Hl).
      reflexivity.
    + simpl. rewrite length_zip_with, length_map. lia.
    + apply Forall2_Qeq_refl.
Qed.

Lemma py_sum_empty (a : vec) : vlen a = 0%nat -> py_sum a = PyInt 0.
Proof. destruct a as [[|]|[|]]; simpl; intros; congruence. Qed.

Lemma py_sum_nonempty (a : vec) :
  (0 < vlen a)%nat ->
  builtin (py_sum a) = None
  /\ exists q, as_float64 (py_sum a) = Finite q /\ (q == Qsum (to_float a))%Q.
Proof.
  destruct a as [[|x v]|[|x v]]; simpl; intros Hl; try lia.
  - split; [reflexivity|]. eexists. split; [reflexivity|].
    apply (Qsum_inject_Z (x :: v)).
  - split; [reflexivity|]. eexists. split; reflexivity.
Qed.

Lemma Qzero_true (x : Q) : Qzero x = true <-> (x == 0)%Q.
Proof. apply Qeq_bool_iff. Qed.

Lemma Qzero_false (x : Q) : Qzero x = false <-> ~ (x == 0)%Q.
Proof.
  unfold Qzero. split.
  - intros Hb He. apply Qeq_bool_iff in He. congruence.
  - intros Hne. destruct (Qeq_bool x 0) eqn:Hb; [|reflexivity].
    apply Qeq_bool_iff in Hb. contradiction.
Qed.

Lemma run_truediv_numpy (a b : pynum) (x y : Q) (w : world) :
  builtin a = None -> as_float64 a = Finite x -> as_float64 b = Finite y ->
  ~ (y == 0)%Q ->
  truediv a b w = (Ret (NpFloat64 (Finite (x / y))), w).
Proof.
  intros Ha Hx Hy Hne. unfold truediv. rewrite Ha, Hx, Hy. simpl.
  apply Qzero_false in Hne. rewrite Hne. reflexivity.
Qed.

Lemma run_truediv_numpy_zero (a b : pynum) (x y : Q) (w : world) :
  builtin a = None -> as_float64 a = Finite x -> as_float64 b = Finite y ->
  (y == 0)%Q ->
  truediv a b w
  = (Ret (NpFloat64 (if Qzero x then NaN else Inf (Qneg x))), divide_warned w).
Proof.
  intros Ha Hx Hy He. unfold truediv. rewrite Ha, Hx, Hy. simpl.
  apply Qzero_true in He. rewrite He. destruct (Qzero x); reflexivity.
Qed.

Lemma run_truediv_builtin_zero (w : world) :
  truediv (PyInt 0) (PyInt 0) w = (Raise ZeroDivisionError, w).
Proof. reflexivity. Qed.

(** *** The weighted mean [sum(same_preds*weights)/sum(weights)] *)

Lemma weighted_mean_finite (same : list Z) (weights : vec) (w : world) :
  length same = vlen weights -> (0 < length same)%nat ->
  ~ (Qsum (to_float weights) == 0)%Q ->
  exists q,
    (num ← np_mul (IVec same) weights; truediv (py_sum num) (py_sum weights)) w
    = (Ret (NpFloat64 (Finite q)), w)
    /\ (q == agreement_mass same (to_float weights) / Qsum (to_float weights))%Q.
Proof.
  intros Hl Hpos Hne.
  destruct (run_np_mul same weights w Hl) as (num & Hrun & Hlen & Hnum).
  destruct (py_sum_nonempty num) as (Hb & x & Hx & Hxs); [lia|].
  destruct (py_sum_nonempty weights) as (_ & y & Hy & Hys); [lia|].
  exists (x / y)%Q. split.
  - rewrite (run_bind_ret _ _ w w num Hrun).
    apply run_truediv_numpy; auto. now rewrite Hys.
  - unfold agreement_mass. rewrite Hxs, Hys, (Qsum_Forall2 _ _ Hnum). reflexivity.
Qed.

Lemma weighted_mean_not_finite (same : list Z) (weights : vec) (w : world) :
  length same = vlen weights -> (0 < length same)%nat ->
  (Qsum (to_float weights) == 0)%Q ->
  exists r,
    (num ← np_mul (IVec same) weights; truediv (py_sum num) (py_sum weights)) w
    = (Ret (NpFloat64 r), divide_warned w)
    /\ (r = NaN \/ exists s, r = Inf s).
Proof.
  intros Hl Hpos He.
  destruct (run_np_mul same weights w Hl) as (num & Hrun & Hlen & Hnum).
  destruct (py_sum_nonempty num) as (Hb & x & Hx & Hxs); [lia|].
  destruct (py_sum_nonempty weights) as (_ & y & Hy & Hys); [lia|].
  exists (if Qzero x then NaN else Inf (Qneg x)). split.
  - rewrite (run_bind_ret _ _ w w num Hrun).
    apply (run_truediv_numpy_zero _ _ x y); auto. now rewrite Hys.
  - destruct (Qzero x); eauto.
Qed.

Lemma weighted_mean_empty (weights : vec) (w : world) :
  vlen weights = 0%nat ->
  (num ← np_mul (IVec []) weights; truediv (py_sum num) (py_sum weights)) w
  = (Raise ZeroDivisionError, w).
Proof.
  intros Hl.
  destruct (run_np_mul [] weights w) as (num & Hrun & Hlen & _); [now rewrite Hl|].
  rewrite (run_bind_ret _ _ w w num Hrun).
  rewrite (py_sum_empty num), (py_sum_empty weights) by assumption.
  reflexivity.
Qed.

Lemma ratio_in_unit_interval (a b : Q) :
  (0 <= a <= b)%Q -> (0 < b)%Q -> (0 <= a / b <= 1)%Q.
Proof.
  intros [Ha Hab] Hb. split.
  - apply Qle_shift_div_l; [assumption|]. lra.
  - apply Qle_shift_div_r; [assumption|]. lra.
Qed.

(** ** The fidelity metrics *)

Lemma agreement_length (pb pe : list Z) :
  length pb = length pe -> length (agreement pb pe) = length pb.
Proof. intros Hl. unfold agreement. rewrite length_map, length_zip_with. lia. Qed.

Lemma agreement_binary (pb pe : list Z) : binary (agreement pb pe).
Proof.
  unfold binary, agreement. apply Forall_forall. intros s Hs.
  apply list_elem_of_In, in_map_iff in Hs. destruct Hs as ([|] & <- & _); auto.
Qed.

Section fidelity_properties.

Context {E B : Type} `{!Classifier E, !Classifier B}.
Variable weights_based_on_distance : list Q -> matrix -> M (list Q).
Variable weight_based_on_class_imbalance : gmap string ndarray -> M (list Q).

Local Abbreviation metric :=
  (metric weights_based_on_distance weight_based_on_class_imbalance).

(** A dataset with features [X] on which the black box answers [pb] and
    the explainer [pe], one label per row. *)
Variables (expl : E) (black_box_model : B) (data : gmap string ndarray).
Variables (X : matrix) (pb pe : list Z) (w w1 w2 : world).
Hypothesis data_X : data !! "X" = Some (Float2D X).
Hypothesis run_black_box : predict black_box_model X w = (Ret pb, w1).
Hypothesis run_expl : predict expl X w1 = (Ret pe, w2).
Hypothesis length_pb : length pb = length X.
Hypothesis length_pe : length pe = length X.

Lemma run_get_preds :
  faithfulness._get_preds expl black_box_model data w
  = (Ret (IVec (agreement pb pe)), w2).
Proof using data_X run_black_box run_expl length_pb length_pe.
  unfold faithfulness._get_preds.
  rewrite (run_bind_ret _ _ w w X) by (now apply run_get_float2d).
  rewrite (run_bind_ret _ _ w w1 pb run_black_box).
  rewrite (run_bind_ret _ _ w1 w1 X) by (now apply run_get_float2d).
  rewrite (run_bind_ret _ _ w1 w2 pe run_expl).
  erewrite run_bind_ret by (apply run_broadcast2; congruence).
  reflexivity.
Qed.

Lemma length_agreement : length (agreement pb pe) = length X.
Proof using length_pb length_pe. rewrite agreement_length; congruence. Qed.

Local Abbreviation constructed_weights :=
  (constructed_weights weights_based_on_distance
     weight_based_on_class_imbalance data X w2).

(** Each weighted metric is the weighted mean of the agreement vector
    under the weights it constructs. *)
Lemma run_weighted_metric (v : weighting) (query_point : list Q)
    (weights : vec) (w' : world) :
  v <> Uniform ->
  constructed_weights v query_point weights w' ->
  metric v expl black_box_model data query_point w
  = (num ← np_mul (IVec (agreement pb pe)) weights;
     truediv (py_sum num) (py_sum weights)) w'.
Proof using data_X run_black_box run_expl length_pb length_pe.
  intros Hv Hc. destruct v; [congruence| | |]; simpl in *.
  - destruct Hc as (l & Hl & ->). unfold faithfulness.local_fidelity.
    rewrite (run_bind_ret _ _ w w2 _ run_get_preds).
    rewrite (run_bind_ret _ _ w2 w2 X) by (now apply run_get_float2d).
    rewrite (run_bind_ret _ _ w2 w' l Hl). reflexivity.
  - unfold faithfulness.bal_fidelity.
    rewrite (run_bind_ret _ _ w w2 _ run_get_preds).
    rewrite (run_bind_ret _ _ w2 w' weights Hc). reflexivity.
  - destruct Hc as (l & w3 & cw & l' & Hl & Hcw & Hmul & ->).
    unfold faithfulness.local_and_bal_fidelity.
    rewrite (run_bind_ret _ _ w w2 _ run_get_preds).
    rewrite (run_bind_ret _ _ w2 w2 X) by (now apply run_get_float2d).
    rewrite (run_bind_ret _ _ w2 w3 l Hl).
    rewrite (run_bind_ret _ _ w3 w' cw Hcw).
    rewrite (run_bind_ret _ _ w' w' l' Hmul). reflexivity.
Qed.

Lemma run_fidelity_nonempty :
  X <> [] ->
  exists q,
    faithfulness.fidelity expl black_box_model data w
    = (Ret (NpFloat64 (Finite q)), w2)
    /\ (q == inject_Z (Zsum (agreement pb pe)) / inject_Z (Z.of_nat (length X)))%Q.
Proof using data_X run_black_box run_expl length_pb length_pe.
  intros Hne. pose proof length_agreement as Hl.
  assert (0 < length X)%nat as Hpos by (destruct X; simpl; [congruence | lia]).
  destruct (py_sum_nonempty (IVec (agreement pb pe))) as (Hb & x & Hx & Hxs);
    [simpl; lia|].
  exists (x / inject_Z (Z.of_nat (length X)))%Q. split.
  - unfold faithfulness.fidelity.
    rewrite (run_bind_ret _ _ w w2 _ run_get_preds).
    apply run_truediv_numpy; auto.
    + simpl. now rewrite Hl.
    + intros He. assert (Z.of_nat (length X) = 0) as Hz; [|lia].
      unfold Qeq in He. simpl in He. lia.
  - simpl in Hxs. rewrite Hxs, <- Qsum_inject_Z. reflexivity.
Qed.

Lemma run_fidelity_empty :
  X = [] ->
  faithfulness.fidelity expl black_box_model data w = (Raise ZeroDivisionError, w2).
Proof using data_X run_black_box run_expl length_pb length_pe.
  intros HX. unfold faithfulness.fidelity.
  rewrite (run_bind_ret _ _ w w2 _ run_get_preds).
  assert (agreement pb pe = []) as ->; [|reflexivity].
  apply length_zero_iff_nil. rewrite length_agreement, HX. reflexivity.
Qed.

Lemma nonempty_length : X <> [] -> (0 < length X)%nat.
Proof. destruct X; simpl; [congruence | lia]. Qed.

Lemma run_get_class_weights_no_labels (w0 : world) :
  data !! "y" = None ->
  faithfulness._get_class_weights weight_based_on_class_imbalance data w0
  = (Ret (FVec (np_ones (length X))), no_labels_warned w0).
Proof using data_X.
  intros Hy. unfold faithfulness._get_class_weights.
  rewrite decide_True by assumption.
  rewrite (run_bind_ret _ _ w0 (no_labels_warned w0) tt) by reflexivity.
  rewrite (run_bind_ret _ _ _ (no_labels_warned w0) X)
    by (now apply run_get_float2d).
  reflexivity.
Qed.

(** C9.  On a non-empty dataset whose constructed weight vector (one
    weight per row) is non-negative with a positive sum, each of the four
    fidelity metrics returns a score, and the score lies in [0,1]. *)
Theorem fidelity_in_unit_interval (v : weighting) (query_point : list Q)
    (weights : vec) (w' : world) :
  X <> [] ->
  constructed_weights v query_point weights w' ->
  vlen weights = length X ->
  nonneg (to_float weights) ->
  (0 < Qsum (to_float weights))%Q ->
  exists q,
    metric v expl black_box_model data query_point w
    = (Ret (NpFloat64 (Finite q)), w')
    /\ (0 <= q <= 1)%Q.
Proof using data_X run_black_box run_expl length_pb length_pe.
  intros Hne Hc Hlen Hnn Hpos.
  pose proof length_agreement as Hl.
  pose proof (agreement_binary pb pe) as Hbin.
  destruct (decide (v = Uniform)) as [-> | Hv].
  - destruct Hc as [-> ->]. simpl metric.
    destruct (run_fidelity_nonempty Hne) as (q & Hrun & Hq).
    exists q. split; [exact Hrun|].
    rewrite Hq, <- agreement_mass_ones, <- Hl, <- Qsum_ones.
    apply ratio_in_unit_interval.
    + apply agreement_mass_bounds; [assumption|]. rewrite Hl. exact Hnn.
    + rewrite Hl. exact Hpos.
  - rewrite (run_weighted_metric v query_point weights w' Hv Hc).
    destruct (weighted_mean_finite (agreement pb pe) weights w')
      as (q & Hrun & Hq); [congruence | rewrite Hl; now apply nonempty_length | lra |].
    exists q. split; [exact Hrun|]. rewrite Hq.
    apply ratio_in_unit_interval; [|assumption].
    now apply agreement_mass_bounds.
Qed.

(** C8.  On a non-empty dataset without the key ['y'], class-balanced
    fidelity raises nothing: it records one warning and returns the score
    plain fidelity returns. *)
Theorem bal_fidelity_without_labels :
  X <> [] ->
  data !! "y" = None ->
  exists a b,
    faithfulness.fidelity expl black_box_model data w
    = (Ret (NpFloat64 (Finite a)), w2)
    /\ faithfulness.bal_fidelity weight_based_on_class_imbalance
         expl black_box_model data w
       = (Ret (NpFloat64 (Finite b)), no_labels_warned w2)
    /\ (a == b)%Q.
Proof using data_X run_black_box run_expl length_pb length_pe.
  intros Hne Hy. pose proof length_agreement as Hl.
  destruct (run_fidelity_nonempty Hne) as (a & Hrun & Ha).
  pose proof (run_get_class_weights_no_labels w2 Hy) as Hcw.
  assert (faithfulness.bal_fidelity weight_based_on_class_imbalance
            expl black_box_model data w
          = (num ← np_mul (IVec (agreement pb pe)) (FVec (np_ones (length X)));
             truediv (py_sum num) (py_sum (FVec (np_ones (length X)))))
              (no_labels_warned w2)) as Hbal.
  { unfold faithfulness.bal_fidelity.
    rewrite (run_bind_ret _ _ w w2 _ run_get_preds).
    rewrite (run_bind_ret _ _ w2 _ _ Hcw). reflexivity. }
  destruct (weighted_mean_finite (agreement pb pe) (FVec (np_ones (length X)))
              (no_labels_warned w2)) as (b & Hrunb & Hb).
  - simpl. unfold np_ones. rewrite repeat_length. exact Hl.
  - rewrite Hl. now apply nonempty_length.
  - simpl. rewrite Qsum_ones. intros He.
    apply nonempty_length in Hne. unfold Qeq in He. simpl in He. lia.
  - exists a, b. split; [exact Hrun|]. split; [now rewrite Hbal|].
    rewrite Ha, Hb. simpl to_float.
    rewrite <- Hl at 2. rewrite agreement_mass_ones, Qsum_ones. reflexivity.
Qed.

(** C4, as the code has it.  On an empty dataset every metric fails with
    [ZeroDivisionError], an [ArithmeticError].  On a non-empty dataset
    whose constructed weights sum to zero the metric raises nothing: numpy
    warns and the score returned is [nan] or infinite. *)
Theorem fidelity_on_degenerate_weights (v : weighting) (query_point : list Q)
    (weights : vec) (w' : world) :
  constructed_weights v query_point weights w' ->
  vlen weights = length X ->
  (X = [] ->
     metric v expl black_box_model data query_point w
     = (Raise ZeroDivisionError, w')
     /\ is_ArithmeticError ZeroDivisionError = true)
  /\ (X <> [] -> (Qsum (to_float weights) == 0)%Q ->
      exists r,
        metric v expl black_box_model data query_point w
        = (Ret (NpFloat64 r), divide_warned w')
        /\ (r = NaN \/ exists s, r = Inf s)).
Proof using data_X run_black_box run_expl length_pb length_pe.
  intros Hc Hlen. pose proof length_agreement as Hl. split.
  - intros HX. split; [|reflexivity].
    destruct (decide (v = Uniform)) as [-> | Hv].
    + destruct Hc as [_ ->]. now apply run_fidelity_empty.
    + rewrite (run_weighted_metric v query_point weights w' Hv Hc).
      assert (agreement pb pe = []) as ->.
      { apply length_zero_iff_nil. rewrite Hl, HX. reflexivity. }
      apply weighted_mean_empty. rewrite Hlen, HX. reflexivity.
  - intros Hne He.
    destruct (decide (v = Uniform)) as [-> | Hv].
    + destruct Hc as [-> _]. simpl in He. rewrite Qsum_ones in He.
      apply nonempty_length in Hne. unfold Qeq in He. simpl in He. lia.
    + rewrite (run_weighted_metric v query_point weights w' Hv Hc).
      apply weighted_mean_not_finite; [congruence | | assumption].
      rewrite Hl. now apply nonempty_length.
Qed.

End fidelity_properties.

(** *** The class weights of a labelled dataset *)

Lemma foldl_insert_lookup {A} (f : nat -> A) (l : list nat) (m0 : gmap nat A) (i : nat) :
  i ∈ l -> foldl (fun m j => <[j := f j]> m) m0 l !! i = Some (f i).
Proof.
  revert m0. induction l as [|j l IH] using rev_ind; intros m0 Hi.
  - inversion Hi.
  - rewrite foldl_app. simpl. destruct (decide (j = i)) as [->|Hne].
    + apply lookup_insert_eq.
    + rewrite lookup_insert_ne by assumption. apply IH.
      apply elem_of_app in Hi. destruct Hi as [Hi|Hi]; [assumption|].
      apply list_elem_of_singleton in Hi. congruence.
Qed.

Lemma assign_masked_map {A} (g : Z -> A) (h : Z -> bool) (x : A) (y : list Z) :
  assign_masked (map g y) (map h y) x = map (fun l => if h l then x else g l) y.
Proof.
  unfold assign_masked. induction y as [|l y IH]; [reflexivity|].
  simpl. now rewrite IH.
Qed.

Lemma class_weight_step (weightings : list Q) (k : nat) (l : Z) :
  (k < length weightings)%nat ->
  (if bool_decide (l = Z.of_nat k)
   then Qtrunc (default 0%Q (weightings !! k))
   else class_weight (take k weightings) l)
  = class_weight (take (S k) weightings) l.
Proof.
  intros Hk. unfold class_weight. rewrite !length_take.
  replace (k `min` length weightings)%nat with k by lia.
  replace (S k `min` length weightings)%nat with (S k) by lia.
  case_bool_decide as Hl.
  - subst l. rewrite decide_True by lia.
    rewrite Nat2Z.id, lookup_take_lt by lia. reflexivity.
  - destruct (decide (0 <= l < Z.of_nat k)) as [Hin|Hout].
    + rewrite decide_True by lia.
      rewrite !lookup_take_lt by lia. reflexivity.
    + rewrite decide_False by lia. reflexivity.
Qed.

Lemma run_get_class_weights_labels
    (weight_based_on_class_imbalance : gmap string ndarray -> M (list Q))
    (data : gmap string ndarray) (y : list Z) (weightings : list Q)
    (w w' : world) :
  data !! "y" = Some (Int1D y) ->
  weight_based_on_class_imbalance data w = (Ret weightings, w') ->
  faithfulness._get_class_weights weight_based_on_class_imbalance data w
  = (Ret (IVec (map (class_weight weightings) y)), w').
Proof.
  intros Hy Hw. unfold faithfulness._get_class_weights.
  rewrite decide_False by congruence.
  rewrite (run_bind_ret _ _ w w' weightings Hw).
  rewrite (run_bind_ret _ _ w' w' y) by (now apply run_get_int1d).
  unfold ret. do 3 f_equal.
  set (masks := foldl _ ∅ _).
  assert (forall k, (k <= length weightings)%nat ->
            foldl (fun weights i =>
                     assign_masked weights (default [] (masks !! i))
                       (Qtrunc (default 0%Q (weightings !! i))))
                  y (seq 0 k)
            = map (class_weight (take k weightings)) y) as Hfold.
  { induction k as [|k IH]; intros Hk.
    - simpl. unfold class_weight. simpl.
      rewrite <- (map_id y) at 1. apply map_ext. intros l.
      rewrite decide_False by lia. reflexivity.
    - rewrite seq_S, foldl_app, IH by lia. simpl.
      unfold masks.
      rewrite (foldl_insert_lookup
                 (fun i => map (fun w0 => bool_decide (w0 = Z.of_nat i)) y))
        by (apply elem_of_seq; lia).
      simpl. rewrite assign_masked_map. apply map_ext. intros l.
      apply class_weight_step. lia. }
  rewrite Hfold by lia. now rewrite firstn_all.
Qed.

(** C7.  On a non-empty dataset plain fidelity and local fidelity computed
    with an all-ones weight vector both return a score, and the two scores
    are equal. *)
Theorem fidelity_is_local_fidelity_with_unit_weights
    {E B : Type} `{!Classifier E, !Classifier B}
    (expl : E) (black_box_model : B) (data : gmap string ndarray)
    (query_point : list Q) (X : matrix) (pb pe : list Z) (w w1 w2 : world) :
  data !! "X" = Some (Float2D X) ->
  predict black_box_model X w = (Ret pb, w1) ->
  predict expl X w1 = (Ret pe, w2) ->
  length pb = length X ->
  length pe = length X ->
  X <> [] ->
  exists a b,
    faithfulness.fidelity expl black_box_model data w
    = (Ret (NpFloat64 (Finite a)), w2)
    /\ faithfulness.local_fidelity unit_weights expl black_box_model data
         query_point w
       = (Ret (NpFloat64 (Finite b)), w2)
    /\ (a == b)%Q.
Proof.
  intros HX Hbb Hexpl Hpb Hpe Hne.
  pose proof (length_agreement X pb pe Hpb Hpe) as Hl.
  destruct (run_fidelity_nonempty expl black_box_model data X pb pe w w1 w2
              HX Hbb Hexpl Hpb Hpe Hne) as (a & Hrun & Ha).
  assert (constructed_weights unit_weights (fun _ => raise KeyError) data X w2
            ByDistance query_point (FVec (np_ones (length X))) w2) as Hc.
  { simpl. exists (np_ones (length X)). split; reflexivity. }
  pose proof (run_weighted_metric unit_weights (fun _ => raise KeyError)
                expl black_box_model data X pb pe w w1 w2
                HX Hbb Hexpl Hpb Hpe ByDistance query_point _ _
                ltac:(discriminate) Hc) as Hlocal.
  simpl metric in Hlocal.
  destruct (weighted_mean_finite (agreement pb pe) (FVec (np_ones (length X))) w2)
    as (b & Hrunb & Hb).
  - simpl. unfold np_ones. rewrite repeat_length. exact Hl.
  - rewrite Hl. destruct X; simpl; [congruence | lia].
  - simpl. rewrite Qsum_ones. intros He.
    assert (0 < length X)%nat by (destruct X; simpl; [congruence | lia]).
    unfold Qeq in He. simpl in He. lia.
  - exists a, b. split; [exact Hrun|]. split; [now rewrite Hlocal|].
    rewrite Ha, Hb. simpl to_float.
    rewrite <- Hl at 2. rewrite agreement_mass_ones, Qsum_ones. reflexivity.
Qed.

(** ** The explanation interface *)

Lemma run_forM_pure {A B} (f : A -> M B) (g : A -> B) (l : list A) (w : world) :
  (forall x, x ∈ l -> f x w = (Ret (g x), w)) ->
  forM f l w = (Ret (map g l), w).
Proof.
  induction l as [|x l IH]; intros Hf; [reflexivity|].
  simpl. rewrite (run_bind_ret _ _ w w (g x)) by (apply Hf; left).
  rewrite (run_bind_ret _ _ w w (map g l)); [reflexivity|].
  apply IH. intros y Hy. apply Hf. now right.
Qed.

Lemma run_forM_inv {A B} (f : A -> M B) (l : list A) (ys : list B) (w w' : world) :
  (forall x w0, exists r, f x w0 = (r, w0)) ->
  forM f l w = (Ret ys, w') ->
  w' = w /\ Forall2 (fun x y => f x w = (Ret y, w)) l ys.
Proof.
  intros Hpure. revert ys w'. induction l as [|x l IH]; intros ys w' Hrun.
  - inversion Hrun. split; [reflexivity | constructor].
  - simpl in Hrun. rewrite run_bind in Hrun.
    destruct (Hpure x w) as (r & Hr). rewrite Hr in Hrun.
    destruct r as [e|y]; [discriminate|].
    rewrite run_bind in Hrun.
    destruct (forM f l w) as [[e|ys'] w''] eqn:Hl; [discriminate|].
    destruct (IH ys' w'' eq_refl) as [-> HF].
    inversion Hrun; subst. split; [reflexivity|]. now constructor.
Qed.

Lemma inner_pure (x y : list Q) (w : world) : exists r, inner x y w = (r, w).
Proof. unfold inner. destruct (decide _); eexists; reflexivity. Qed.

Lemma broadcast2_pure {A B C} (f : A -> B -> C) (a : list A) (b : list B) (w : world) :
  exists r, broadcast2 f a b w = (r, w).
Proof.
  unfold broadcast2. destruct (decide _); [eexists; reflexivity|].
  destruct a as [|? [|? ?]], b as [|? [|? ?]]; eexists; reflexivity.
Qed.

Lemma column_pure (j : nat) (row : list Q) (w : world) :
  exists r, (match row !! j with
             | Some x => ret x
             | None => raise IndexError
             end : M Q) w = (r, w).
Proof. destruct (row !! j); eexists; reflexivity. Qed.

Lemma run_column (j : nat) (P : matrix) (w : world) :
  Forall (fun row => (j < length row)%nat) P ->
  column j P w = (Ret (map (fun row => nth j row 0%Q) P), w).
Proof.
  intros HP. unfold column. apply run_forM_pure.
  intros row Hrow. rewrite Forall_forall in HP.
  specialize (HP row Hrow).
  destruct (row !! j) as [x|] eqn:Hj.
  - rewrite (nth_lookup_Some _ _ 0%Q _ Hj). reflexivity.
  - apply lookup_ge_None in Hj. lia.
Qed.

Lemma threshold_above (p : Q) : (1 # 2 <= p)%Q -> threshold p = 1.
Proof.
  intros Hp. unfold threshold, np_heaviside.
  destruct (p - (1 # 2) ?= 0)%Q eqn:Hc; try reflexivity.
  apply Qlt_alt in Hc. lra.
Qed.

Lemma threshold_below (p : Q) : (p < 1 # 2)%Q -> threshold p = 0.
Proof.
  intros Hp. unfold threshold, np_heaviside.
  destruct (p - (1 # 2) ?= 0)%Q eqn:Hc; try reflexivity.
  - apply Qeq_alt in Hc. lra.
  - apply Qgt_alt in Hc. lra.
Qed.

Lemma threshold_binary (p : Q) : threshold p = 0 \/ threshold p = 1.
Proof.
  destruct (Qlt_le_dec p (1 # 2)).
  - left. now apply threshold_below.
  - right. now apply threshold_above.
Qed.

(** Whenever the surrogate's regression returns an output with a class-1
    column, [predict] thresholds that column. *)
Lemma predict_thresholds_regression_output (self : BLIMEY.bLIMEy) (m : Ridge)
    (X P : matrix) (w w' : world) :
  BLIMEY.surrogate_model self = Some m ->
  Ridge_predict m X w = (Ret P, w') ->
  Forall (fun row => (1 < length row)%nat) P ->
  exists labels,
    BLIMEY.predict self X w = (Ret labels, w')
    /\ length labels = length P
    /\ Forall (fun l => l = 0 \/ l = 1) labels
    /\ (forall i row p, P !! i = Some row -> row !! 1%nat = Some p ->
          ((p == 1 # 2)%Q -> labels !! i = Some 1)
          /\ ((1 # 2 <= p)%Q -> labels !! i = Some 1)
          /\ ((p < 1 # 2)%Q -> labels !! i = Some 0)).
Proof.
  intros Hm Hrun HP.
  exists (map threshold (map (fun row => nth 1 row 0%Q) P)).
  split; [|split; [|split]].
  - unfold BLIMEY.predict, BLIMEY.get_surrogate_model. rewrite Hm.
    rewrite (run_bind_ret _ _ w w m) by reflexivity.
    rewrite (run_bind_ret _ _ w w' P Hrun).
    rewrite (run_bind_ret _ _ w' w' _ (run_column 1 P w' HP)).
    unfold ret. rewrite !map_map. reflexivity.
  - now rewrite !length_map.
  - apply Forall_forall. intros l Hl.
    apply list_elem_of_In, in_map_iff in Hl. destruct Hl as (p & <- & _).
    apply threshold_binary.
  - intros i row p Hi Hp.
    assert (map threshold (map (fun row => nth 1 row 0%Q) P) !! i
            = Some (threshold p)) as Hlab.
    { rewrite !list_lookup_fmap, Hi. simpl.
      now rewrite (nth_lookup_Some _ _ 0%Q _ Hp). }
    rewrite Hlab. split; [|split]; intros Hc; f_equal.
    + apply threshold_above. lra.
    + now apply threshold_above.
    + now apply threshold_below.
Qed.

Lemma run_Ridge_predict (m : Ridge) (X : matrix) (d : nat) (w : world) :
  X <> [] ->
  Forall (fun x => length x = d) X ->
  Forall (fun c => length c = d) (coef_ m) ->
  length (intercept_ m) = length (coef_ m) ->
  Ridge_predict m X w = (Ret (linear_output m X), w).
Proof.
  intros Hne HX Hc Hi. unfold Ridge_predict.
  destruct X as [|x0 X0]; [congruence|].
  set (X := x0 :: X0) in *. clearbody X.
  apply run_forM_pure. intros x Hx.
  rewrite Forall_forall in HX. specialize (HX x Hx).
  rewrite (run_bind_ret _ _ w w
             (map (fun c => Qsum (zip_with Qmult x c)) (coef_ m))).
  - apply run_broadcast2. now rewrite length_map.
  - apply run_forM_pure. intros c Hcm.
    rewrite Forall_forall in Hc. specialize (Hc c Hcm).
    unfold inner. rewrite decide_True by congruence. reflexivity.
Qed.

(** C10.  On every input with at least one row, each row having one entry
    per feature of a surrogate with a class-0 and a class-1 target,
    [predict] returns one label per row; every label is the integer 0 or 1;
    and a row whose class-1 regression output is at least 0.5, in
    particular exactly 0.5, gets the label 1. *)
Theorem predict_thresholds_class_1 (self : BLIMEY.bLIMEy) (m : Ridge)
    (X : matrix) (d : nat) (w : world) :
  BLIMEY.surrogate_model self = Some m ->
  (1 < length (coef_ m))%nat ->
  length (intercept_ m) = length (coef_ m) ->
  Forall (fun c => length c = d) (coef_ m) ->
  X <> [] ->
  Forall (fun x => length x = d) X ->
  exists P labels,
    BLIMEY.predict_proba self X w = (Ret P, w)
    /\ BLIMEY.predict self X w = (Ret labels, w)
    /\ length P = length X
    /\ length labels = length X
    /\ Forall (fun row => (1 < length row)%nat) P
    /\ Forall (fun l => l = 0 \/ l = 1) labels
    /\ (forall i row p, P !! i = Some row -> row !! 1%nat = Some p ->
          ((p == 1 # 2)%Q -> labels !! i = Some 1)
          /\ ((1 # 2 <= p)%Q -> labels !! i = Some 1)
          /\ ((p < 1 # 2)%Q -> labels !! i = Some 0)).
Proof.
  intros Hm Hk Hi Hc Hne HX.
  pose proof (run_Ridge_predict m X d w Hne HX Hc Hi) as Hrun.
  assert (Forall (fun row => (1 < length row)%nat) (linear_output m X)) as HP.
  { unfold linear_output. apply Forall_forall. intros row Hrow.
    apply list_elem_of_In, in_map_iff in Hrow. destruct Hrow as (x & <- & _).
    rewrite length_zip_with, length_map. lia. }
  destruct (predict_thresholds_regression_output self m X _ w w Hm Hrun HP)
    as (labels & Hpred & Hlen & Hbin & Hthr).
  assert (length (linear_output m X) = length X) as HlP
    by (unfold linear_output; apply length_map).
  exists (linear_output m X), labels.
  split; [|split; [|split; [|split; [|split; [|split]]]]]; try assumption.
  - unfold BLIMEY.predict_proba, BLIMEY.get_surrogate_model. rewrite Hm.
    now rewrite (run_bind_ret _ _ w w m) by reflexivity.
  - congruence.
Qed.

Lemma run_Ridge_predict_inv (m : Ridge) (X P : matrix) (w w' : world) :
  Ridge_predict m X w = (Ret P, w') ->
  w' = w
  /\ Forall2 (fun x p => exists scores,
                Forall2 (fun c s => inner x c w = (Ret s, w)) (coef_ m) scores
                /\ broadcast2 Qplus scores (intercept_ m) w = (Ret p, w)) X P.
Proof.
  unfold Ridge_predict. destruct X as [|x0 X0]; [discriminate|].
  set (X := x0 :: X0). clearbody X. intros Hrun.
  apply run_forM_inv in Hrun.
  - destruct Hrun as [-> HF]. split; [reflexivity|].
    eapply Forall2_impl; [exact HF|]. intros x p Hp. simpl in Hp.
    rewrite run_bind in Hp.
    destruct (forM (inner x) (coef_ m) w) as [[e|scores] w1] eqn:Hs; [discriminate|].
    apply run_forM_inv in Hs; [|intros; apply inner_pure].
    destruct Hs as [-> Hs]. exists scores. split; assumption.
  - intros x w0. rewrite run_bind.
    destruct (forM (inner x) (coef_ m) w0) as [[e|scores] w1] eqn:Hs.
    + assert (w1 = w0) as ->; [|eexists; reflexivity].
      clear -Hs. revert Hs. generalize (coef_ m). intros l.
      induction l as [|c l IH]; simpl; [discriminate|].
      rewrite run_bind. destruct (inner_pure x c w0) as ([e'|s] & ->).
      * now intros [= _ ->].
      * rewrite run_bind. destruct (forM (inner x) l w0) as [[e'|ss] w2]; [|discriminate].
        intros [= -> ->]. now apply IH.
    + apply run_forM_inv in Hs; [|intros; apply inner_pure].
      destruct Hs as [-> _]. apply broadcast2_pure.
Qed.

Lemma run_inner_inv (x c : list Q) (s : Q) (w : world) :
  inner x c w = (Ret s, w) ->
  length x = length c /\ s = Qsum (zip_with Qmult x c).
Proof.
  unfold inner. destruct (decide _); [|discriminate].
  intros [= <-]. split; [assumption | reflexivity].
Qed.

Lemma broadcast2_head (scores intercept p : list Q) (s0 v : Q) (w : world) :
  broadcast2 Qplus scores intercept w = (Ret p, w) ->
  scores !! 0%nat = Some s0 -> p !! 0%nat = Some v ->
  exists b0, intercept !! 0%nat = Some b0 /\ v = (s0 + b0)%Q.
Proof.
  unfold broadcast2. destruct (decide _) as [Hl|Hl].
  - intros [= <-]. destruct scores as [|s scores]; [discriminate|].
    destruct intercept as [|b intercept]; [discriminate|].
    simpl. intros [= ->] [= <-]. eauto.
  - destruct scores as [|s [|s' scores]]; [discriminate| |].
    + intros Hrun [= ->]. simpl in Hrun.
      destruct intercept as [|b intercept]; injection Hrun as <-; [discriminate|].
      simpl. intros [= <-]. eauto.
    + destruct intercept as [|b [|b' intercept]]; try discriminate.
      intros [= <-]. simpl. intros [= ->] [= <-]. eauto.
Qed.

(** C1, as the code has it.  [get_explanation] returns row 0 of the
    surrogate's coefficient matrix.  That row is the class-0 one: column 0
    of [predict_proba] is the features times it plus the first intercept,
    while [predict] thresholds column 1.  Whenever the two rows are
    negations of each other, the class-1 row is the negation of what is
    returned. *)
Theorem get_explanation_is_class_0_row (self : BLIMEY.bLIMEy) (m : Ridge)
    (row0 : list Q) (w : world) :
  BLIMEY.surrogate_model self = Some m ->
  coef_ m !! 0%nat = Some row0 ->
  BLIMEY.get_explanation self w = (Ret row0, w)
  /\ (forall X P w' i x p v,
        BLIMEY.predict_proba self X w = (Ret P, w') ->
        X !! i = Some x -> P !! i = Some p -> p !! 0%nat = Some v ->
        exists b0, intercept_ m !! 0%nat = Some b0
                   /\ v = (Qsum (zip_with Qmult x row0) + b0)%Q)
  /\ (forall row1, coef_ m !! 1%nat = Some row1 ->
        Forall2 (fun c0 c1 => (c1 == - c0)%Q) row0 row1 ->
        Forall2 (fun e c1 => (c1 == - e)%Q /\ (e == - c1)%Q) row0 row1).
Proof.
  intros Hm Hrow. split; [|split].
  - unfold BLIMEY.get_explanation, BLIMEY.get_surrogate_model. rewrite Hm.
    rewrite (run_bind_ret _ _ w w m) by reflexivity. rewrite Hrow. reflexivity.
  - intros X P w' i x p v Hrun Hx Hp Hv.
    unfold BLIMEY.predict_proba, BLIMEY.get_surrogate_model in Hrun.
    rewrite Hm in Hrun. rewrite (run_bind_ret _ _ w w m) in Hrun by reflexivity.
    apply run_Ridge_predict_inv in Hrun. destruct Hrun as [-> HF].
    destruct (Forall2_lookup_lr _ _ _ _ _ _ HF Hx Hp) as (scores & Hs & Hb).
    destruct (Forall2_lookup_l _ _ _ _ _ Hs Hrow) as (s0 & Hs0 & Hin).
    apply run_inner_inv in Hin. destruct Hin as [_ ->].
    exact (broadcast2_head _ _ _ _ _ _ Hb Hs0 Hv).
  - intros row1 _ HF. eapply Forall2_impl; [exact HF|].
    intros a b Hab. simpl. split; [assumption|]. rewrite Hab. ring.
Qed.

(** ** Resolution of the sampling covariance *)

Lemma np_eye_is_identity (n : nat) : is_identity n (np_eye n).
Proof.
  unfold is_identity, np_eye. split; [now rewrite length_map, length_seq|].
  intros i row Hi. rewrite list_lookup_fmap in Hi.
  destruct (seq 0 n !! i) as [i'|] eqn:Hs; [|discriminate].
  apply lookup_seq in Hs. destruct Hs as [-> _]. simpl in Hi.
  injection Hi as <-. split; [now rewrite length_map, length_seq|].
  intros j x Hj. rewrite list_lookup_fmap in Hj.
  destruct (seq 0 n !! j) as [j'|] eqn:Hs; [|discriminate].
  apply lookup_seq in Hs. destruct Hs as [-> _]. simpl in Hj.
  now injection Hj as <-.
Qed.

(** C6.  The sampling covariance is the explicit override when one is
    supplied; otherwise [np.cov] of the transposed features of the reference
    dataset when one is supplied; otherwise the identity matrix whose size
    is the length of the query point. *)
Theorem sampling_cov_resolution (np_cov : matrix -> M matrix)
    (self : BLIMEY.bLIMEy) (w : world) :
  (forall cov, BLIMEY.sampling_cov self = Some cov ->
     BLIMEY._get_local_sampling_cov np_cov self w = (Ret cov, w))
  /\ (forall data X,
        BLIMEY.sampling_cov self = None ->
        BLIMEY.data_test self = Some data ->
        data !! "X" = Some (Float2D X) ->
        BLIMEY._get_local_sampling_cov np_cov self w = np_cov (transpose X) w)
  /\ (BLIMEY.sampling_cov self = None ->
      BLIMEY.data_test self = None ->
      BLIMEY._get_local_sampling_cov np_cov self w
      = (Ret (np_eye (length (BLIMEY.query_point self))), w)
      /\ is_identity (length (BLIMEY.query_point self))
                     (np_eye (length (BLIMEY.query_point self)))).
Proof.
  unfold BLIMEY._get_local_sampling_cov. split; [|split].
  - intros cov ->. reflexivity.
  - intros data X -> -> HX.
    now rewrite (run_bind_ret _ _ w w X) by (now apply run_get_float2d).
  - intros -> ->. split; [reflexivity | apply np_eye_is_identity].
Qed.

(** ** Construction of an explainer *)

Section construction_properties.

Context {B : Type} `{!Classifier B}.
Variable multivariate_normal : list Q -> matrix -> Z -> M matrix.
Variable np_cov : matrix -> M matrix.
Variable Ridge_fit : matrix -> matrix -> list Q -> M Ridge.
Variable balance_oversample : gmap string ndarray -> M (gmap string ndarray).
Variable weights_based_on_distance : list Q -> matrix -> M (list Q).
Variable weight_based_on_class_imbalance : gmap string ndarray -> M (list Q).

Lemma run_sample_locally (self : BLIMEY.bLIMEy) (black_box_model : B)
    (cov X : matrix) (y : list Z) (w w1 w2 w3 : world) :
  BLIMEY._get_local_sampling_cov np_cov self w = (Ret cov, w1) ->
  multivariate_normal (BLIMEY.query_point self) cov (BLIMEY.samples self) w1
  = (Ret X, w2) ->
  predict black_box_model X w2 = (Ret y, w3) ->
  BLIMEY._sample_locally multivariate_normal np_cov self black_box_model w
  = (Ret (BLIMEY.set_sampled_data self (neighbourhood X y)), w3).
Proof using Type.
  intros Hcov Hmvn Hy. unfold BLIMEY._sample_locally.
  rewrite (run_bind_ret _ _ w w1 cov Hcov).
  rewrite (run_bind_ret _ _ w1 w2 X) by exact Hmvn.
  rewrite (run_bind_ret _ _ w2 w2 X)
    by (apply run_get_float2d; simpl; apply lookup_insert_eq).
  rewrite (run_bind_ret _ _ w2 w3 y Hy). reflexivity.
Qed.

Lemma run_sample_locally_inv (self e : BLIMEY.bLIMEy) (black_box_model : B)
    (w u : world) :
  BLIMEY._sample_locally multivariate_normal np_cov self black_box_model w
  = (Ret e, u) ->
  exists cov X y w1 w2,
    BLIMEY._get_local_sampling_cov np_cov self w = (Ret cov, w1)
    /\ multivariate_normal (BLIMEY.query_point self) cov (BLIMEY.samples self) w1
       = (Ret X, w2)
    /\ predict black_box_model X w2 = (Ret y, u)
    /\ e = BLIMEY.set_sampled_data self (neighbourhood X y).
Proof using Type.
  unfold BLIMEY._sample_locally. rewrite run_bind.
  destruct (BLIMEY._get_local_sampling_cov np_cov self w)
    as [[?|cov] w1] eqn:Hcov; [discriminate|].
  rewrite run_bind. simpl BLIMEY.query_point. simpl BLIMEY.samples.
  destruct (multivariate_normal _ cov _ w1) as [[?|X] w2] eqn:Hmvn; [discriminate|].
  rewrite (run_bind_ret _ _ w2 w2 X)
    by (apply run_get_float2d; simpl; apply lookup_insert_eq).
  rewrite run_bind.
  destruct (predict black_box_model X w2) as [[?|y] w3] eqn:Hy; [discriminate|].
  intros [= <- <-]. exists cov, X, y, w1, w2. repeat split; assumption.
Qed.

(** C2, as the code has it.  The sampling step takes no seed: it draws
    from numpy's process-wide generator.  Two runs that agree on the query
    point, the resolved covariance, the count and the state of that
    generator store the same feature matrix, whatever else differs
    between them (reference data, options, black box, warnings issued). *)
Theorem sampled_features_determined_by_generator_state
    (self self' e e' : BLIMEY.bLIMEy) (bb bb' : B) (cov : matrix)
    (w w' w1 w1' u u' : world) :
  reads_generator_only multivariate_normal ->
  BLIMEY.query_point self = BLIMEY.query_point self' ->
  BLIMEY.samples self = BLIMEY.samples self' ->
  BLIMEY._get_local_sampling_cov np_cov self w = (Ret cov, w1) ->
  BLIMEY._get_local_sampling_cov np_cov self' w' = (Ret cov, w1') ->
  rng w1 = rng w1' ->
  BLIMEY._sample_locally multivariate_normal np_cov self bb w = (Ret e, u) ->
  BLIMEY._sample_locally multivariate_normal np_cov self' bb' w' = (Ret e', u') ->
  exists X,
    BLIMEY.sampled_data e !! "X" = Some (Float2D X)
    /\ BLIMEY.sampled_data e' !! "X" = Some (Float2D X).
Proof using Type.
  intros Hreads Hq Hn Hcov Hcov' Hrng Hrun Hrun'.
  apply run_sample_locally_inv in Hrun, Hrun'.
  destruct Hrun as (c & X & y & v1 & v2 & Hc & Hmvn & _ & ->).
  destruct Hrun' as (c' & X' & y' & v1' & v2' & Hc' & Hmvn' & _ & ->).
  rewrite Hcov in Hc. injection Hc as <- <-.
  rewrite Hcov' in Hc'. injection Hc' as <- <-.
  pose proof (Hreads (BLIMEY.query_point self) cov (BLIMEY.samples self)
                w1 w1' Hrng) as Heq.
  rewrite <- Hq, <- Hn in Hmvn'. rewrite Hmvn, Hmvn' in Heq. simpl in Heq.
  injection Heq as <-. exists X. split; reflexivity.
Qed.

(** C3, as the code has it.  Construction does not examine the resolved
    covariance.  A matrix that is not positive semi-definite is handed to
    numpy's sampler like any other; when the sampler returns and the black
    box labels the sample, the sampling phase has succeeded and construction
    goes on to train the surrogate. *)
Theorem construction_passes_any_covariance_to_the_sampler
    (black_box_model : B) (query_point : list Q)
    (data : option (gmap string ndarray)) (sampling_cov : option matrix)
    (samples : Z)
    (class_weight_data class_weight_sampled weight_locally
       rebalance_sampled_data : bool)
    (cov X : matrix) (y : list Z) (w w1 w2 w3 : world) :
  let self :=
    {| BLIMEY.query_point := query_point; BLIMEY.data_test := data;
       BLIMEY.sampling_cov := sampling_cov; BLIMEY.samples := samples;
       BLIMEY.class_weight_data := class_weight_data;
       BLIMEY.class_weight_sampled := class_weight_sampled;
       BLIMEY.weight_locally := weight_locally;
       BLIMEY.rebalance_sampled_data := rebalance_sampled_data;
       BLIMEY.sampled_data := ∅; BLIMEY.surrogate_model := None |} in
  BLIMEY._get_local_sampling_cov np_cov self w = (Ret cov, w1) ->
  ~ positive_semidefinite cov ->
  multivariate_normal query_point cov samples w1 = (Ret X, w2) ->
  predict black_box_model X w2 = (Ret y, w3) ->
  BLIMEY._sample_locally multivariate_normal np_cov self black_box_model w
  = (Ret (BLIMEY.set_sampled_data self (neighbourhood X y)), w3)
  /\ BLIMEY.__init__ multivariate_normal np_cov Ridge_fit balance_oversample
       weights_based_on_distance weight_based_on_class_imbalance
       black_box_model query_point data sampling_cov samples
       class_weight_data class_weight_sampled weight_locally
       rebalance_sampled_data w
     = BLIMEY._train_surrogate Ridge_fit balance_oversample
         weights_based_on_distance weight_based_on_class_imbalance
         (BLIMEY.set_sampled_data self (neighbourhood X y)) black_box_model w3.
Proof using Type.
  intros self Hcov _ Hmvn Hy.
  pose proof (run_sample_locally self black_box_model cov X y w w1 w2 w3
                Hcov Hmvn Hy) as Hs.
  split; [exact Hs|].
  unfold BLIMEY.__init__. fold self.
  now rewrite (run_bind_ret _ _ w w3 _ Hs).
Qed.

(** C5, as the code has it.  Training does not look at the number of
    columns of the probability matrix.  With rebalancing and both
    class-weight options off, a matrix with other than two columns is
    stored and regressed on like any other, and training succeeds whenever
    the weights and the regression are computed. *)
Theorem training_regresses_on_any_probability_matrix
    (self : BLIMEY.bLIMEy) (black_box_model : B) (X p : matrix)
    (weights : list Q) (m : Ridge) (w w1 w2 w3 : world) :
  BLIMEY.rebalance_sampled_data self = false ->
  BLIMEY.class_weight_data self = false ->
  BLIMEY.class_weight_sampled self = false ->
  BLIMEY.sampled_data self !! "X" = Some (Float2D X) ->
  predict_proba black_box_model X w = (Ret p, w1) ->
  Exists (fun row => length row <> 2%nat) p ->
  (if BLIMEY.weight_locally self
   then weights_based_on_distance (BLIMEY.query_point self) X
   else ret (np_ones (length X))) w1 = (Ret weights, w2) ->
  Ridge_fit X p weights w2 = (Ret m, w3) ->
  BLIMEY._train_surrogate Ridge_fit balance_oversample
    weights_based_on_distance weight_based_on_class_imbalance
    self black_box_model w
  = (Ret (BLIMEY.set_surrogate_model
            (BLIMEY.set_sampled_data self
               (<["p(y)" := Float2D p]> (BLIMEY.sampled_data self))) m), w3).
Proof using Type.
  intros Hreb Hcd Hcs HX Hp _ Hw Hfit. unfold BLIMEY._train_surrogate.
  rewrite Hreb. rewrite (run_bind_ret _ _ w w self) by reflexivity.
  rewrite (run_bind_ret _ _ w w X) by (now apply run_get_float2d).
  rewrite (run_bind_ret _ _ w w1 p Hp).
  assert (forall w0,
            (getitem (<["p(y)" := Float2D p]> (BLIMEY.sampled_data self)) "X"
               ≫= as_float2d) w0 = (Ret X, w0)) as HX'.
  { intros w0. apply run_get_float2d. now rewrite lookup_insert_ne. }
  simpl BLIMEY.sampled_data. simpl BLIMEY.weight_locally.
  simpl BLIMEY.class_weight_data. simpl BLIMEY.class_weight_sampled.
  simpl BLIMEY.query_point.
  rewrite (run_bind_ret _ _ w1 w2 weights).
  2:{ rewrite (run_bind_ret _ _ w1 w1 X) by apply HX'. exact Hw. }
  rewrite Hcd. rewrite (run_bind_ret _ _ w2 w2 weights) by reflexivity.
  rewrite Hcs. rewrite (run_bind_ret _ _ w2 w2 weights) by reflexivity.
  rewrite (run_bind_ret _ _ w2 w2 X) by apply HX'.
  rewrite (run_bind_ret _ _ w2 w2 p)
    by (apply run_get_float2d; apply lookup_insert_eq).
  rewrite (run_bind_ret _ _ w2 w3 m Hfit). reflexivity.
Qed.

End construction_properties.

(** ** The properties on concrete inputs *)

Import collaborators examples.

Ltac nonneg_list :=
  repeat (first [apply List.Forall_nil
                | apply List.Forall_cons; [vm_compute; discriminate|]]).

(** On the labelled example the local and balanced score, built from the
    kernel weights and the truncated class weights [2; 0; 0; 0], is a
    number of [0,1]. *)
Lemma fidelity_in_unit_interval_witness :
  exists q,
    metric weights_based_on_distance weight_based_on_class_imbalance
      DistanceAndClass explainer sum_above_one labelled [1%Q] w0
    = (Ret (NpFloat64 (Finite q)), w0)
    /\ (0 <= q <= 1)%Q.
Proof.
  apply (fidelity_in_unit_interval weights_based_on_distance
           weight_based_on_class_imbalance explainer sum_above_one labelled
           features [0; 0; 1; 1] [0; 1; 1; 1] w0 w0 w0)
    with (weights := FVec [2 # 2; 0; 0 # 2; 0 # 5]%Q).
  - vm_compute. reflexivity.
  - vm_compute. reflexivity.
  - vm_compute. reflexivity.
  - reflexivity.
  - reflexivity.
  - discriminate.
  - exists [1 # 2; 1; 1 # 2; 1 # 5]%Q, w0, (IVec [2; 0; 0; 0]),
      [2 # 2; 0; 0 # 2; 0 # 5]%Q.
    repeat split; vm_compute; reflexivity.
  - reflexivity.
  - simpl. unfold nonneg. nonneg_list.
  - vm_compute. reflexivity.
Defined.

(** Without labels the balanced score of the example is the plain one, 3/4,
    and one warning is recorded. *)
Lemma bal_fidelity_without_labels_witness :
  exists a b,
    faithfulness.fidelity explainer sum_above_one unlabelled w0
    = (Ret (NpFloat64 (Finite a)), w0)
    /\ faithfulness.bal_fidelity weight_based_on_class_imbalance
         explainer sum_above_one unlabelled w0
       = (Ret (NpFloat64 (Finite b)), no_labels_warned w0)
    /\ (a == b)%Q.
Proof.
  apply (bal_fidelity_without_labels weight_based_on_class_imbalance
           explainer sum_above_one unlabelled
           features [0; 0; 1; 1] [0; 1; 1; 1] w0 w0 w0).
  - vm_compute. reflexivity.
  - vm_compute. reflexivity.
  - vm_compute. reflexivity.
  - reflexivity.
  - reflexivity.
  - discriminate.
  - vm_compute. reflexivity.
Defined.

Lemma fidelity_is_local_fidelity_with_unit_weights_witness :
  exists a b,
    faithfulness.fidelity explainer sum_above_one labelled w0
    = (Ret (NpFloat64 (Finite a)), w0)
    /\ faithfulness.local_fidelity unit_weights explainer sum_above_one labelled
         [1%Q] w0
       = (Ret (NpFloat64 (Finite b)), w0)
    /\ (a == b)%Q.
Proof.
  apply (fidelity_is_local_fidelity_with_unit_weights
           explainer sum_above_one labelled [1%Q]
           features [0; 0; 1; 1] [0; 1; 1; 1] w0 w0 w0).
  - vm_compute. reflexivity.
  - vm_compute. reflexivity.
  - vm_compute. reflexivity.
  - reflexivity.
  - reflexivity.
  - discriminate.
Defined.

(** The empty dataset fails with [ZeroDivisionError]; the far-away row,
    whose weight is zero, scores [nan] or an infinity. *)
Lemma fidelity_on_degenerate_weights_witness :
  (metric weights_based_on_distance weight_based_on_class_imbalance
     ByDistance always_one sum_above_one empty [0%Q] w0
   = (Raise ZeroDivisionError, w0)
   /\ is_ArithmeticError ZeroDivisionError = true)
  /\ exists r,
       metric weights_based_on_distance_float64 weight_based_on_class_imbalance
         ByDistance explainer sum_above_one far_away [0%Q] w0
       = (Ret (NpFloat64 r), divide_warned w0)
       /\ (r = NaN \/ exists s, r = Inf s).
Proof.
  split.
  - apply (fidelity_on_degenerate_weights weights_based_on_distance
             weight_based_on_class_imbalance always_one sum_above_one empty
             [] [] [] w0 w0 w0) with (weights := FVec []).
    + vm_compute. reflexivity.
    + reflexivity.
    + reflexivity.
    + reflexivity.
    + reflexivity.
    + exists []. split; reflexivity.
    + reflexivity.
    + reflexivity.
  - apply (fidelity_on_degenerate_weights weights_based_on_distance_float64
             weight_based_on_class_imbalance explainer sum_above_one far_away
             [[1000%Q]] [1] [1] w0 w0 w0) with (weights := FVec [0%Q]).
    + vm_compute. reflexivity.
    + vm_compute. reflexivity.
    + vm_compute. reflexivity.
    + reflexivity.
    + reflexivity.
    + exists [0%Q]. split; vm_compute; reflexivity.
    + reflexivity.
    + discriminate.
    + vm_compute. reflexivity.
Defined.

(** C4 does not hold as stated.  The dataset has one row; its weight is
    zero, so the weights sum to zero; local fidelity raises nothing and
    returns [nan]. *)
Lemma local_fidelity_with_vanishing_weights :
  far_away !! "X" = Some (Float2D [[1000%Q]])
  /\ weights_based_on_distance_float64 [0%Q] [[1000%Q]] w0 = (Ret [0%Q], w0)
  /\ (Qsum [0%Q] == 0)%Q
  /\ faithfulness.local_fidelity weights_based_on_distance_float64
       explainer sum_above_one far_away [0%Q] w0
     = (Ret (NpFloat64 NaN), divide_warned w0)
  /\ ~ fails_with_ArithmeticError
         (faithfulness.local_fidelity weights_based_on_distance_float64
            explainer sum_above_one far_away [0%Q] w0).
Proof.
  assert (faithfulness.local_fidelity weights_based_on_distance_float64
            explainer sum_above_one far_away [0%Q] w0
          = (Ret (NpFloat64 NaN), divide_warned w0)) as Hrun
    by (vm_compute; reflexivity).
  split; [vm_compute; reflexivity|].
  split; [vm_compute; reflexivity|].
  split; [reflexivity|].
  split; [exact Hrun|].
  rewrite Hrun. intros (e & He & _). discriminate.
Qed.

Lemma predict_thresholds_class_1_witness :
  exists P labels,
    BLIMEY.predict_proba explainer features w0 = (Ret P, w0)
    /\ BLIMEY.predict explainer features w0 = (Ret labels, w0)
    /\ length P = length features
    /\ length labels = length features
    /\ Forall (fun row => (1 < length row)%nat) P
    /\ Forall (fun l => l = 0 \/ l = 1) labels
    /\ (forall i row p, P !! i = Some row -> row !! 1%nat = Some p ->
          ((p == 1 # 2)%Q -> labels !! i = Some 1)
          /\ ((1 # 2 <= p)%Q -> labels !! i = Some 1)
          /\ ((p < 1 # 2)%Q -> labels !! i = Some 0)).
Proof.
  apply (predict_thresholds_class_1 explainer surrogate features 1 w0).
  - reflexivity.
  - simpl. lia.
  - reflexivity.
  - repeat constructor.
  - discriminate.
  - repeat constructor.
Defined.

(** The second row of [features] has the class-1 output 1/2 exactly and
    the label 1. *)
Example predict_at_the_threshold :
  exists p,
    (BLIMEY.predict_proba explainer [[1%Q]] ≫= column 1) w0 = (Ret [p], w0)
    /\ (p == 1 # 2)%Q
    /\ BLIMEY.predict explainer [[1%Q]] w0 = (Ret [1], w0).
Proof. eexists. repeat split. Qed.

(** C1 does not hold as stated.  For the explainer constructed at the
    query point (1/2, 1/2) against the black box "class 1 when the
    coordinates sum to more than 1", the vector [get_explanation] returns
    is not the class-1 row of the coefficient matrix: it differs from it in
    its first entry. *)
Lemma get_explanation_is_not_the_class_1_row :
  exists e u m explanation class_1_row a b,
    construct sum_above_one [1 # 2; 1 # 2]%Q None None 4
      false false true false w0 = (Ret e, u)
    /\ BLIMEY.surrogate_model e = Some m
    /\ BLIMEY.get_explanation e u = (Ret explanation, u)
    /\ coef_ m !! 1%nat = Some class_1_row
    /\ explanation !! 0%nat = Some a
    /\ class_1_row !! 0%nat = Some b
    /\ ~ (a == b)%Q.
Proof.
  do 7 eexists.
  split; [vm_compute; reflexivity|].
  split; [reflexivity|].
  split; [vm_compute; reflexivity|].
  split; [reflexivity|].
  split; [reflexivity|].
  split; [reflexivity|].
  vm_compute. discriminate.
Qed.

(** For the surrogate of the examples the explanation is the class-0 row
    [[-1/3]], the negation of the class-1 row [[1/3]]. *)
Lemma get_explanation_is_class_0_row_witness :
  BLIMEY.get_explanation explainer w0 = (Ret [-1 # 3]%Q, w0)
  /\ (forall X P w' i x p v,
        BLIMEY.predict_proba explainer X w0 = (Ret P, w') ->
        X !! i = Some x -> P !! i = Some p -> p !! 0%nat = Some v ->
        exists b0, intercept_ surrogate !! 0%nat = Some b0
                   /\ v = (Qsum (zip_with Qmult x [-1 # 3]) + b0)%Q)
  /\ (forall row1, coef_ surrogate !! 1%nat = Some row1 ->
        Forall2 (fun c0 c1 => (c1 == - c0)%Q) [-1 # 3]%Q row1 ->
        Forall2 (fun e c1 => (c1 == - e)%Q /\ (e == - c1)%Q) [-1 # 3]%Q row1).
Proof.
  apply (get_explanation_is_class_0_row explainer surrogate [-1 # 3]%Q w0).
  - reflexivity.
  - reflexivity.
Defined.

Lemma sampling_cov_resolution_witness :
  BLIMEY._get_local_sampling_cov np_cov with_override w0
  = (Ret [[2; 1]; [1; 2]]%Q, w0)
  /\ BLIMEY._get_local_sampling_cov np_cov with_reference_data w0
     = np_cov (transpose features) w0
  /\ BLIMEY._get_local_sampling_cov np_cov blank w0
     = (Ret [[1; 0]; [0; 1]]%Q, w0)
  /\ is_identity 2 [[1; 0]; [0; 1]]%Q.
Proof.
  split; [|split].
  - now apply (sampling_cov_resolution np_cov with_override w0).
  - apply (sampling_cov_resolution np_cov with_reference_data w0)
      with (data := labelled); reflexivity.
  - apply (sampling_cov_resolution np_cov blank w0); reflexivity.
Defined.

(** With the reference data of the examples the covariance is the
    empirical variance of its one feature, 5/3. *)
Example sampling_cov_from_reference_data :
  BLIMEY._get_local_sampling_cov np_cov with_reference_data w0
  = (Ret [[5 # 3]], w0).
Proof. vm_compute. reflexivity. Qed.

Lemma multivariate_normal_reads_generator_only :
  reads_generator_only multivariate_normal.
Proof.
  intros mean cov size [s l] [s' l'] Hs. simpl in Hs. subst s'.
  unfold multivariate_normal.
  destruct (negb _); [reflexivity|].
  destruct (size <? 0); [reflexivity|].
  destruct (forallb _ _ && _); unfold mbind, M_bind, bind, ret, warn, draw_sample;
    simpl; destruct (draw_rows _ _ _ _); reflexivity.
Qed.

(** C2 does not hold as stated.  [_sample_locally] has no seed among its
    arguments; run twice on one query point, covariance and count, with the
    process-wide generator in two states, it stores two feature matrices. *)
Lemma sampled_features_differ_between_generator_states :
  exists e e' u u' X X',
    BLIMEY._sample_locally multivariate_normal np_cov blank sum_above_one
      (World 1 []) = (Ret e, u)
    /\ BLIMEY._sample_locally multivariate_normal np_cov blank sum_above_one
         (World 2 []) = (Ret e', u')
    /\ BLIMEY.sampled_data e !! "X" = Some (Float2D X)
    /\ BLIMEY.sampled_data e' !! "X" = Some (Float2D X')
    /\ X <> X'.
Proof.
  do 6 eexists.
  split; [vm_compute; reflexivity|].
  split; [vm_compute; reflexivity|].
  split; [reflexivity|].
  split; [reflexivity|].
  discriminate.
Qed.

(** Two runs that differ in the options, the black box and the warnings
    already issued, but not in the generator state, store one matrix. *)
Lemma sampled_features_determined_by_generator_state_witness :
  exists X,
    BLIMEY.sampled_data
      (BLIMEY.set_sampled_data blank
         (neighbourhood
            [[539 # 1024; 119 # 128]; [401 # 1024; 123 # 512];
             [247 # 1024; 217 # 256]; [461 # 1024; 321 # 512]]%Q [1; 0; 1; 1]))
      !! "X" = Some (Float2D X)
    /\ BLIMEY.sampled_data
         (BLIMEY.set_sampled_data with_identity_override
            (neighbourhood
               [[539 # 1024; 119 # 128]; [401 # 1024; 123 # 512];
                [247 # 1024; 217 # 256]; [461 # 1024; 321 # 512]]%Q [1; 1; 1; 1]))
         !! "X" = Some (Float2D X).
Proof.
  apply (sampled_features_determined_by_generator_state
           multivariate_normal np_cov
           blank with_identity_override _ _ sum_above_one always_one
           [[1; 0]; [0; 1]]%Q
           w0 (World 42 [Warning "earlier"]) w0 (World 42 [Warning "earlier"])
           (World 1736731266 []) (World 1736731266 [Warning "earlier"])).
  - exact multivariate_normal_reads_generator_only.
  - reflexivity.
  - reflexivity.
  - reflexivity.
  - reflexivity.
  - reflexivity.
  - vm_compute. reflexivity.
  - vm_compute. reflexivity.
Defined.

(** C3 does not hold as stated.  The covariance [[-1]] is not positive
    semi-definite; construction with it succeeds, with numpy's warning as
    the only trace. *)
Lemma construction_succeeds_with_indefinite_covariance :
  ~ positive_semidefinite [[-1 # 1]]%Q
  /\ exists e u m,
       construct sum_above_one [1 # 2]%Q None (Some [[-1 # 1]]%Q) 4
         false false true false w0 = (Ret e, u)
       /\ BLIMEY.surrogate_model e = Some m
       /\ warnings u
          = [RuntimeWarning "covariance is not symmetric positive-semidefinite."].
Proof.
  split.
  - intros [_ Hq]. specialize (Hq [1%Q] eq_refl). vm_compute in Hq.
    now apply Hq.
  - do 3 eexists.
    split; [vm_compute; reflexivity|].
    split; reflexivity.
Qed.

Lemma construction_passes_any_covariance_to_the_sampler_witness :
  exists X y w3,
    BLIMEY._sample_locally multivariate_normal np_cov indefinite sum_above_one w0
    = (Ret (BLIMEY.set_sampled_data indefinite (neighbourhood X y)), w3)
    /\ BLIMEY.__init__ multivariate_normal np_cov (Ridge_fit 1) balance_oversample
         weights_based_on_distance weight_based_on_class_imbalance
         sum_above_one [1 # 2]%Q None (Some [[-1 # 1]]%Q) 4
         false false true false w0
       = BLIMEY._train_surrogate (Ridge_fit 1) balance_oversample
           weights_based_on_distance weight_based_on_class_imbalance
           (BLIMEY.set_sampled_data indefinite (neighbourhood X y))
           sum_above_one w3.
Proof.
  do 3 eexists.
  eapply (construction_passes_any_covariance_to_the_sampler
            multivariate_normal np_cov (Ridge_fit 1) balance_oversample
            weights_based_on_distance weight_based_on_class_imbalance
            sum_above_one [1 # 2]%Q None (Some [[-1 # 1]]%Q) 4
            false false true false).
  - reflexivity.
  - intros [_ Hq]. specialize (Hq [1%Q] eq_refl). vm_compute in Hq.
    now apply Hq.
  - vm_compute. reflexivity.
  - vm_compute. reflexivity.
Defined.

(** C5 does not hold as stated.  Against a black box whose probability
    matrix has three columns, construction, and with it training, succeeds:
    the surrogate has three coefficient rows. *)
Lemma training_succeeds_on_three_probability_columns :
  exists e u p m,
    construct three_classes [1 # 2]%Q None None 4
      false false true false w0 = (Ret e, u)
    /\ BLIMEY.sampled_data e !! "p(y)" = Some (Float2D p)
    /\ p <> []
    /\ Forall (fun row => length row = 3%nat) p
    /\ BLIMEY.surrogate_model e = Some m
    /\ length (coef_ m) = 3%nat.
Proof.
  do 4 eexists.
  split; [vm_compute; reflexivity|].
  split; [reflexivity|].
  split; [discriminate|].
  split; [repeat constructor|].
  split; reflexivity.
Qed.

Lemma training_regresses_on_any_probability_matrix_witness :
  exists p m,
    BLIMEY._train_surrogate (Ridge_fit 1) balance_oversample
      weights_based_on_distance weight_based_on_class_imbalance
      sampled three_classes w0
    = (Ret (BLIMEY.set_surrogate_model
              (BLIMEY.set_sampled_data sampled
                 (<["p(y)" := Float2D p]> (BLIMEY.sampled_data sampled))) m), w0)
    /\ Forall (fun row => length row = 3%nat) p.
Proof.
  do 2 eexists. split.
  - eapply (training_regresses_on_any_probability_matrix
              (Ridge_fit 1) balance_oversample
              weights_based_on_distance weight_based_on_class_imbalance
              sampled three_classes [[0]; [1]; [2]]%Q).
    + reflexivity.
    + reflexivity.
    + reflexivity.
    + reflexivity.
    + vm_compute. reflexivity.
    + apply Exists_cons_hd. simpl. lia.
    + vm_compute. reflexivity.
    + vm_compute. reflexivity.
  - repeat constructor.
Defined.

(** On the labelled example the class weightings are [2; 2/3]; stored into
    the copy of the int64 label vector they become 2 and 0. *)
Example class_weights_of_the_labelled_example :
  weight_based_on_class_imbalance labelled w0 = (Ret [2; 2 # 3]%Q, w0)
  /\ faithfulness._get_class_weights weight_based_on_class_imbalance labelled w0
     = (Ret (IVec [2; 0; 0; 0]), w0).
Proof.
  split; [vm_compute; reflexivity|].
  rewrite (run_get_class_weights_labels weight_based_on_class_imbalance
             labelled [0; 1; 1; 1] [2; 2 # 3]%Q w0 w0);
    [reflexivity | reflexivity | vm_compute; reflexivity].
Qed.


(** * Further properties of the fidelity metrics *)

Lemma run_bind_inv {A B} (c : M A) (k : A -> M B) (w w' : world) (b : B) :
  (c ≫= k) w = (Ret b, w') ->
  exists a w1, c w = (Ret a, w1) /\ k a w1 = (Ret b, w').
Proof.
  rewrite run_bind. destruct (c w) as [[e|a] w1]; [discriminate|].
  intros Hk. exists a, w1. split; [reflexivity | exact Hk].
Qed.

Lemma py_sum_cases (a : vec) :
  (vlen a = 0%nat /\ py_sum a = PyInt 0)
  \/ ((0 < vlen a)%nat /\ builtin (py_sum a) = None).
Proof.
  destruct (vlen a) eqn:Hl.
  - left. split; [reflexivity | now apply py_sum_empty].
  - right. split; [lia|]. apply py_sum_nonempty. lia.
Qed.

Lemma run_truediv_numpy_shape (a b : pynum) (w : world) :
  builtin a = None \/ builtin b = None ->
  exists r w', truediv a b w = (Ret (NpFloat64 r), w').
Proof.
  intros Hab. unfold truediv.
  destruct a, b; simpl in Hab;
    try (destruct Hab; discriminate);
    cbn [builtin];
    match goal with
    | |- context [fdiv ?x ?y] => destruct (fdiv x y) as [r [|]]
    end; eexists _, _; reflexivity.
Qed.

Lemma agreement_sym (pb pe : list Z) : agreement pb pe = agreement pe pb.
Proof.
  unfold agreement. f_equal. revert pe.
  induction pb as [|a pb IH]; intros [|b pe]; simpl; try reflexivity.
  rewrite IH. f_equal. apply bool_decide_ext. split; congruence.
Qed.

Lemma agreement_same (l : list Z) : agreement l l = map (fun _ => 1) l.
Proof.
  unfold agreement. induction l as [|a l IH]; [reflexivity|].
  simpl. rewrite bool_decide_true by reflexivity. simpl in IH. now rewrite IH.
Qed.

Lemma agreement_different (pb pe : list Z) :
  Forall2 (fun a b => a <> b) pb pe -> agreement pb pe = map (fun _ => 0) pb.
Proof.
  unfold agreement. induction 1 as [|a b pb pe Hab _ IH]; [reflexivity|].
  simpl. rewrite bool_decide_false by assumption. simpl in IH. now rewrite IH.
Qed.

Lemma agreement_count (pb pe : list Z) :
  Zsum (agreement pb pe) = Z.of_nat (agreeing_rows pb pe).
Proof.
  unfold agreement, agreeing_rows. revert pe.
  induction pb as [|a pb IH]; intros [|b pe]; try reflexivity.
  simpl zip_with. simpl map. rewrite Zsum_cons, IH.
  change (zip (a :: pb) (b :: pe)) with ((a, b) :: zip pb pe).
  rewrite filter_cons. simpl. case_bool_decide as Hab.
  - rewrite decide_True by assumption. simpl length. lia.
  - rewrite decide_False by assumption. lia.
Qed.

Lemma agreement_mass_all (l : list Z) (weights : list Q) :
  length l = length weights ->
  (agreement_mass (map (fun _ => 1%Z) l) weights == Qsum weights)%Q.
Proof.
  revert weights. induction l as [|a l IH]; intros [|x weights] Hl;
    try discriminate; [reflexivity|].
  simpl map. rewrite agreement_mass_cons, Qsum_cons, IH by (simpl in Hl; lia).
  simpl. ring.
Qed.

Lemma agreement_mass_none (l : list Z) (weights : list Q) :
  (agreement_mass (map (fun _ => 0%Z) l) weights == 0)%Q.
Proof.
  revert weights. induction l as [|a l IH]; intros [|x weights];
    try reflexivity.
  simpl map. rewrite agreement_mass_cons, IH. simpl. ring.
Qed.

Lemma agreement_mass_Forall2 (same : list Z) (l1 l2 : list Q) :
  Forall2 Qeq l1 l2 -> (agreement_mass same l1 == agreement_mass same l2)%Q.
Proof.
  intros HF. revert same.
  induction HF as [|x y l1 l2 Hxy _ IH]; intros [|s same]; try reflexivity.
  rewrite !agreement_mass_cons, Hxy, IH. reflexivity.
Qed.

Lemma Qsum_scale (c : Q) (l : list Q) :
  (Qsum (map (Qmult c) l) == c * Qsum l)%Q.
Proof.
  induction l as [|x l IH]; [simpl; unfold Qsum; simpl; ring|].
  simpl map. rewrite !Qsum_cons, IH. ring.
Qed.

Lemma agreement_mass_scale (c : Q) (same : list Z) (weights : list Q) :
  (agreement_mass same (map (Qmult c) weights) == c * agreement_mass same weights)%Q.
Proof.
  revert weights. induction same as [|s same IH]; intros [|x weights];
    try (unfold agreement_mass, Qsum; simpl; ring).
  simpl map. rewrite !agreement_mass_cons, IH. ring.
Qed.

Section fidelity_further.

Context {E B : Type} `{!Classifier E, !Classifier B}.
Variable weights_based_on_distance : list Q -> matrix -> M (list Q).
Variable weight_based_on_class_imbalance : gmap string ndarray -> M (list Q).

Local Abbreviation metric :=
  (metric weights_based_on_distance weight_based_on_class_imbalance).

Variables (expl : E) (black_box_model : B) (data : gmap string ndarray).

(** X1.  Without the key ['X'] each of the four metrics fails with
    [KeyError] before either model has been asked anything. *)
Theorem metric_without_features (v : weighting) (query_point : list Q) (w : world) :
  data !! "X" = None ->
  metric v expl black_box_model data query_point w = (Raise KeyError, w).
Proof using Type.
  intros HX.
  assert (faithfulness._get_preds expl black_box_model data w
          = (Raise KeyError, w)) as Hp.
  { unfold faithfulness._get_preds.
    apply run_bind_raise. apply run_bind_raise. unfold getitem. now rewrite HX. }
  destruct v; simpl; apply run_bind_raise; exact Hp.
Qed.

Lemma metric_value_is_np_float64 (v : weighting) (query_point : list Q)
    (s : pynum) (w w' : world) :
  metric v expl black_box_model data query_point w = (Ret s, w') ->
  is_np_float64 s = true.
Proof using Type.
  assert (forall a b u u',
            truediv (py_sum a) (py_sum b) u = (Ret s, u') ->
            is_np_float64 s = true) as Hdiv.
  { intros a b u u' Hrun.
    destruct (py_sum_cases a) as [[_ Ha]|[_ Ha]].
    - destruct (py_sum_cases b) as [[_ Hb]|[_ Hb]].
      + rewrite Ha, Hb in Hrun. discriminate.
      + destruct (run_truediv_numpy_shape (py_sum a) (py_sum b) u (or_intror Hb))
          as (r & u'' & Hr). rewrite Hr in Hrun. now injection Hrun as <- _.
    - destruct (run_truediv_numpy_shape (py_sum a) (py_sum b) u (or_introl Ha))
        as (r & u'' & Hr). rewrite Hr in Hrun. now injection Hrun as <- _. }
  intros Hrun. destruct v; simpl in Hrun.
  - unfold faithfulness.fidelity in Hrun.
    apply run_bind_inv in Hrun. destruct Hrun as (same & u & _ & Hrun).
    destruct (py_sum_cases same) as [[Hl Ha]|[_ Ha]].
    + rewrite Ha, Hl in Hrun. discriminate.
    + destruct (run_truediv_numpy_shape (py_sum same)
                  (PyInt (Z.of_nat (vlen same))) u (or_introl Ha))
        as (r & u'' & Hr). rewrite Hr in Hrun. now injection Hrun as <- _.
  - unfold faithfulness.local_fidelity in Hrun.
    repeat (apply run_bind_inv in Hrun; destruct Hrun as (? & ? & _ & Hrun)).
    eapply Hdiv, Hrun.
  - unfold faithfulness.bal_fidelity in Hrun.
    repeat (apply run_bind_inv in Hrun; destruct Hrun as (? & ? & _ & Hrun)).
    eapply Hdiv, Hrun.
  - unfold faithfulness.local_and_bal_fidelity in Hrun.
    repeat (apply run_bind_inv in Hrun; destruct Hrun as (? & ? & _ & Hrun)).
    eapply Hdiv, Hrun.
Qed.

(** X2.  Whatever a metric registered in [AVAILABLE_EVALUATION_METRICS]
    returns is an [np.float64], be it a number, [nan] or an infinity: never
    a builtin [int] or [float]. *)
Theorem registered_metric_returns_np_float64 (name : string)
    (f : E -> B -> gmap string ndarray -> list Q -> M pynum)
    (query_point : list Q) (s : pynum) (w w' : world) :
  evaluation.AVAILABLE_EVALUATION_METRICS weights_based_on_distance
    weight_based_on_class_imbalance !! name = Some f ->
  f expl black_box_model data query_point w = (Ret s, w') ->
  is_np_float64 s = true.
Proof using Type.
  unfold evaluation.AVAILABLE_EVALUATION_METRICS. intros Hf Hrun.
  apply lookup_insert_Some in Hf. destruct Hf as [[_ <-] | [_ Hf]].
  { exact (metric_value_is_np_float64 Uniform query_point s w w' Hrun). }
  apply lookup_insert_Some in Hf. destruct Hf as [[_ <-] | [_ Hf]].
  { exact (metric_value_is_np_float64 DistanceAndClass query_point s w w' Hrun). }
  apply lookup_insert_Some in Hf. destruct Hf as [[_ <-] | [_ Hf]].
  { exact (metric_value_is_np_float64 ByClass query_point s w w' Hrun). }
  apply lookup_insert_Some in Hf. destruct Hf as [[_ <-] | [_ Hf]].
  { exact (metric_value_is_np_float64 ByDistance query_point s w w' Hrun). }
  rewrite lookup_empty in Hf. discriminate.
Qed.

End fidelity_further.

Section fidelity_on_a_dataset.

Context {E B : Type} `{!Classifier E, !Classifier B}.
Variable weights_based_on_distance : list Q -> matrix -> M (list Q).
Variable weight_based_on_class_imbalance : gmap string ndarray -> M (list Q).

Local Abbreviation metric :=
  (metric weights_based_on_distance weight_based_on_class_imbalance).

Variables (expl : E) (black_box_model : B) (data : gmap string ndarray).
Variables (X : matrix) (pb pe : list Z) (w w1 w2 : world).
Hypothesis data_X : data !! "X" = Some (Float2D X).
Hypothesis run_black_box : predict black_box_model X w = (Ret pb, w1).
Hypothesis run_expl : predict expl X w1 = (Ret pe, w2).
Hypothesis length_pb : length pb = length X.
Hypothesis length_pe : length pe = length X.

Local Abbreviation constructed_weights :=
  (constructed_weights weights_based_on_distance
     weight_based_on_class_imbalance data X w2).

(** X3.  On a non-empty dataset plain fidelity is the number of rows on
    which the two models give the same label, divided by the number of
    rows. *)
Theorem fidelity_is_fraction_of_agreeing_rows :
  X <> [] ->
  exists q,
    faithfulness.fidelity expl black_box_model data w
    = (Ret (NpFloat64 (Finite q)), w2)
    /\ (q == inject_Z (Z.of_nat (agreeing_rows pb pe))
             / inject_Z (Z.of_nat (length X)))%Q.
Proof using data_X run_black_box run_expl length_pb length_pe.
  intros Hne.
  destruct (run_fidelity_nonempty expl black_box_model data X pb pe w w1 w2
              data_X run_black_box run_expl length_pb length_pe Hne)
    as (q & Hrun & Hq).
  exists q. split; [exact Hrun|]. now rewrite Hq, agreement_count.
Qed.

(** X4.  On a non-empty dataset whose constructed weights (one per row) do
    not sum to zero, each metric returns 1 when the two models agree on
    every row and 0 when they agree on none. *)
Theorem metric_at_full_and_no_agreement (v : weighting) (query_point : list Q)
    (weights : vec) (w' : world) :
  X <> [] ->
  constructed_weights v query_point weights w' ->
  vlen weights = length X ->
  ~ (Qsum (to_float weights) == 0)%Q ->
  exists q,
    metric v expl black_box_model data query_point w
    = (Ret (NpFloat64 (Finite q)), w')
    /\ (pb = pe -> (q == 1)%Q)
    /\ (Forall2 (fun a b => a <> b) pb pe -> (q == 0)%Q).
Proof using data_X run_black_box run_expl length_pb length_pe.
  intros Hne Hc Hlen Hsum.
  pose proof (length_agreement X pb pe length_pb length_pe) as Hl.
  assert (0 < length X)%nat as Hpos by (destruct X; simpl; [congruence | lia]).
  assert (exists q,
            metric v expl black_box_model data query_point w
            = (Ret (NpFloat64 (Finite q)), w')
            /\ (q == agreement_mass (agreement pb pe) (to_float weights)
                     / Qsum (to_float weights))%Q) as (q & Hrun & Hq).
  { destruct (decide (v = Uniform)) as [-> | Hv].
    - destruct Hc as [-> ->]. simpl metric.
      destruct (run_fidelity_nonempty expl black_box_model data X pb pe w w1 w2
                  data_X run_black_box run_expl length_pb length_pe Hne)
        as (q & Hrun & Hq).
      exists q. split; [exact Hrun|].
      rewrite Hq. simpl to_float.
      rewrite <- Hl at 2. now rewrite agreement_mass_ones, Qsum_ones.
    - rewrite (run_weighted_metric weights_based_on_distance
                 weight_based_on_class_imbalance expl black_box_model data
                 X pb pe w w1 w2 data_X run_black_box run_expl length_pb
                 length_pe v query_point weights w' Hv Hc).
      apply weighted_mean_finite; [congruence | lia | assumption]. }
  exists q. split; [exact Hrun|]. split.
  - intros Heq. rewrite Hq, Heq, agreement_same, agreement_mass_all.
    + now field.
    + rewrite to_float_length. congruence.
  - intros Hd. rewrite Hq, (agreement_different pb pe Hd), agreement_mass_none.
    now field.
Qed.

(** X5.  On a non-empty dataset without the key ['y'], whose distance
    weights (one per row) do not sum to zero, local-and-balanced fidelity
    returns the score local fidelity returns; it records one warning more
    and raises nothing. *)
Theorem local_and_bal_fidelity_without_labels (query_point weights : list Q)
    (w3 : world) :
  X <> [] ->
  data !! "y" = None ->
  weights_based_on_distance query_point X w2 = (Ret weights, w3) ->
  length weights = length X ->
  ~ (Qsum weights == 0)%Q ->
  exists a b,
    faithfulness.local_fidelity weights_based_on_distance
      expl black_box_model data query_point w
    = (Ret (NpFloat64 (Finite a)), w3)
    /\ faithfulness.local_and_bal_fidelity weights_based_on_distance
         weight_based_on_class_imbalance expl black_box_model data query_point w
       = (Ret (NpFloat64 (Finite b)), no_labels_warned w3)
    /\ (a == b)%Q.
Proof using data_X run_black_box run_expl length_pb length_pe.
  intros Hne Hy Hw Hlen Hsum.
  pose proof (length_agreement X pb pe length_pb length_pe) as Hl.
  assert (0 < length X)%nat as Hpos by (destruct X; simpl; [congruence | lia]).
  set (weights' := zip_with Qmult weights (np_ones (length X))).
  assert (Forall2 Qeq weights' weights) as Hw'.
  { unfold weights'. rewrite <- Hlen. clear.
    induction weights as [|x l IH]; simpl; constructor; [ring | exact IH]. }
  assert (constructed_weights ByDistance query_point (FVec weights) w3) as Hc1
    by (exists weights; split; [exact Hw | reflexivity]).
  assert (constructed_weights DistanceAndClass query_point (FVec weights')
            (no_labels_warned w3)) as Hc2.
  { exists weights, w3, (FVec (np_ones (length X))), weights'.
    split; [exact Hw|]. split.
    - now apply (run_get_class_weights_no_labels weight_based_on_class_imbalance
                   data X data_X).
    - split; [|reflexivity]. unfold np_imul. apply run_broadcast2_inplace.
      simpl. unfold np_ones. rewrite repeat_length. exact Hlen. }
  pose proof (run_weighted_metric weights_based_on_distance
                weight_based_on_class_imbalance expl black_box_model data
                X pb pe w w1 w2 data_X run_black_box run_expl length_pb
                length_pe ByDistance query_point _ _ ltac:(discriminate) Hc1) as H1.
  pose proof (run_weighted_metric weights_based_on_distance
                weight_based_on_class_imbalance expl black_box_model data
                X pb pe w w1 w2 data_X run_black_box run_expl length_pb
                length_pe DistanceAndClass query_point _ _
                ltac:(discriminate) Hc2) as H2.
  simpl in H1, H2.
  destruct (weighted_mean_finite (agreement pb pe) (FVec weights) w3)
    as (a & Ha & Hqa); [simpl; congruence | lia | exact Hsum |].
  destruct (weighted_mean_finite (agreement pb pe) (FVec weights')
              (no_labels_warned w3)) as (b & Hb & Hqb).
  - simpl. rewrite (Forall2_length _ _ _ Hw'). congruence.
  - lia.
  - simpl. now rewrite (Qsum_Forall2 _ _ Hw').
  - exists a, b. split; [now rewrite H1|]. split; [now rewrite H2|].
    rewrite Hqa, Hqb. simpl to_float.
    now rewrite (agreement_mass_Forall2 _ _ _ Hw'), (Qsum_Forall2 _ _ Hw').
Qed.

End fidelity_on_a_dataset.

(** X6.  Local fidelity depends on the distance weights only up to a
    common factor: two kernels whose weights on the dataset differ by a
    non-zero factor give the same score. *)
Theorem local_fidelity_up_to_scale
    {E B : Type} `{!Classifier E, !Classifier B}
    (kernel kernel' : list Q -> matrix -> M (list Q))
    (expl : E) (black_box_model : B) (data : gmap string ndarray)
    (query_point : list Q) (X : matrix) (pb pe : list Z) (weights : list Q)
    (c : Q) (w w1 w2 w3 : world) :
  data !! "X" = Some (Float2D X) ->
  predict black_box_model X w = (Ret pb, w1) ->
  predict expl X w1 = (Ret pe, w2) ->
  length pb = length X ->
  length pe = length X ->
  X <> [] ->
  kernel query_point X w2 = (Ret weights, w3) ->
  kernel' query_point X w2 = (Ret (map (Qmult c) weights), w3) ->
  length weights = length X ->
  ~ (c == 0)%Q ->
  ~ (Qsum weights == 0)%Q ->
  exists a b,
    faithfulness.local_fidelity kernel expl black_box_model data query_point w
    = (Ret (NpFloat64 (Finite a)), w3)
    /\ faithfulness.local_fidelity kernel' expl black_box_model data query_point w
       = (Ret (NpFloat64 (Finite b)), w3)
    /\ (a == b)%Q.
Proof.
  intros HX Hbb Hexpl Hpb Hpe Hne Hk Hk' Hlen Hc Hsum.
  pose proof (length_agreement X pb pe Hpb Hpe) as Hl.
  assert (0 < length X)%nat as Hpos by (destruct X; simpl; [congruence | lia]).
  set (none := fun _ : gmap string ndarray => raise KeyError : M (list Q)).
  pose proof (run_weighted_metric kernel none expl black_box_model data
                X pb pe w w1 w2 HX Hbb Hexpl Hpb Hpe ByDistance query_point
                (FVec weights) w3 ltac:(discriminate)
                ltac:(exists weights; split; [exact Hk | reflexivity])) as H1.
  pose proof (run_weighted_metric kernel' none expl black_box_model data
                X pb pe w w1 w2 HX Hbb Hexpl Hpb Hpe ByDistance query_point
                (FVec (map (Qmult c) weights)) w3 ltac:(discriminate)
                ltac:(eexists; split; [exact Hk' | reflexivity])) as H2.
  simpl in H1, H2.
  destruct (weighted_mean_finite (agreement pb pe) (FVec weights) w3)
    as (a & Ha & Hqa); [simpl; congruence | lia | exact Hsum |].
  destruct (weighted_mean_finite (agreement pb pe) (FVec (map (Qmult c) weights)) w3)
    as (b & Hb & Hqb).
  - simpl. rewrite length_map. congruence.
  - lia.
  - simpl. rewrite Qsum_scale. intros Hz. apply Qmult_integral in Hz. tauto.
  - exists a, b. split; [now rewrite H1|]. split; [now rewrite H2|].
    rewrite Hqa, Hqb. simpl to_float.
    rewrite agreement_mass_scale, Qsum_scale. now field.
Qed.

(** X7.  The metrics do not distinguish the explainer from the black box:
    for two models whose predictions leave the interpreter state alone and
    have one length, exchanging them changes no metric. *)
Theorem metric_is_symmetric_in_the_models
    {E B : Type} `{!Classifier E, !Classifier B}
    (weights_based_on_distance : list Q -> matrix -> M (list Q))
    (weight_based_on_class_imbalance : gmap string ndarray -> M (list Q))
    (v : weighting) (expl : E) (black_box_model : B)
    (data : gmap string ndarray) (query_point : list Q)
    (X : matrix) (pb pe : list Z) (w : world) :
  data !! "X" = Some (Float2D X) ->
  predict black_box_model X w = (Ret pb, w) ->
  predict expl X w = (Ret pe, w) ->
  length pb = length pe ->
  metric weights_based_on_distance weight_based_on_class_imbalance
    v expl black_box_model data query_point w
  = metric weights_based_on_distance weight_based_on_class_imbalance
      v black_box_model expl data query_point w.
Proof.
  intros HX Hbb Hexpl Hlen.
  assert (faithfulness._get_preds expl black_box_model data w
          = (Ret (IVec (agreement pb pe)), w)) as H1.
  { unfold faithfulness._get_preds.
    rewrite (run_bind_ret _ _ w w X) by (now apply run_get_float2d).
    rewrite (run_bind_ret _ _ w w pb Hbb).
    rewrite (run_bind_ret _ _ w w X) by (now apply run_get_float2d).
    rewrite (run_bind_ret _ _ w w pe Hexpl).
    erewrite run_bind_ret by (apply run_broadcast2; congruence).
    reflexivity. }
  assert (faithfulness._get_preds black_box_model expl data w
          = (Ret (IVec (agreement pb pe)), w)) as H2.
  { unfold faithfulness._get_preds.
    rewrite (run_bind_ret _ _ w w X) by (now apply run_get_float2d).
    rewrite (run_bind_ret _ _ w w pe Hexpl).
    rewrite (run_bind_ret _ _ w w X) by (now apply run_get_float2d).
    rewrite (run_bind_ret _ _ w w pb Hbb).
    erewrite run_bind_ret by (apply run_broadcast2; congruence).
    rewrite (agreement_sym pb pe). reflexivity. }
  destruct v; simpl;
    [unfold faithfulness.fidelity | unfold faithfulness.local_fidelity
    | unfold faithfulness.bal_fidelity
    | unfold faithfulness.local_and_bal_fidelity];
    rewrite (run_bind_ret _ _ w w _ H1), (run_bind_ret _ _ w w _ H2);
    reflexivity.
Qed.

(** *** Class weights and integer labels *)

Lemma Qtrunc_small (x : Q) : (-1 < x < 1)%Q -> Qtrunc x = 0.
Proof.
  intros [Hlo Hhi]. unfold Qtrunc. destruct x as [n d].
  unfold Qlt in *. simpl in *. apply Z.quot_small_iff; lia.
Qed.

Lemma Zsum_zeros {A} (l : list A) : Zsum (map (fun _ => 0) l) = 0.
Proof.
  induction l as [|a l IH]; [reflexivity|].
  simpl map. rewrite Zsum_cons, IH. reflexivity.
Qed.

Lemma zip_mul_zeros {A} (same : list Z) (l : list A) :
  length same = length l ->
  zip_with Z.mul same (map (fun _ => 0) l) = map (fun _ => 0) l.
Proof.
  revert same. induction l as [|a l IH]; intros [|s same] Hl;
    try discriminate; [reflexivity|].
  simpl. rewrite IH by (simpl in Hl; lia). f_equal. lia.
Qed.

Section class_weights.

Context {E B : Type} `{!Classifier E, !Classifier B}.
Variable weight_based_on_class_imbalance : gmap string ndarray -> M (list Q).
Variables (data : gmap string ndarray) (y : list Z) (weightings : list Q).
Variables (w w' : world).
Hypothesis data_y : data !! "y" = Some (Int1D y).
Hypothesis run_weightings :
  weight_based_on_class_imbalance data w = (Ret weightings, w').

(** X8.  On a dataset with int64 labels [_get_class_weights] returns an
    int64 vector with one weight per label and records no warning.  A row
    whose label is a class index gets the weighting of that class with its
    fraction cut off; a row with any other label keeps the label as its
    weight. *)
Theorem get_class_weights_by_label :
  exists weights,
    faithfulness._get_class_weights weight_based_on_class_imbalance data w
    = (Ret (IVec weights), w')
    /\ length weights = length y
    /\ forall i l, y !! i = Some l ->
         (forall x, 0 <= l -> weightings !! Z.to_nat l = Some x ->
            weights !! i = Some (Qtrunc x))
         /\ (l < 0 \/ Z.of_nat (length weightings) <= l ->
             weights !! i = Some l).
Proof using data_y run_weightings.
  exists (map (class_weight weightings) y). split; [|split].
  - now apply run_get_class_weights_labels.
  - apply length_map.
  - intros i l Hi.
    assert (map (class_weight weightings) y !! i
            = Some (class_weight weightings l)) as ->
      by (now rewrite list_lookup_fmap, Hi).
    unfold class_weight. split.
    + intros x Hl Hx. pose proof (lookup_lt_Some _ _ _ Hx) as Hlt.
      rewrite decide_True by lia. now rewrite Hx.
    + intros Hout. rewrite decide_False by lia. reflexivity.
Qed.

(** X9.  When every label is a class index and every class weighting lies
    strictly between -1 and 1, the cast into the int64 label vector leaves
    no weight: on a non-empty dataset class-balanced fidelity raises
    nothing and returns [nan]. *)
Theorem bal_fidelity_with_fractional_weightings
    (expl : E) (black_box_model : B) (X : matrix) (pb pe : list Z)
    (u u1 : world) :
  data !! "X" = Some (Float2D X) ->
  predict black_box_model X u = (Ret pb, u1) ->
  predict expl X u1 = (Ret pe, w) ->
  length pb = length X ->
  length pe = length X ->
  length y = length X ->
  X <> [] ->
  Forall (fun l => 0 <= l < Z.of_nat (length weightings)) y ->
  Forall (fun x => (-1 < x < 1)%Q) weightings ->
  faithfulness._get_class_weights weight_based_on_class_imbalance data w
  = (Ret (IVec (map (fun _ => 0) y)), w')
  /\ faithfulness.bal_fidelity weight_based_on_class_imbalance
       expl black_box_model data u
     = (Ret (NpFloat64 NaN), divide_warned w').
Proof using data_y run_weightings.
  intros HX Hbb Hexpl Hpb Hpe Hy Hne Hlab Hfrac.
  assert (faithfulness._get_class_weights weight_based_on_class_imbalance data w
          = (Ret (IVec (map (fun _ => 0) y)), w')) as Hcw.
  { rewrite (run_get_class_weights_labels weight_based_on_class_imbalance
               data y weightings w w' data_y run_weightings).
    do 3 f_equal. apply map_ext_in. intros l Hl.
    rewrite Forall_forall in Hlab. apply list_elem_of_In in Hl.
    specialize (Hlab l Hl).
    unfold class_weight. rewrite decide_True by exact Hlab.
    destruct (weightings !! Z.to_nat l) as [x|] eqn:Hx; [|reflexivity].
    simpl. apply Qtrunc_small.
    rewrite Forall_forall in Hfrac. apply Hfrac.
    apply list_elem_of_lookup. eauto. }
  split; [exact Hcw|].
  pose proof (length_agreement X pb pe Hpb Hpe) as Hl.
  assert (0 < length X)%nat as Hpos by (destruct X; simpl; [congruence | lia]).
  unfold faithfulness.bal_fidelity.
  rewrite (run_bind_ret _ _ u w _
             (run_get_preds expl black_box_model data X pb pe u u1 w
                HX Hbb Hexpl Hpb Hpe)).
  rewrite (run_bind_ret _ _ w w' _ Hcw).
  assert (zip_with Z.mul (agreement pb pe) (map (fun _ => 0) y)
          = map (fun _ => 0) y) as Hzero.
  { apply zip_mul_zeros. congruence. }
  assert (np_mul (IVec (agreement pb pe)) (IVec (map (fun _ => 0) y)) w'
          = (Ret (IVec (map (fun _ => 0) y)), w')) as Hmul.
  { unfold np_mul.
    erewrite run_bind_ret
      by (apply run_broadcast2; rewrite length_map; congruence).
    now rewrite Hzero. }
  rewrite (run_bind_ret _ _ w' w' _ Hmul).
  destruct y as [|l0 y0] eqn:Ey; [simpl in Hy; lia|].
  rewrite <- Ey.
  assert (py_sum (IVec (map (fun _ => 0) y)) = NpInt64 0) as ->.
  { rewrite Ey. simpl map. unfold py_sum. f_equal.
    apply (Zsum_zeros (l0 :: y0)). }
  reflexivity.
Qed.

End class_weights.


(** * Further properties of the explainer *)

Lemma run_get_float2d_inv (data : gmap string ndarray) (key : string)
    (m : matrix) (w w' : world) :
  (getitem data key ≫= as_float2d) w = (Ret m, w') ->
  data !! key = Some (Float2D m) /\ w' = w.
Proof.
  rewrite run_bind. unfold getitem.
  destruct (data !! key) as [[v|m']|]; simpl; try discriminate.
  intros [= -> ->]. split; reflexivity.
Qed.

Section construction_further.

Context {B : Type} `{!Classifier B}.
Variable multivariate_normal : list Q -> matrix -> Z -> M matrix.
Variable np_cov : matrix -> M matrix.
Variable Ridge_fit : matrix -> matrix -> list Q -> M Ridge.
Variable balance_oversample : gmap string ndarray -> M (gmap string ndarray).
Variable weights_based_on_distance : list Q -> matrix -> M (list Q).
Variable weight_based_on_class_imbalance : gmap string ndarray -> M (list Q).

Lemma run_train_surrogate_inv (self e : BLIMEY.bLIMEy) (black_box_model : B)
    (w u : world) :
  BLIMEY._train_surrogate Ridge_fit balance_oversample
    weights_based_on_distance weight_based_on_class_imbalance
    self black_box_model w = (Ret e, u) ->
  exists self1 X p weights m wa wb wc,
    configuration self1 = configuration self
    /\ (BLIMEY.rebalance_sampled_data self = false -> self1 = self)
    /\ BLIMEY.sampled_data self1 !! "X" = Some (Float2D X)
    /\ predict_proba black_box_model X wa = (Ret p, wb)
    /\ Ridge_fit X p weights wc = (Ret m, u)
    /\ e = BLIMEY.set_surrogate_model
             (BLIMEY.set_sampled_data self1
                (<["p(y)" := Float2D p]> (BLIMEY.sampled_data self1))) m.
Proof using Type.
  unfold BLIMEY._train_surrogate. intros Hrun.
  apply run_bind_inv in Hrun. destruct Hrun as (self1 & wa & Hreb & Hrun).
  assert (configuration self1 = configuration self
          /\ (BLIMEY.rebalance_sampled_data self = false -> self1 = self))
    as [Hconf Hsame].
  { destruct (BLIMEY.rebalance_sampled_data self).
    - apply run_bind_inv in Hreb. destruct Hreb as (d & wd & _ & Hret).
      injection Hret as <- _. split; [reflexivity | discriminate].
    - injection Hreb as <- _. split; [reflexivity | reflexivity]. }
  apply run_bind_inv in Hrun. destruct Hrun as (X & wa' & HX & Hrun).
  apply run_get_float2d_inv in HX. destruct HX as [HX ->].
  apply run_bind_inv in Hrun. destruct Hrun as (p & wb & Hp & Hrun).
  cbv zeta in Hrun.
  apply run_bind_inv in Hrun. destruct Hrun as (ws1 & w1 & _ & Hrun).
  apply run_bind_inv in Hrun. destruct Hrun as (ws2 & w2 & _ & Hrun).
  apply run_bind_inv in Hrun. destruct Hrun as (ws3 & w3 & _ & Hrun).
  apply run_bind_inv in Hrun. destruct Hrun as (X' & w4 & HX' & Hrun).
  apply run_get_float2d_inv in HX'. destruct HX' as [HX' ->].
  apply run_bind_inv in Hrun. destruct Hrun as (p' & w5 & Hp' & Hrun).
  apply run_get_float2d_inv in Hp'. destruct Hp' as [Hp' ->].
  apply run_bind_inv in Hrun. destruct Hrun as (m & w6 & Hfit & Hrun).
  simpl in HX', Hp'. rewrite lookup_insert_eq in Hp'.
  rewrite lookup_insert_ne, HX in HX' by discriminate.
  injection HX' as <-. injection Hp' as <-. injection Hrun as <- <-.
  exists self1, X, p, ws3, m, wa, wb, w3. repeat split; assumption.
Qed.

(** X10.  Every explainer the constructor returns is a trained one.  It
    carries the options it was created with and a surrogate, so
    [self.surrogate_model] can be read; its neighbourhood holds features
    and probabilities; the probabilities are what the black box answered
    on those features and the surrogate is a ridge fit of them on those
    features.  Without rebalancing the features and labels are the ones
    sampled. *)
Theorem constructed_explainer_is_trained
    (black_box_model : B) (query_point : list Q)
    (data : option (gmap string ndarray)) (sampling_cov : option matrix)
    (samples : Z)
    (class_weight_data class_weight_sampled weight_locally
       rebalance_sampled_data : bool)
    (e : BLIMEY.bLIMEy) (w u : world) :
  BLIMEY.__init__ multivariate_normal np_cov Ridge_fit balance_oversample
    weights_based_on_distance weight_based_on_class_imbalance
    black_box_model query_point data sampling_cov samples
    class_weight_data class_weight_sampled weight_locally
    rebalance_sampled_data w = (Ret e, u) ->
  configuration e
  = (query_point, data, sampling_cov, samples, class_weight_data,
     class_weight_sampled, weight_locally, rebalance_sampled_data)
  /\ exists m X p,
       BLIMEY.surrogate_model e = Some m
       /\ (forall w0, BLIMEY.get_surrogate_model e w0 = (Ret m, w0))
       /\ BLIMEY.sampled_data e !! "X" = Some (Float2D X)
       /\ BLIMEY.sampled_data e !! "p(y)" = Some (Float2D p)
       /\ (exists wa wb, predict_proba black_box_model X wa = (Ret p, wb))
       /\ (exists weights wc, Ridge_fit X p weights wc = (Ret m, u))
       /\ (rebalance_sampled_data = false ->
           exists cov y w1 w2 w3,
             multivariate_normal query_point cov samples w1 = (Ret X, w2)
             /\ predict black_box_model X w2 = (Ret y, w3)
             /\ BLIMEY.sampled_data e !! "y" = Some (Int1D y)).
Proof using Type.
  unfold BLIMEY.__init__. intros Hrun.
  apply run_bind_inv in Hrun. destruct Hrun as (self0 & w0 & Hs & Ht).
  apply run_sample_locally_inv in Hs.
  destruct Hs as (cov & X0 & y & w1 & w2 & _ & Hmvn & Hy & ->).
  apply run_train_surrogate_inv in Ht.
  destruct Ht as (self1 & X & p & ws & m & wa & wb & wc
                  & Hconf & Hsame & HX & Hp & Hfit & ->).
  split; [exact Hconf|].
  exists m, X, p. split; [reflexivity|]. split; [reflexivity|].
  split; [simpl; now rewrite lookup_insert_ne by discriminate|].
  split; [simpl; apply lookup_insert_eq|].
  split; [eauto|]. split; [eauto|].
  intros Hreb. simpl in Hsame. specialize (Hsame Hreb). subst self1.
  simpl in HX. unfold neighbourhood in HX.
  rewrite lookup_insert_ne, lookup_insert_eq in HX by discriminate.
  injection HX as <-.
  exists cov, y, w1, w2, w0. split; [exact Hmvn|]. split; [exact Hy|].
  simpl. rewrite lookup_insert_ne by discriminate. apply lookup_insert_eq.
Qed.

End construction_further.

(** ** Errors of [predict] *)

Lemma run_forM_raise {A B} (f : A -> M B) (l : list A) (e : exn) (w : world) :
  (forall x, x ∈ l -> (exists y, f x w = (Ret y, w)) \/ f x w = (Raise e, w)) ->
  Exists (fun x => f x w = (Raise e, w)) l ->
  forM f l w = (Raise e, w).
Proof.
  intros Hall Hex. induction Hex as [x l Hx | x l _ IH].
  - simpl. now apply run_bind_raise.
  - simpl. destruct (Hall x ltac:(left)) as [[y Hy] | Hr].
    + rewrite (run_bind_ret _ _ w w y Hy). apply run_bind_raise.
      apply IH. intros z Hz. apply Hall. now right.
    + now apply run_bind_raise.
Qed.

Lemma inner_cases (x c : list Q) (w : world) :
  inner x c w = (Ret (Qsum (zip_with Qmult x c)), w)
  \/ inner x c w = (Raise ValueError, w).
Proof. unfold inner. destruct (decide _); [left | right]; reflexivity. Qed.

Lemma run_regress_row (m : Ridge) (x : list Q) (w : world) :
  (exists p, (scores ← forM (inner x) (coef_ m);
              broadcast2 Qplus scores (intercept_ m)) w = (Ret p, w))
  \/ (scores ← forM (inner x) (coef_ m);
      broadcast2 Qplus scores (intercept_ m)) w = (Raise ValueError, w).
Proof.
  assert (forall l, (exists s, forM (inner x) l w = (Ret s, w))
                    \/ forM (inner x) l w = (Raise ValueError, w)) as Hs.
  { induction l as [|c l IH]; [left; eexists; reflexivity|].
    simpl. destruct (inner_cases x c w) as [Hi | Hi].
    - rewrite (run_bind_ret _ _ w w _ Hi).
      destruct IH as [[s Hs] | Hr].
      + left. rewrite (run_bind_ret _ _ w w s Hs). eexists. reflexivity.
      + right. now apply run_bind_raise.
    - right. now apply run_bind_raise. }
  destruct (Hs (coef_ m)) as [[s Hsc] | Hr].
  - rewrite (run_bind_ret _ _ w w s Hsc). unfold broadcast2.
    destruct (decide _); [left; eexists; reflexivity|].
    destruct s as [|? [|? ?]], (intercept_ m) as [|? [|? ?]];
      first [left; eexists; reflexivity | right; reflexivity].
  - right. now apply run_bind_raise.
Qed.

(** X11.  [predict] and [predict_proba] reject, with [ValueError], an
    input without rows and an input with a row whose number of entries is
    not the surrogate's number of features. *)
Theorem predict_rejects_misshapen_input (self : BLIMEY.bLIMEy) (m : Ridge)
    (X : matrix) (d : nat) (w : world) :
  BLIMEY.surrogate_model self = Some m ->
  coef_ m <> [] ->
  Forall (fun c => length c = d) (coef_ m) ->
  X = [] \/ Exists (fun x => length x <> d) X ->
  BLIMEY.predict_proba self X w = (Raise ValueError, w)
  /\ BLIMEY.predict self X w = (Raise ValueError, w).
Proof.
  intros Hm Hne Hc HX.
  assert (Ridge_predict m X w = (Raise ValueError, w)) as Hrun.
  { destruct HX as [-> | Hex]; [reflexivity|].
    unfold Ridge_predict. destruct X as [|x0 X0]; [inversion Hex|].
    set (X := x0 :: X0) in *. clearbody X.
    apply run_forM_raise.
    - intros x _. apply run_regress_row.
    - eapply Exists_impl; [exact Hex|]. intros x Hx. simpl.
      apply run_bind_raise.
      destruct (coef_ m) as [|c l]; [congruence|].
      simpl. apply run_bind_raise. unfold inner.
      inversion Hc; subst. now rewrite decide_False by congruence. }
  unfold BLIMEY.predict_proba, BLIMEY.predict, BLIMEY.get_surrogate_model.
  rewrite Hm. split.
  - now rewrite (run_bind_ret _ _ w w m) by reflexivity.
  - rewrite (run_bind_ret _ _ w w m) by reflexivity.
    now apply run_bind_raise.
Qed.

(** X12.  A surrogate with a single target, as a black box with one
    probability column produces, explains and regresses, but cannot
    classify: [get_explanation] returns its only coefficient row,
    [predict_proba] returns one column, and [predict], which reads column
    1, fails with [IndexError]. *)
Theorem predict_needs_a_class_1_column (self : BLIMEY.bLIMEy) (m : Ridge)
    (c : list Q) (b : Q) (X : matrix) (w : world) :
  BLIMEY.surrogate_model self = Some m ->
  coef_ m = [c] ->
  intercept_ m = [b] ->
  X <> [] ->
  Forall (fun x => length x = length c) X ->
  BLIMEY.get_explanation self w = (Ret c, w)
  /\ BLIMEY.predict_proba self X w
     = (Ret (map (fun x => [(Qsum (zip_with Qmult x c) + b)%Q]) X), w)
  /\ BLIMEY.predict self X w = (Raise IndexError, w).
Proof.
  intros Hm Hc Hb Hne HX.
  assert (Ridge_predict m X w
          = (Ret (map (fun x => [(Qsum (zip_with Qmult x c) + b)%Q]) X), w))
    as Hrun.
  { rewrite (run_Ridge_predict m X (length c) w Hne HX).
    - unfold linear_output. now rewrite Hc, Hb.
    - rewrite Hc. now constructor.
    - now rewrite Hc, Hb. }
  unfold BLIMEY.get_explanation, BLIMEY.predict_proba, BLIMEY.predict,
    BLIMEY.get_surrogate_model.
  rewrite Hm. split; [|split].
  - rewrite (run_bind_ret _ _ w w m) by reflexivity. now rewrite Hc.
  - now rewrite (run_bind_ret _ _ w w m) by reflexivity.
  - rewrite (run_bind_ret _ _ w w m) by reflexivity.
    rewrite (run_bind_ret _ _ w w _ Hrun).
    apply run_bind_raise. destruct X as [|x0 X0]; [congruence|].
    simpl. now apply run_bind_raise.
Qed.

(** ** Class weights of the sampled points *)

Lemma Qfloor_unit (x : Q) : (0 <= x < 1)%Q -> Qfloor x = 0.
Proof.
  intros [Hlo Hhi].
  pose proof (Qfloor_le x) as Hle. pose proof (Qlt_floor x) as Hlt.
  rewrite inject_Z_plus in Hlt. change (inject_Z 1) with 1%Q in Hlt.
  assert (Qfloor x < 1) as H1.
  { rewrite Zlt_Qlt. change (inject_Z 1) with 1%Q. lra. }
  assert (-1 < Qfloor x) as H2.
  { rewrite Zlt_Qlt. change (inject_Z (-1)) with (-1 # 1)%Q. lra. }
  lia.
Qed.

Lemma np_round_low (x : Q) : (0 <= x <= 1 # 2)%Q -> (np_round x == 0)%Q.
Proof.
  intros [Hlo Hhi]. unfold np_round.
  rewrite (Qfloor_unit x) by lra.
  change (inject_Z 0) with 0%Q.
  destruct (x - 0 ?= 1 # 2)%Q eqn:Hc; try reflexivity.
  apply Qgt_alt in Hc. lra.
Qed.

Lemma np_round_high (x : Q) : (1 # 2 < x <= 1)%Q -> (np_round x == 1)%Q.
Proof.
  intros [Hlo Hhi]. unfold np_round.
  destruct (Qlt_le_dec x 1) as [Hlt | Hge].
  - rewrite (Qfloor_unit x) by lra.
    change (inject_Z 0) with 0%Q.
  destruct (x - 0 ?= 1 # 2)%Q eqn:Hc; try reflexivity.
    + apply Qeq_alt in Hc. lra.
    + apply Qlt_alt in Hc. lra.
  - assert (x == 1)%Q as Hx by lra.
    assert (Qfloor x = 1) as -> by (now rewrite (Qfloor_comp x 1 Hx)).
    change (inject_Z 1) with 1%Q.
    destruct (x - 1 ?= 1 # 2)%Q eqn:Hc; try reflexivity.
    + apply Qeq_alt in Hc. lra.
    + apply Qgt_alt in Hc. lra.
Qed.

(** X13.  With class weighting on, a sampled point is weighted by the
    class its probability row favours: for a row [p0, p1] of two
    probabilities summing to 1 the sample weight is multiplied by the
    weight of class 1 when [p1 > 1/2], by the weight of class 0 when
    [p1 < 1/2], and by zero when both are exactly 1/2, since [np.round]
    takes 1/2 to 0. *)
Theorem class_weight_of_a_sampled_point (self : BLIMEY.bLIMEy) (P : matrix)
    (c0 c1 : Q) (weights : list Q) (w : world) :
  BLIMEY.sampled_data self !! "p(y)" = Some (Float2D P) ->
  Forall (fun row => exists p0 p1,
            row = [p0; p1] /\ (0 <= p0)%Q /\ (0 <= p1)%Q /\ (p0 + p1 == 1)%Q) P ->
  length weights = length P ->
  exists weights',
    BLIMEY.apply_class_weights self [c0; c1] weights w = (Ret weights', w)
    /\ length weights' = length P
    /\ forall i x p0 p1 x',
         weights !! i = Some x -> P !! i = Some [p0; p1] ->
         weights' !! i = Some x' ->
         ((1 # 2 < p1)%Q -> (x' == x * c1)%Q)
         /\ ((p1 < 1 # 2)%Q -> (x' == x * c0)%Q)
         /\ ((p1 == 1 # 2)%Q -> (x' == 0)%Q).
Proof.
  intros HP Hrows Hlen.
  set (factor := fun row : list Q =>
                   Qsum (zip_with Qmult (map np_round row) [c0; c1])).
  assert (np_dot (map (map np_round) P) [c0; c1] w = (Ret (map factor P), w))
    as Hdot.
  { unfold np_dot. rewrite <- (map_map (map np_round) (fun r => Qsum (zip_with Qmult r [c0; c1]))).
    apply run_forM_pure. intros r Hr.
    apply list_elem_of_In, in_map_iff in Hr. destruct Hr as (row & <- & Hrow).
    rewrite Forall_forall in Hrows. apply list_elem_of_In in Hrow.
    destruct (Hrows row Hrow) as (p0 & p1 & -> & _).
    reflexivity. }
  exists (zip_with Qmult weights (map factor P)). split; [|split].
  - unfold BLIMEY.apply_class_weights.
    rewrite (run_bind_ret _ _ w w P) by (now apply run_get_float2d).
    rewrite (run_bind_ret _ _ w w _ Hdot).
    unfold np_imul. apply run_broadcast2_inplace.
    simpl. now rewrite length_map.
  - rewrite length_zip_with, length_map. lia.
  - intros i x p0 p1 x' Hx Hrow Hx'.
    rewrite lookup_zip_with, Hx, list_lookup_fmap, Hrow in Hx'. simpl in Hx'.
    injection Hx' as <-.
    rewrite Forall_forall in Hrows.
    destruct (Hrows [p0; p1]) as (q0 & q1 & Heq & H0 & H1 & Hsum).
    { apply list_elem_of_lookup. eauto. }
    injection Heq as <- <-.
    assert (forall r0 r1, (np_round p0 == r0)%Q -> (np_round p1 == r1)%Q ->
              (factor [p0; p1] == r0 * c0 + r1 * c1)%Q) as Hf.
    { intros r0 r1 Hr0 Hr1. unfold factor, Qsum. simpl. rewrite Hr0, Hr1. ring. }
    split; [|split]; intros Hc.
    + rewrite (Hf 0%Q 1%Q); [ring | apply np_round_low; lra | apply np_round_high; lra].
    + rewrite (Hf 1%Q 0%Q); [ring | apply np_round_high; lra | apply np_round_low; lra].
    + rewrite (Hf 0%Q 0%Q); [ring | apply np_round_low; lra | apply np_round_low; lra].
Qed.

(** ** The explanation and the predicted class *)

Lemma inner_negated (x c0 c1 : list Q) :
  Forall2 (fun a b => (b == - a)%Q) c0 c1 ->
  (Qsum (zip_with Qmult x c1) == - Qsum (zip_with Qmult x c0))%Q.
Proof.
  intros HF. revert x.
  induction HF as [|a b c0 c1 Hab _ IH]; intros [|x0 x];
    try (unfold Qsum; simpl; ring).
  simpl. rewrite !Qsum_cons, IH, Hab. ring.
Qed.

(** X14.  For a surrogate whose class-1 coefficients are the negated
    class-0 ones and whose intercepts sum to 1, the two outputs of every
    row sum to 1 and the vector [get_explanation] returns counts against
    class 1: a row is labelled 1 exactly when its features times the
    explanation plus the first intercept is at most 1/2. *)
Theorem explanation_counts_against_class_1 (self : BLIMEY.bLIMEy) (m : Ridge)
    (c0 c1 : list Q) (b0 b1 : Q) (X : matrix) (w : world) :
  BLIMEY.surrogate_model self = Some m ->
  coef_ m = [c0; c1] ->
  intercept_ m = [b0; b1] ->
  Forall2 (fun a b => (b == - a)%Q) c0 c1 ->
  (b0 + b1 == 1)%Q ->
  X <> [] ->
  Forall (fun x => length x = length c0) X ->
  exists labels,
    BLIMEY.get_explanation self w = (Ret c0, w)
    /\ BLIMEY.predict self X w = (Ret labels, w)
    /\ BLIMEY.predict_proba self X w = (Ret (linear_output m X), w)
    /\ Forall (fun row => exists p0 p1, row = [p0; p1] /\ (p0 + p1 == 1)%Q)
              (linear_output m X)
    /\ forall i x, X !! i = Some x ->
         ((Qsum (zip_with Qmult x c0) + b0 <= 1 # 2)%Q -> labels !! i = Some 1)
         /\ ((1 # 2 < Qsum (zip_with Qmult x c0) + b0)%Q -> labels !! i = Some 0).
Proof.
  intros Hm Hc Hb Hneg Hsum Hne HX.
  assert (Ridge_predict m X w = (Ret (linear_output m X), w)) as Hrun.
  { apply (run_Ridge_predict m X (length c0) w Hne HX).
    - rewrite Hc. repeat constructor. symmetry. exact (Forall2_length _ _ _ Hneg).
    - now rewrite Hc, Hb. }
  assert (forall x, zip_with Qplus
                      (map (fun c => Qsum (zip_with Qmult x c)) (coef_ m))
                      (intercept_ m)
                    = [(Qsum (zip_with Qmult x c0) + b0)%Q;
                       (Qsum (zip_with Qmult x c1) + b1)%Q]) as Hrow
    by (intros x; now rewrite Hc, Hb).
  assert (Forall (fun row => (1 < length row)%nat) (linear_output m X)) as HP.
  { unfold linear_output. apply Forall_forall. intros row Hr.
    apply list_elem_of_In, in_map_iff in Hr. destruct Hr as (x & <- & _).
    rewrite Hrow. simpl. lia. }
  destruct (predict_thresholds_regression_output self m X _ w w Hm Hrun HP)
    as (labels & Hpred & _ & _ & Hthr).
  exists labels. split; [|split; [|split; [|split]]].
  - unfold BLIMEY.get_explanation, BLIMEY.get_surrogate_model. rewrite Hm.
    rewrite (run_bind_ret _ _ w w m) by reflexivity. now rewrite Hc.
  - exact Hpred.
  - unfold BLIMEY.predict_proba, BLIMEY.get_surrogate_model. rewrite Hm.
    now rewrite (run_bind_ret _ _ w w m) by reflexivity.
  - unfold linear_output. apply Forall_forall. intros row Hr.
    apply list_elem_of_In, in_map_iff in Hr. destruct Hr as (x & <- & _).
    rewrite Hrow. eexists _, _. split; [reflexivity|].
    rewrite (inner_negated x c0 c1 Hneg). lra.
  - intros i x Hx.
    assert (linear_output m X !! i
            = Some [(Qsum (zip_with Qmult x c0) + b0)%Q;
                    (Qsum (zip_with Qmult x c1) + b1)%Q]) as Hi
      by (unfold linear_output; now rewrite list_lookup_fmap, Hx, <- Hrow).
    destruct (Hthr i _ _ Hi eq_refl) as (_ & Habove & Hbelow).
    pose proof (inner_negated x c0 c1 Hneg) as Hn.
    split; intros Hs; [apply Habove | apply Hbelow]; lra.
Qed.

(** * Properties of the toy datasets *)

Lemma run_GaussClass_init_inv (x y : Q) (var : datasets.number)
    (cov : option datasets.covariance) (g : datasets.GaussClass) (w w' : world) :
  datasets.__init__ x y var cov w = (Ret g, w') ->
  w' = w
  /\ forall x' y' w'',
       datasets.__init__ x' y' var cov w''
       = (Ret {| datasets.mean := [x'; y']; datasets.cov := datasets.cov g;
                 datasets.data := None |}, w'').
Proof.
  unfold datasets.__init__. intros H.
  destruct cov as [[rows | m] |]; [destruct var as [z | v] | |];
    cbv [mbind M_bind bind mret M_ret ret raise] in H |- *;
    inversion H; subst; split; auto.
Qed.

Lemma forallb_length_eqb (n : nat) (m : matrix) :
  Forall (fun row => length row = n) m ->
  forallb (fun row => Nat.eqb (length row) n) m = true.
Proof.
  intros H. apply forallb_forall. intros row Hin.
  apply Nat.eqb_eq. rewrite List.Forall_forall in H. auto.
Qed.

Lemma np_append_labels (v : list Z) (n : nat) (label : Z) :
  (0 < n)%nat ->
  datasets.np_append (IVec v) (replicate n label) = IVec (v ++ replicate n label).
Proof. destruct n; [lia | reflexivity]. Qed.

Lemma filter_replicate_same (c : Z) (n : nat) :
  filter (fun l => l = c) (replicate n c) = replicate n c.
Proof.
  induction n as [|n IH]; [reflexivity|]. cbn [replicate].
  rewrite filter_cons_True by reflexivity. now rewrite IH.
Qed.

Lemma filter_replicate_other (c d : Z) (n : nat) :
  d <> c -> filter (fun l => l = c) (replicate n d) = [].
Proof.
  intros Hd. induction n as [|n IH]; [reflexivity|]. cbn [replicate].
  now rewrite filter_cons_False.
Qed.

Section get_gaussian.

Variable RANDOM_SEED : Z.
Variable default_rng_multivariate_normal :
  Z -> list Q -> matrix -> Z -> M matrix.
Variable shuffle : Z -> matrix -> vec -> M (matrix * vec).

Local Abbreviation get_gaussian :=
  (datasets.get_gaussian RANDOM_SEED default_rng_multivariate_normal shuffle).
Local Abbreviation class_seed := (datasets.class_seed RANDOM_SEED).

Lemma run_get_gaussian_loop (samples : Z) (var : datasets.number)
    (cov : option datasets.covariance) (test : bool)
    (g : datasets.GaussClass) (D0 D1 : matrix) (w w1 w2 : world) :
  let n := Z.quot samples 2 in
  0 < n ->
  datasets.__init__ 0 0 var cov w = (Ret g, w) ->
  default_rng_multivariate_normal (class_seed 0 test) [0; 0]%Q (datasets.cov g) n w
  = (Ret D0, w1) ->
  default_rng_multivariate_normal (class_seed 1 test) [1; 1]%Q (datasets.cov g) n w1
  = (Ret D1, w2) ->
  Forall (fun row => length row = 2%nat) (D0 ++ D1) ->
  get_gaussian samples var cov test w
  = (Xy ← shuffle RANDOM_SEED (D0 ++ D1)
            (IVec (replicate (Z.to_nat n) 0 ++ replicate (Z.to_nat n) 1));
     ret (<["y" := datasets.Vector Xy.2]> (<["X" := datasets.Matrix Xy.1]> ∅))) w2.
Proof.
  intros n Hn Hinit H0 H1 Hshape.
  apply run_GaussClass_init_inv in Hinit as [_ Hinit].
  apply Forall_app in Hshape as [Hs0 Hs1].
  unfold datasets.get_gaussian.
  cbn [zip zip_with datasets.foldM length Z.of_nat Pos.of_succ_nat Pos.succ].
  fold n.
  change (Z.of_nat 2) with 2. fold n.
  cbv [mbind M_bind bind mret M_ret ret datasets.index datasets.gen_data
       datasets.get_data datasets.np_vstack].
  cbn [lookup list_lookup].
  rewrite Hinit. cbn [datasets.mean datasets.cov datasets.data].
  rewrite H0. cbn [datasets.mean datasets.cov datasets.data].
  rewrite (forallb_length_eqb _ _ Hs0).
  rewrite Hinit. cbn [datasets.mean datasets.cov datasets.data].
  rewrite H1. cbn [datasets.mean datasets.cov datasets.data].
  rewrite (forallb_length_eqb _ _ Hs1).
  rewrite !np_append_labels by lia.
  reflexivity.
Qed.

(** X15.  When [int(samples/2)] is positive and the sampler returns that
    many two-column rows for each class, [get_gaussian] returns
    [2 * int(samples/2)] rows (one fewer than [samples] when that is odd),
    half of them labelled 0 and half labelled 1, in int64; after the
    shuffle, which permutes features and labels alike, every row labelled
    0 is one drawn around (0, 0) and every row labelled 1 one drawn around
    (1, 1). *)
Theorem get_gaussian_is_balanced (samples : Z) (var : datasets.number)
    (cov : option datasets.covariance) (test : bool)
    (g : datasets.GaussClass) (D0 D1 X : matrix) (y : list Z)
    (w w1 w2 w3 : world) :
  let n := Z.quot samples 2 in
  0 < n ->
  datasets.__init__ 0 0 var cov w = (Ret g, w) ->
  default_rng_multivariate_normal (class_seed 0 test) [0; 0]%Q (datasets.cov g) n w
  = (Ret D0, w1) ->
  default_rng_multivariate_normal (class_seed 1 test) [1; 1]%Q (datasets.cov g) n w1
  = (Ret D1, w2) ->
  Forall (fun row => length row = 2%nat) (D0 ++ D1) ->
  length D0 = Z.to_nat n ->
  length D1 = Z.to_nat n ->
  shuffle RANDOM_SEED (D0 ++ D1)
    (IVec (replicate (Z.to_nat n) 0 ++ replicate (Z.to_nat n) 1)) w2
  = (Ret (X, IVec y), w3) ->
  length X = length y ->
  zip X y ≡ₚ zip (D0 ++ D1) (replicate (Z.to_nat n) 0 ++ replicate (Z.to_nat n) 1) ->
  get_gaussian samples var cov test w
  = (Ret (<["y" := datasets.Vector (IVec y)]> (<["X" := datasets.Matrix X]> ∅)), w3)
  /\ Z.of_nat (length X) = 2 * n
  /\ Z.of_nat (length (filter (fun l => l = 0) y)) = n
  /\ Z.of_nat (length (filter (fun l => l = 1) y)) = n
  /\ forall i x l, X !! i = Some x -> y !! i = Some l ->
       (l = 0 /\ x ∈ D0) \/ (l = 1 /\ x ∈ D1).
Proof.
  intros n Hn Hinit H0 H1 Hshape Hl0 Hl1 Hsh Hlen Hperm.
  set (N := Z.to_nat n) in *.
  assert (HN : Z.of_nat N = n) by (subst N; lia).
  rewrite zip_with_app in Hperm by (rewrite length_replicate; exact Hl0).
  assert (Hy : y ≡ₚ replicate N 0 ++ replicate N 1).
  { rewrite <- (snd_zip X y) by lia.
    rewrite Hperm, fmap_app, !snd_zip by (rewrite length_replicate; lia).
    reflexivity. }
  split; [|split; [|split; [|split]]].
  - rewrite (run_get_gaussian_loop samples var cov test g D0 D1 w w1 w2
               Hn Hinit H0 H1 Hshape).
    fold n. fold N. rewrite (run_bind_ret _ _ w2 w3 (X, IVec y) Hsh). reflexivity.
  - apply Permutation_length in Hperm.
    rewrite length_app, !length_zip_with, !length_replicate in Hperm. lia.
  - rewrite Hy, filter_app, length_app.
    rewrite filter_replicate_same, filter_replicate_other by lia.
    rewrite length_replicate. cbn [length]. lia.
  - rewrite Hy, filter_app, length_app.
    rewrite filter_replicate_same, filter_replicate_other by lia.
    rewrite length_replicate. cbn [length]. lia.
  - intros i x l Hx Hl.
    assert (Hin : (x, l) ∈ zip X y).
    { apply list_elem_of_lookup. exists i. apply lookup_zip_with_Some. eauto. }
    rewrite Hperm in Hin. apply elem_of_app in Hin as [Hin | Hin].
    + left. split.
      * apply elem_of_zip_r in Hin. now apply elem_of_replicate in Hin.
      * now apply elem_of_zip_l in Hin.
    + right. split.
      * apply elem_of_zip_r in Hin. now apply elem_of_replicate in Hin.
      * now apply elem_of_zip_l in Hin.
Qed.

(** X16.  For a non-negative [RANDOM_SEED] the four generator seeds, of
    the two classes of the training set and of the test set, are pairwise
    different. *)
Theorem class_seeds_are_distinct :
  0 <= RANDOM_SEED ->
  NoDup [class_seed 0 false; class_seed 1 false;
         class_seed 0 true; class_seed 1 true].
Proof.
  intros Hs. unfold datasets.class_seed.
  repeat (apply NoDup_cons; split;
          [rewrite ?elem_of_cons, elem_of_nil; lia|]).
  apply NoDup_nil_2.
Qed.

Lemma length_mjoin_replicate (k : nat) (rows : matrix) :
  length (mjoin (replicate k rows)) = (k * length rows)%nat.
Proof.
  induction k as [|k IH]; [reflexivity|].
  change (mjoin (replicate (S k) rows)) with (rows ++ mjoin (replicate k rows)).
  rewrite length_app, IH. lia.
Qed.

(** X17.  With a two-row covariance given as a nested list, as the
    default is, [var] must be the [int] 1.  A [float] makes
    [get_gaussian] fail with [TypeError] before anything is sampled; any
    other [int] repeats the list instead of scaling it, and a sampler
    that rejects a covariance without as many rows as the mean has
    entries makes [get_gaussian] fail with [ValueError]. *)
Theorem get_gaussian_rejects_var_with_list_covariance
    (samples : Z) (rows : matrix) (test : bool) (w : world) :
  (forall seed mean C size w0,
     length C <> length mean ->
     default_rng_multivariate_normal seed mean C size w0 = (Raise ValueError, w0)) ->
  length rows = 2%nat ->
  (forall v,
     get_gaussian samples (datasets.Float v)
       (Some (datasets.NestedList rows)) test w
     = (Raise TypeError, w))
  /\ (forall z, z <> 1 ->
        get_gaussian samples (datasets.Int z)
          (Some (datasets.NestedList rows)) test w
        = (Raise ValueError, w)).
Proof.
  intros Hsampler Hrows. split; [reflexivity|]. intros z Hz.
  unfold datasets.get_gaussian.
  cbn [zip zip_with datasets.foldM].
  cbv [mbind M_bind bind mret M_ret ret datasets.index datasets.gen_data
       datasets.__init__].
  cbn [lookup list_lookup datasets.mean datasets.cov].
  rewrite Hsampler; [reflexivity|].
  rewrite length_mjoin_replicate, Hrows. cbn [length]. lia.
Qed.

(** X18.  For [samples] between -1 and 1 no point is asked of the
    sampler, and the label array [get_gaussian] returns is an empty
    float64 array, not an int64 one. *)
Theorem get_gaussian_without_samples (samples : Z) (var : datasets.number)
    (cov : option datasets.covariance) (test : bool)
    (g : datasets.GaussClass) (w w1 w2 w3 : world) :
  -2 < samples < 2 ->
  datasets.__init__ 0 0 var cov w = (Ret g, w) ->
  default_rng_multivariate_normal (class_seed 0 test) [0; 0]%Q (datasets.cov g) 0 w
  = (Ret [], w1) ->
  default_rng_multivariate_normal (class_seed 1 test) [1; 1]%Q (datasets.cov g) 0 w1
  = (Ret [], w2) ->
  shuffle RANDOM_SEED [] (FVec []) w2 = (Ret ([], FVec []), w3) ->
  get_gaussian samples var cov test w
  = (Ret (<["y" := datasets.Vector (FVec [])]> (<["X" := datasets.Matrix []]> ∅)), w3).
Proof.
  intros Hs Hinit H0 H1 Hsh.
  apply run_GaussClass_init_inv in Hinit as [_ Hinit].
  assert (Hq : Z.quot samples 2 = 0) by (apply Z.quot_small_iff; lia).
  unfold datasets.get_gaussian.
  cbn [zip zip_with datasets.foldM length Z.of_nat Pos.of_succ_nat Pos.succ].
  change (Z.of_nat 2) with 2. rewrite Hq.
  cbv [mbind M_bind bind mret M_ret ret datasets.index datasets.gen_data
       datasets.get_data datasets.np_vstack].
  cbn [lookup list_lookup].
  rewrite Hinit. cbn [datasets.mean datasets.cov datasets.data].
  rewrite H0. cbn [datasets.mean datasets.cov datasets.data forallb app].
  rewrite Hinit. cbn [datasets.mean datasets.cov datasets.data].
  rewrite H1. cbn [datasets.mean datasets.cov datasets.data forallb app].
  change (datasets.np_append
            (datasets.np_append (IVec []) (replicate (Z.to_nat 0) 0))
            (replicate (Z.to_nat 0) 1)) with (FVec []).
  cbn [fst snd]. rewrite Hsh. reflexivity.
Qed.

End get_gaussian.

(** ** The further properties on concrete inputs *)

Lemma metric_without_features_witness :
  metric weights_based_on_distance weight_based_on_class_imbalance
    DistanceAndClass explainer sum_above_one without_features [1%Q] w0
  = (Raise KeyError, w0).
Proof.
  apply (metric_without_features weights_based_on_distance
           weight_based_on_class_imbalance explainer sum_above_one
           without_features DistanceAndClass [1%Q] w0).
  reflexivity.
Defined.

(** The metric registered as ['fidelity (local)'] scores the labelled
    example with an [np.float64]. *)
Lemma registered_metric_returns_np_float64_witness :
  exists s,
    faithfulness.local_fidelity weights_based_on_distance
      explainer sum_above_one labelled [1%Q] w0 = (Ret s, w0)
    /\ is_np_float64 s = true.
Proof.
  eexists. split; [vm_compute; reflexivity|].
  apply (registered_metric_returns_np_float64 weights_based_on_distance
           weight_based_on_class_imbalance explainer sum_above_one labelled
           "fidelity (local)"
           (faithfulness.local_fidelity weights_based_on_distance)
           [1%Q] _ w0 w0).
  - reflexivity.
  - vm_compute. reflexivity.
Defined.

(** The two models agree on three of the four rows of the example. *)
Lemma fidelity_is_fraction_of_agreeing_rows_witness :
  exists q,
    faithfulness.fidelity explainer sum_above_one labelled w0
    = (Ret (NpFloat64 (Finite q)), w0)
    /\ (q == inject_Z (Z.of_nat (agreeing_rows [0; 0; 1; 1]%Z [0; 1; 1; 1]%Z))
             / inject_Z (Z.of_nat (length features)))%Q.
Proof.
  apply (fidelity_is_fraction_of_agreeing_rows explainer sum_above_one
           labelled features [0; 0; 1; 1] [0; 1; 1; 1] w0 w0 w0).
  - vm_compute. reflexivity.
  - vm_compute. reflexivity.
  - vm_compute. reflexivity.
  - reflexivity.
  - reflexivity.
  - discriminate.
Defined.

Lemma metric_at_full_and_no_agreement_witness :
  exists q,
    metric weights_based_on_distance weight_based_on_class_imbalance
      ByDistance explainer sum_above_one labelled [1%Q] w0
    = (Ret (NpFloat64 (Finite q)), w0)
    /\ ([0; 0; 1; 1] = [0; 1; 1; 1] -> (q == 1)%Q)
    /\ (Forall2 (fun a b : Z => a <> b) [0; 0; 1; 1] [0; 1; 1; 1] -> (q == 0)%Q).
Proof.
  apply (metric_at_full_and_no_agreement weights_based_on_distance
           weight_based_on_class_imbalance explainer sum_above_one labelled
           features [0; 0; 1; 1] [0; 1; 1; 1] w0 w0 w0)
    with (weights := FVec [1 # 2; 1; 1 # 2; 1 # 5]%Q).
  - vm_compute. reflexivity.
  - vm_compute. reflexivity.
  - vm_compute. reflexivity.
  - reflexivity.
  - reflexivity.
  - discriminate.
  - exists [1 # 2; 1; 1 # 2; 1 # 5]%Q. split; vm_compute; reflexivity.
  - reflexivity.
  - vm_compute. discriminate.
Defined.

Lemma local_and_bal_fidelity_without_labels_witness :
  exists a b,
    faithfulness.local_fidelity weights_based_on_distance
      explainer sum_above_one unlabelled [1%Q] w0
    = (Ret (NpFloat64 (Finite a)), w0)
    /\ faithfulness.local_and_bal_fidelity weights_based_on_distance
         weight_based_on_class_imbalance explainer sum_above_one unlabelled
         [1%Q] w0
       = (Ret (NpFloat64 (Finite b)), no_labels_warned w0)
    /\ (a == b)%Q.
Proof.
  apply (local_and_bal_fidelity_without_labels weights_based_on_distance
           weight_based_on_class_imbalance explainer sum_above_one unlabelled
           features [0; 0; 1; 1] [0; 1; 1; 1] w0 w0 w0)
    with (weights := [1 # 2; 1; 1 # 2; 1 # 5]%Q).
  - vm_compute. reflexivity.
  - vm_compute. reflexivity.
  - vm_compute. reflexivity.
  - reflexivity.
  - reflexivity.
  - discriminate.
  - vm_compute. reflexivity.
  - vm_compute. reflexivity.
  - reflexivity.
  - vm_compute. discriminate.
Defined.

(** The doubled kernel scores the example as the kernel itself does. *)
Lemma local_fidelity_up_to_scale_witness :
  exists a b,
    faithfulness.local_fidelity weights_based_on_distance
      explainer sum_above_one labelled [1%Q] w0
    = (Ret (NpFloat64 (Finite a)), w0)
    /\ faithfulness.local_fidelity doubled_kernel
         explainer sum_above_one labelled [1%Q] w0
       = (Ret (NpFloat64 (Finite b)), w0)
    /\ (a == b)%Q.
Proof.
  apply (local_fidelity_up_to_scale weights_based_on_distance doubled_kernel
           explainer sum_above_one labelled [1%Q] features
           [0; 0; 1; 1] [0; 1; 1; 1] [1 # 2; 1; 1 # 2; 1 # 5]%Q 2%Q
           w0 w0 w0 w0).
  - vm_compute. reflexivity.
  - vm_compute. reflexivity.
  - vm_compute. reflexivity.
  - reflexivity.
  - reflexivity.
  - discriminate.
  - vm_compute. reflexivity.
  - vm_compute. reflexivity.
  - reflexivity.
  - vm_compute. discriminate.
  - vm_compute. discriminate.
Defined.

Lemma metric_is_symmetric_in_the_models_witness :
  metric weights_based_on_distance weight_based_on_class_imbalance
    DistanceAndClass explainer sum_above_one labelled [1%Q] w0
  = metric weights_based_on_distance weight_based_on_class_imbalance
      DistanceAndClass sum_above_one explainer labelled [1%Q] w0.
Proof.
  apply (metric_is_symmetric_in_the_models weights_based_on_distance
           weight_based_on_class_imbalance DistanceAndClass explainer
           sum_above_one labelled [1%Q] features
           [0; 0; 1; 1] [0; 1; 1; 1] w0).
  - vm_compute. reflexivity.
  - vm_compute. reflexivity.
  - vm_compute. reflexivity.
  - reflexivity.
Defined.

(** The weightings [2; 2/3] of the labelled example become the int64
    weights 2 and 0. *)
Lemma get_class_weights_by_label_witness :
  exists weights,
    faithfulness._get_class_weights weight_based_on_class_imbalance labelled w0
    = (Ret (IVec weights), w0)
    /\ length weights = length [0; 1; 1; 1]
    /\ forall i l, [0; 1; 1; 1] !! i = Some l ->
         (forall x, 0 <= l -> [2; 2 # 3]%Q !! Z.to_nat l = Some x ->
            weights !! i = Some (Qtrunc x))
         /\ (l < 0 \/ Z.of_nat (length [2; 2 # 3]%Q) <= l ->
             weights !! i = Some l).
Proof.
  apply (get_class_weights_by_label weight_based_on_class_imbalance labelled
           [0; 1; 1; 1] [2; 2 # 3]%Q w0 w0).
  - vm_compute. reflexivity.
  - vm_compute. reflexivity.
Defined.

(** With the class shares [3/4; 1/4] as weightings every row of the
    labelled example is weighted 0 and the score is [nan]. *)
Lemma bal_fidelity_with_fractional_weightings_witness :
  faithfulness._get_class_weights share_of_the_other_class labelled w0
  = (Ret (IVec (map (fun _ => 0) [0; 1; 1; 1])), w0)
  /\ faithfulness.bal_fidelity share_of_the_other_class
       explainer sum_above_one labelled w0
     = (Ret (NpFloat64 NaN), divide_warned w0).
Proof.
  apply (bal_fidelity_with_fractional_weightings share_of_the_other_class
           labelled [0; 1; 1; 1] [3 # 4; 1 # 4]%Q w0 w0)
    with (X := features) (pb := [0; 0; 1; 1]) (pe := [0; 1; 1; 1]) (u1 := w0).
  - vm_compute. reflexivity.
  - vm_compute. reflexivity.
  - vm_compute. reflexivity.
  - vm_compute. reflexivity.
  - vm_compute. reflexivity.
  - reflexivity.
  - reflexivity.
  - reflexivity.
  - discriminate.
  - repeat (apply List.Forall_cons; [vm_compute; split; [discriminate | reflexivity]|]).
    apply List.Forall_nil.
  - repeat (apply List.Forall_cons; [vm_compute; split; reflexivity|]).
    apply List.Forall_nil.
Defined.

(** The explainer constructed in the reference scenario is a trained
    one. *)
Lemma constructed_explainer_is_trained_witness :
  exists e u,
    construct sum_above_one [1 # 2; 1 # 2]%Q None None 4
      false false true false w0 = (Ret e, u)
    /\ configuration e
       = ([1 # 2; 1 # 2]%Q, None, None, 4, false, false, true, false)
    /\ exists m X p,
         BLIMEY.surrogate_model e = Some m
         /\ (forall w, BLIMEY.get_surrogate_model e w = (Ret m, w))
         /\ BLIMEY.sampled_data e !! "X" = Some (Float2D X)
         /\ BLIMEY.sampled_data e !! "p(y)" = Some (Float2D p)
         /\ (exists wa wb, predict_proba sum_above_one X wa = (Ret p, wb))
         /\ (exists weights wc, Ridge_fit 1 X p weights wc = (Ret m, u))
         /\ (false = false ->
             exists cov y w1 w2 w3,
               multivariate_normal [1 # 2; 1 # 2]%Q cov 4 w1 = (Ret X, w2)
               /\ predict sum_above_one X w2 = (Ret y, w3)
               /\ BLIMEY.sampled_data e !! "y" = Some (Int1D y)).
Proof.
  do 2 eexists. split; [vm_compute; reflexivity|].
  apply (constructed_explainer_is_trained multivariate_normal np_cov
           (Ridge_fit 1) balance_oversample weights_based_on_distance
           weight_based_on_class_imbalance sum_above_one
           [1 # 2; 1 # 2]%Q None None 4 false false true false _ w0 _).
  vm_compute. reflexivity.
Defined.

(** The one-feature explainer rejects a row of two entries. *)
Lemma predict_rejects_misshapen_input_witness :
  BLIMEY.predict_proba explainer [[1; 2]]%Q w0 = (Raise ValueError, w0)
  /\ BLIMEY.predict explainer [[1; 2]]%Q w0 = (Raise ValueError, w0).
Proof.
  apply (predict_rejects_misshapen_input explainer surrogate
           [[1; 2]]%Q 1%nat w0).
  - reflexivity.
  - discriminate.
  - repeat constructor.
  - right. apply Exists_cons_hd. discriminate.
Defined.

Lemma predict_needs_a_class_1_column_witness :
  BLIMEY.get_explanation single_target_explainer w0 = (Ret [1 # 3]%Q, w0)
  /\ BLIMEY.predict_proba single_target_explainer [[0]; [1]; [2]]%Q w0
     = (Ret (map (fun x => [(Qsum (zip_with Qmult x [1 # 3]) + (1 # 6))%Q])
                 [[0]; [1]; [2]]%Q), w0)
  /\ BLIMEY.predict single_target_explainer [[0]; [1]; [2]]%Q w0
     = (Raise IndexError, w0).
Proof.
  apply (predict_needs_a_class_1_column single_target_explainer single_target
           [1 # 3]%Q (1 # 6)%Q [[0]; [1]; [2]]%Q w0).
  - reflexivity.
  - reflexivity.
  - reflexivity.
  - discriminate.
  - repeat constructor.
Defined.

(** On the probabilities [[1,0]; [1/2,1/2]; [0,1]] the class weights 2 and
    3 turn unit sample weights into 2, 0 and 3. *)
Lemma class_weight_of_a_sampled_point_witness :
  exists weights',
    BLIMEY.apply_class_weights explainer [2; 3]%Q [1; 1; 1]%Q w0
    = (Ret weights', w0)
    /\ length weights' = length [[1; 0]; [1 # 2; 1 # 2]; [0; 1]]%Q
    /\ forall i x p0 p1 x',
         [1; 1; 1]%Q !! i = Some x ->
         [[1; 0]; [1 # 2; 1 # 2]; [0; 1]]%Q !! i = Some [p0; p1] ->
         weights' !! i = Some x' ->
         ((1 # 2 < p1)%Q -> (x' == x * 3)%Q)
         /\ ((p1 < 1 # 2)%Q -> (x' == x * 2)%Q)
         /\ ((p1 == 1 # 2)%Q -> (x' == 0)%Q).
Proof.
  apply (class_weight_of_a_sampled_point explainer
           [[1; 0]; [1 # 2; 1 # 2]; [0; 1]]%Q 2%Q 3%Q [1; 1; 1]%Q w0).
  - reflexivity.
  - repeat (apply List.Forall_cons;
            [eexists _, _; split; [reflexivity|];
             repeat split; vm_compute; try discriminate; reflexivity|]).
    apply List.Forall_nil.
  - reflexivity.
Defined.

(** The surrogate of the example has the coefficient rows [-1/3] and
    [1/3] and the intercepts 5/6 and 1/6. *)
Lemma explanation_counts_against_class_1_witness :
  exists labels,
    BLIMEY.get_explanation explainer w0 = (Ret [-1 # 3]%Q, w0)
    /\ BLIMEY.predict explainer [[0]; [1]; [2]]%Q w0 = (Ret labels, w0)
    /\ BLIMEY.predict_proba explainer [[0]; [1]; [2]]%Q w0
       = (Ret (linear_output surrogate [[0]; [1]; [2]]%Q), w0)
    /\ Forall (fun row => exists p0 p1, row = [p0; p1] /\ (p0 + p1 == 1)%Q)
              (linear_output surrogate [[0]; [1]; [2]]%Q)
    /\ forall i x, [[0]; [1]; [2]]%Q !! i = Some x ->
         ((Qsum (zip_with Qmult x [-1 # 3]) + (5 # 6) <= 1 # 2)%Q ->
          labels !! i = Some 1)
         /\ ((1 # 2 < Qsum (zip_with Qmult x [-1 # 3]) + (5 # 6))%Q ->
             labels !! i = Some 0).
Proof.
  apply (explanation_counts_against_class_1 explainer surrogate
           [-1 # 3]%Q [1 # 3]%Q (5 # 6)%Q (1 # 6)%Q [[0]; [1]; [2]]%Q w0).
  - reflexivity.
  - reflexivity.
  - reflexivity.
  - repeat constructor.
  - reflexivity.
  - discriminate.
  - repeat constructor.
Defined.

(** Three samples asked, two rows returned: one of each class. *)
Lemma get_gaussian_is_balanced_witness :
  exists (D0 D1 X : matrix) (y : list Z),
    gaussian_data 3 (datasets.Int 1) (Some (datasets.NestedList default_cov))
      false w0
    = (Ret (<["y" := datasets.Vector (IVec y)]>
              (<["X" := datasets.Matrix X]> ∅)), w0)
    /\ Z.of_nat (length X) = 2 * Z.quot 3 2
    /\ Z.of_nat (length (filter (fun l => l = 0) y)) = Z.quot 3 2
    /\ Z.of_nat (length (filter (fun l => l = 1) y)) = Z.quot 3 2
    /\ forall i x l, X !! i = Some x -> y !! i = Some l ->
         (l = 0 /\ x ∈ D0) \/ (l = 1 /\ x ∈ D1).
Proof.
  exists [[27 # 1024; 55 # 128]]%Q, [[81 # 128; 1057 # 1024]]%Q,
         [[81 # 128; 1057 # 1024]; [27 # 1024; 55 # 128]]%Q, [1; 0].
  apply (get_gaussian_is_balanced random_seed default_rng_multivariate_normal
           shuffle 3 (datasets.Int 1)
           (Some (datasets.NestedList default_cov)) false
           {| datasets.mean := [0; 0]%Q; datasets.cov := default_cov;
              datasets.data := None |}
           [[27 # 1024; 55 # 128]]%Q [[81 # 128; 1057 # 1024]]%Q
           [[81 # 128; 1057 # 1024]; [27 # 1024; 55 # 128]]%Q [1; 0]
           w0 w0 w0 w0).
  - reflexivity.
  - vm_compute. reflexivity.
  - vm_compute. reflexivity.
  - vm_compute. reflexivity.
  - repeat constructor.
  - reflexivity.
  - reflexivity.
  - vm_compute. reflexivity.
  - reflexivity.
  - apply perm_swap.
Defined.

Lemma class_seeds_are_distinct_witness :
  NoDup [datasets.class_seed random_seed 0 false;
         datasets.class_seed random_seed 1 false;
         datasets.class_seed random_seed 0 true;
         datasets.class_seed random_seed 1 true].
Proof.
  apply (class_seeds_are_distinct random_seed). vm_compute. discriminate.
Defined.

(** The default covariance with [var=2] is a list of four rows. *)
Lemma get_gaussian_rejects_var_with_list_covariance_witness :
  (forall v,
     gaussian_data 200 (datasets.Float v)
       (Some (datasets.NestedList default_cov)) false w0
     = (Raise TypeError, w0))
  /\ (forall z, z <> 1 ->
        gaussian_data 200 (datasets.Int z)
          (Some (datasets.NestedList default_cov)) false w0
        = (Raise ValueError, w0)).
Proof.
  apply (get_gaussian_rejects_var_with_list_covariance random_seed
           default_rng_multivariate_normal shuffle 200 default_cov false w0).
  - intros seed mean C size w Hlen.
    unfold default_rng_multivariate_normal.
    destruct (seed <? 0); [reflexivity|].
    apply Nat.eqb_neq in Hlen. rewrite Hlen, andb_false_r. reflexivity.
  - reflexivity.
Defined.

Lemma get_gaussian_without_samples_witness :
  gaussian_data 1 (datasets.Int 1) (Some (datasets.NestedList default_cov))
    false w0
  = (Ret (<["y" := datasets.Vector (FVec [])]>
            (<["X" := datasets.Matrix []]> ∅)), w0).
Proof.
  apply (get_gaussian_without_samples random_seed
           default_rng_multivariate_normal shuffle 1 (datasets.Int 1)
           (Some (datasets.NestedList default_cov)) false
           {| datasets.mean := [0; 0]%Q; datasets.cov := default_cov;
              datasets.data := None |} w0 w0 w0 w0).
  - lia.
  - reflexivity.
  - vm_compute. reflexivity.
  - vm_compute. reflexivity.
  - vm_compute. reflexivity.
Defined.
